(** * Generic feature-subset selection: candidate generators and search driver

    A shallow embedding of [mlxtend/feature_selection/generic_selector.py]:
    the exhaustive generator [MinMaxCandidates], the stepwise generator
    [StepCandidates], the factory functions [min_max_candidates] and
    [step_candidates], and the search driver [FeatureSelector]
    ([fit], [_batch], [update_results_check], [postprocess],
    [get_metric_dict]).

    Python objects are modelled as follows.
    - A raised exception is the [Raise] branch of [result].
    - A score is a binary64 value as far as comparisons see it: NaN, the
      two infinities, or a finite value standing for the rational it
      denotes.  No floating-point arithmetic is performed here: the means
      and statistics computed by numpy and scipy are parameters.
    - A state is a tuple of feature identifiers, a [list] of [nat].
    - A [dict] is an association list kept in insertion order, as Python
      iterates it.
    - A generator object is an [iterator]: the items it yields, ending in
      exhaustion or in a raised exception. *)

From Stdlib Require Import String List ZArith QArith Bool Arith Lia Lqa Sorted
Permutation.
Import ListNotations.

Local Open Scope nat_scope.

(** ** Exceptions and fallible results *)

Inductive exn : Type :=
| AttributeError
| ValueError
| TypeError
| KeyError
| IndexError
| KeyboardInterrupt.

Inductive result (A : Type) : Type :=
| Ok (a : A)
| Raise (e : exn).

Arguments Ok {A} a.
Arguments Raise {A} e.

Definition bind {A B : Type} (m : result A) (k : A -> result B) : result B :=
  match m with
  | Ok a => k a
  | Raise e => Raise e
  end.

Notation "x <- m ;; k" := (bind m (fun x => k))
  (at level 61, m at next level, right associativity).

(** ** Scores *)

Inductive score : Type :=
| NaN
| NegInf
| Fin (q : Q)
| PosInf.

(** [a > b] on floats: false as soon as one side is NaN. *)
Definition score_gt (a b : score) : bool :=
  match a, b with
  | NaN, _ => false
  | _, NaN => false
  | NegInf, _ => false
  | _, PosInf => false
  | Fin x, Fin y => negb (Qle_bool x y)
  | Fin _, NegInf => true
  | PosInf, _ => true
  end.

(** [a <= b] on floats: false as soon as one side is NaN. *)
Definition score_le (a b : score) : bool :=
  match a, b with
  | NaN, _ => false
  | _, NaN => false
  | NegInf, _ => true
  | _, PosInf => true
  | Fin x, Fin y => Qle_bool x y
  | Fin _, NegInf => false
  | PosInf, _ => false
  end.

(** [a >= b] on floats. *)
Definition score_ge (a b : score) : bool := score_le b a.

Definition is_nan (a : score) : bool :=
  match a with
  | NaN => true
  | _ => false
  end.

(** ** Feature identifiers, states, sets *)

Definition feature : Type := nat.

(** A state is a tuple of feature identifiers. *)
Definition state : Type := list feature.

(** A Python variable holding a state or [None]. *)
Definition pystate : Type := option state.

Fixpoint state_eqb (a b : state) : bool :=
  match a, b with
  | [], [] => true
  | x :: a', y :: b' => Nat.eqb x y && state_eqb a' b'
  | _, _ => false
  end.

Definition mem (c : feature) (s : list feature) : bool :=
  existsb (Nat.eqb c) s.

(** A Python [set] of features: a duplicate-free list; its order is never
    observed, every use goes through [mem], [length] or [sorted]. *)
Definition pyset : Type := list feature.

Fixpoint set_of (l : list feature) : pyset :=
  match l with
  | [] => []
  | x :: l' => if mem x l' then set_of l' else x :: set_of l'
  end.

(** [a | b] *)
Definition set_or (a b : pyset) : pyset :=
  a ++ filter (fun x => negb (mem x a)) b.

(** [a ^ b] *)
Definition set_xor (a b : pyset) : pyset :=
  filter (fun x => negb (mem x b)) a ++ filter (fun x => negb (mem x a)) b.

(** [a.issubset(b)] for a set [a] and any iterable [b]. *)
Definition issubset (a : pyset) (b : list feature) : bool :=
  forallb (fun x => mem x b) a.

Fixpoint insert_sorted (x : feature) (l : list feature) : list feature :=
  match l with
  | [] => [x]
  | y :: l' => if x <=? y then x :: l else y :: insert_sorted x l'
  end.

(** [sorted(l)] *)
Definition sorted (l : list feature) : list feature :=
  fold_right insert_sorted [] l.

(** [range(a, b)] *)
Definition range (a b : nat) : list nat := seq a (b - a).

(** ** Result table *)

Record result_entry : Type := mk_entry {
  cv_scores : list score;
  avg_score : score
}.

Definition dict : Type := list (state * result_entry).

Fixpoint dict_get (d : dict) (k : state) : option result_entry :=
  match d with
  | [] => None
  | (k', v) :: d' => if state_eqb k k' then Some v else dict_get d' k
  end.

(** [d[k] = v]: an existing key keeps its position, a new key goes last. *)
Fixpoint dict_set (d : dict) (k : state) (v : result_entry) : dict :=
  match d with
  | [] => [(k, v)]
  | (k', v') :: d' =>
      if state_eqb k k' then (k', v) :: d' else (k', v') :: dict_set d' k v
  end.

(** [d.update(b)] *)
Definition dict_update (d b : dict) : dict :=
  fold_left (fun acc kv => dict_set acc (fst kv) (snd kv)) b d.

Definition dict_keys (d : dict) : list state := map fst d.

(** [d == {}] *)
Definition dict_is_empty (d : dict) : bool :=
  match d with
  | [] => true
  | _ => false
  end.

(** ** Generator objects *)

Inductive iterator (A : Type) : Type :=
| Stop
| Yield (a : A) (rest : iterator A)
| Throw (e : exn).

Arguments Stop {A}.
Arguments Yield {A} a rest.
Arguments Throw {A} e.

Fixpoint iter_of_list {A : Type} (l : list A) : iterator A :=
  match l with
  | [] => Stop
  | a :: l' => Yield a (iter_of_list l')
  end.

Fixpoint iter_app {A : Type} (i j : iterator A) : iterator A :=
  match i with
  | Stop => j
  | Yield a rest => Yield a (iter_app rest j)
  | Throw e => Throw e
  end.

(** [itertools.chain.from_iterable(its)], where an item of [its] is a
    generator or [None].  Items are opened one after the other while the
    chain is consumed; opening [None] raises TypeError at that point. *)
Fixpoint chain_from_iterable {A : Type} (its : list (option (iterator A)))
  : iterator A :=
  match its with
  | [] => Stop
  | Some it :: its' => iter_app it (chain_from_iterable its')
  | None :: _ => Throw TypeError
  end.

(** The items an iterator yields before it stops or raises. *)
Fixpoint yielded {A : Type} (i : iterator A) : list A :=
  match i with
  | Yield a rest => a :: yielded rest
  | _ => []
  end.

(** How iterating ends: [None] on exhaustion, the exception otherwise. *)
Fixpoint raised {A : Type} (i : iterator A) : option exn :=
  match i with
  | Stop => None
  | Yield _ rest => raised rest
  | Throw e => Some e
  end.

(** ** itertools.combinations and binomial coefficients *)

(** [itertools.combinations(l, r)]: the [r]-element subsequences of [l],
    in lexicographic order of their positions. *)
Fixpoint combinations {A : Type} (l : list A) (r : nat) : list (list A) :=
  match r with
  | 0 => [[]]
  | S r' =>
      match l with
      | [] => []
      | x :: l' => map (cons x) (combinations l' r') ++ combinations l' r
      end
  end.

Fixpoint binomial (n k : nat) : nat :=
  match k with
  | 0 => 1
  | S k' =>
      match n with
      | 0 => 0
      | S n' => binomial n' k' + binomial n' k
      end
  end.

(** C(n,lo) + C(n,lo+1) + ... + C(n,hi) *)
Definition sum_binomial (n lo hi : nat) : nat :=
  list_sum (map (binomial n) (range lo (hi + 1))).

(** [c] is a subsequence of [l]. *)
Inductive subseq {A : Type} : list A -> list A -> Prop :=
| subseq_nil : forall l, subseq [] l
| subseq_take : forall x c l, subseq c l -> subseq (x :: c) (x :: l)
| subseq_skip : forall x c l, subseq c l -> subseq c (x :: l).

(** Lexicographic order on position tuples. *)
Inductive lex_lt : list nat -> list nat -> Prop :=
| lex_nil : forall y b, lex_lt [] (y :: b)
| lex_head : forall x y a b, x < y -> lex_lt (x :: a) (y :: b)
| lex_tail : forall x a b, lex_lt a b -> lex_lt (x :: a) (x :: b).

(** Shorter tuples first, tuples of one size lexicographically. *)
Definition size_lex_lt (a b : list nat) : Prop :=
  length a < length b \/ (length a = length b /\ lex_lt a b).

(** ** Datasets and constructor arguments *)

(** The dataset [X]: a numpy array of a given shape, or a pandas DataFrame
    (the case [hasattr(X, 'loc')]) with its column labels. *)
Inductive dataset : Type :=
| NdArray (n_rows n_cols : nat)
| DataFrame (n_rows : nat) (labels : list feature).

(** [X.shape[0]] and [X.shape[1]] *)
Definition shape0 (X : dataset) : nat :=
  match X with
  | NdArray r _ => r
  | DataFrame r _ => r
  end.

Definition shape1 (X : dataset) : nat :=
  match X with
  | NdArray _ c => c
  | DataFrame _ labels => length labels
  end.

(** [X.columns] for a DataFrame, [np.arange(X.shape[1])] for an array. *)
Definition dataset_columns (X : dataset) : list feature :=
  match X with
  | NdArray _ c => seq 0 c
  | DataFrame _ labels => labels
  end.

(** A Python object passed as [min_features] or [max_features]. *)
Inductive pyobj : Type :=
| PyInt (z : Z)
| PyBool (b : bool)
| PyFloat (q : Q)
| PyStr (s : string)
| PyNone.

(** [isinstance(v, int)]; [bool] is a subclass of [int]. *)
Definition isinstance_int (v : pyobj) : bool :=
  match v with
  | PyInt _ => true
  | PyBool _ => true
  | _ => false
  end.

Definition as_int (v : pyobj) : Z :=
  match v with
  | PyInt z => z
  | PyBool true => 1%Z
  | _ => 0%Z
  end.

(** [seq[i]] with Python's negative indices. *)
Definition py_index {A : Type} (l : list A) (i : Z) : result A :=
  let n := Z.of_nat (length l) in
  let j := if (i <? 0)%Z then (n + i)%Z else i in
  if ((j <? 0) || (n <=? j))%Z then Raise IndexError
  else match nth_error l (Z.to_nat j) with
       | Some a => Ok a
       | None => Raise IndexError
       end.

Fixpoint map_result {A B : Type} (f : A -> result B) (l : list A)
  : result (list B) :=
  match l with
  | [] => Ok []
  | a :: l' => b <- f a ;; bs <- map_result f l' ;; Ok (b :: bs)
  end.

(** The [Column] descriptor of the columns module, as far as this file
    reads it. *)
Record Column : Type := mk_Column {
  col_idx : feature;
  col_name : string;
  col_is_categorical : bool;
  col_is_ordinal : bool;
  col_columns : list string
}.

Fixpoint info_get (info : list (feature * Column)) (col : feature)
  : result Column :=
  match info with
  | [] => Raise KeyError
  | (k, v) :: info' => if Nat.eqb col k then Ok v else info_get info' col
  end.

(** ** MinMaxCandidates *)

Record MinMaxCandidates : Type := mk_MinMaxCandidates {
  columns : list feature;
  min_features : nat;
  max_features : nat;
  column_info_ : list (feature * Column);
  column_map_ : list (feature * (nat * nat));
  _have_already_run : bool;
  fixed_features : pyset
}.

Record StepCandidates : Type := mk_StepCandidates {
  direction : string;
  base : MinMaxCandidates
}.

(** The loop filling [column_map_]. *)
Fixpoint build_column_map (info : list (feature * Column))
  (cols : list feature) (idx : nat) : result (list (feature * (nat * nat))) :=
  match cols with
  | [] => Ok []
  | col :: cols' =>
      c <- info_get info col ;;
      let n := length (col_columns c) in
      rest <- build_column_map info cols' (idx + n) ;;
      Ok ((col, (idx, idx + n)) :: rest)
  end.

Section Generators.

(** The column-encoding helpers live in the columns module, outside this
    file.  They are parameters: each returns its value or raises. *)
Variable categorical_from_df : dataset -> result (list bool * list bool).
Variable check_categories :
  option (list Z) -> dataset -> result (option (list bool)).
Variable get_column_info :
  dataset -> list nat -> list bool -> list bool ->
  result (list (feature * Column)).

(** [check_random_state(random_state).choice(population, k, replace=False)]
    for [k <= len(population)]. *)
Variable rng_choice : nat -> list feature -> nat -> list feature.

(** [MinMaxCandidates.__init__] *)
Definition MinMaxCandidates_init (X : dataset)
  (min_features max_features : pyobj)
  (fixed_features : option (list Z))
  (custom_feature_names : option (list string))
  (categorical_features : option (list Z)) : result MinMaxCandidates :=
  cats <- match X with
          | DataFrame _ _ => categorical_from_df X
          | NdArray _ n_cols =>
              c <- check_categories categorical_features X ;;
              let is_categorical :=
                match c with
                | None => repeat false n_cols
                | Some m => m
                end in
              Ok (is_categorical, repeat false (length is_categorical))
          end ;;
  let self_columns := dataset_columns X in
  let nfeatures := Z.of_nat (shape0 X) in
  if negb (isinstance_int max_features)
     || ((as_int max_features >? nfeatures)%Z
         || (as_int max_features <? 1)%Z)
  then Raise AttributeError
  else if negb (isinstance_int min_features)
          || ((as_int min_features >? nfeatures)%Z
              || (as_int min_features <? 1)%Z)
  then Raise AttributeError
  else if (as_int max_features <? as_int min_features)%Z
  then Raise AttributeError
  else
    info <- get_column_info X (range 0 (shape1 X)) (fst cats) (snd cats) ;;
    cmap <- build_column_map info self_columns 0 ;;
    _ <- match custom_feature_names with
         | Some names =>
             if negb (Z.of_nat (length names) =? nfeatures)%Z
             then Raise ValueError
             else
               (* the renaming loop reads [col.is_categorical] on the
                  column identifier [col] in its first round *)
               match self_columns with
               | [] => Ok tt
               | col :: _ =>
                   _ <- info_get info col ;;
                   _ <- py_index names 0 ;;
                   Raise AttributeError
               end
         | None => Ok tt
         end ;;
    fixed <- match fixed_features with
             | Some fs =>
                 l <- map_result (py_index self_columns) fs ;;
                 Ok (set_of l)
             | None => Ok []
             end ;;
    Ok {| columns := self_columns;
          min_features := Z.to_nat (as_int min_features);
          max_features := Z.to_nat (as_int max_features);
          column_info_ := info;
          column_map_ := cmap;
          _have_already_run := false;
          fixed_features := fixed |}.

(** [StepCandidates.__init__] *)
Definition StepCandidates_init (X : dataset) (direction : string)
  (min_features max_features : pyobj)
  (fixed_features : option (list Z))
  (custom_feature_names : option (list string))
  (categorical_features : option (list Z)) : result StepCandidates :=
  b <- MinMaxCandidates_init X min_features max_features fixed_features
         custom_feature_names categorical_features ;;
  Ok {| direction := direction; base := b |}.

(** [MinMaxCandidates.__call__]: the returned generator (or [None]), and
  the object after the call. *)
Definition MinMaxCandidates_call (self : MinMaxCandidates) (st : pystate)
: option (list state) * MinMaxCandidates :=
if _have_already_run self then (None, self)
else
  let self' := {| columns := columns self;
                  min_features := min_features self;
                  max_features := max_features self;
                  column_info_ := column_info_ self;
                  column_map_ := column_map_ self;
                  _have_already_run := true;
                  fixed_features := fixed_features self |} in
  let chain_ (i : nat) :=
    filter (fun c => issubset (fixed_features self) c)
           (combinations (columns self) i) in
  (Some (flat_map chain_
           (range (min_features self) (max_features self + 1))),
   self').

(** [MinMaxCandidates.check_finished] *)
Definition MinMaxCandidates_check_finished (self : MinMaxCandidates)
(results : dict) (best_state : pystate) (batch_results : dict)
: result (pystate * score * bool) :=
match best_state with
| None => Raise KeyError
| Some b =>
    match dict_get results b with
    | None => Raise KeyError
    | Some e => Ok (best_state, avg_score e, true)
    end
end.

(** [StepCandidates.__call__] *)
Definition StepCandidates_call (self : StepCandidates) (st : pystate)
: result (option (iterator state)) :=
match st with
| None => Raise TypeError
| Some t =>
    let s := set_of t in
    let m := base self in
    let forward :=
      if length s <? max_features m
      then Some (map (fun c => sorted (set_or s (set_of [c])))
                   (filter (fun c =>
                              negb (mem c s)
                              && issubset (fixed_features m)
                                   (set_or s (set_of [c])))
                           (columns m)))
      else None in
    let backward :=
      if min_features m <? length s
      then Some (map (fun c => sorted (set_xor s (set_of [c])))
                   (filter (fun c =>
                              mem c s
                              && issubset (fixed_features m)
                                   (set_xor s (set_of [c])))
                           (columns m)))
      else None in
    if String.eqb (direction self) "forward"
    then Ok (option_map iter_of_list forward)
    else if String.eqb (direction self) "backward"
    then Ok (option_map iter_of_list backward)
    else Ok (Some (chain_from_iterable
                     [option_map iter_of_list forward;
                      option_map iter_of_list backward]))
end.

(** The body of the loop of [StepCandidates.check_finished] over the batch:
  [acc] holds [batch_best_state] and [batch_best_score]. *)
Definition keep_better (acc : pystate * score) (kv : state * result_entry)
: pystate * score :=
if score_gt (avg_score (snd kv)) (snd acc)
then (Some (fst kv), avg_score (snd kv))
else acc.

(** That loop, from [(None, -inf)]. *)
Definition batch_best (batch_results : dict) : pystate * score :=
fold_left keep_better batch_results (None, NegInf).

(** [StepCandidates.check_finished] *)
Definition StepCandidates_check_finished (self : StepCandidates)
(results : dict) (best_state : pystate) (batch_results : dict)
: result (pystate * score * bool) :=
let bb := batch_best batch_results in
match best_state with
| None => Raise KeyError
| Some b =>
    match dict_get results b with
    | None => Raise KeyError
    | Some e => Ok (fst bb, snd bb, score_le (snd bb) (avg_score e))
    end
end.

(** [min_max_candidates]: the initial state and the generator object.
    The other two components of the returned tuple are derived from the
    generator: [build_submodel] closes over its [column_info_] and
    [check_finished] is its bound method. *)
Definition min_max_candidates (X : dataset)
  (min_features_arg max_features_arg : pyobj)
  (fixed_features_arg : option (list Z))
  (custom_feature_names : option (list string))
  (categorical_features : option (list Z))
  : result (state * MinMaxCandidates) :=
  min_max <- MinMaxCandidates_init X min_features_arg max_features_arg
               fixed_features_arg custom_feature_names categorical_features ;;
  let initial_features :=
    match fixed_features min_max with
    | _ :: _ => sorted (fixed_features min_max)
    | [] => range 0 (min_features min_max)
    end in
  Ok (initial_features, min_max).

(** The branch of [step_candidates] on [direction] that settles
    [initial_features]; [None] when it is left at [None]. *)
Definition resolve_initial_features (step : StepCandidates)
  (direction_arg : string) (random_state : nat)
  (initial_features : option (list feature))
  : result (option (list feature)) :=
  let m := base step in
  if String.eqb direction_arg "forward" || String.eqb direction_arg "both"
  then
    let forward_features :=
      match fixed_features m with
      | _ :: _ => sorted (fixed_features m)
      | [] => range 0 (min_features m)
      end in
    if String.eqb direction_arg "forward"
    then Ok (Some forward_features)
    else match initial_features with
         | None => Ok (Some forward_features)
         | Some l => Ok (Some l)
         end
  else if String.eqb direction_arg "backward"
  then
    match initial_features with
    | None =>
        let population := map fst (column_info_ m) in
        if length population <? max_features m
        then Raise ValueError
        else Ok (Some (sorted (rng_choice random_state population
                                 (max_features m))))
    | Some l => Ok (Some l)
    end
  else Ok initial_features.

(** [step_candidates]: the initial state and the generator object (see
    [min_max_candidates] for the other two components). *)
Definition step_candidates (X : dataset) (direction_arg : string)
  (min_features_arg max_features_arg : pyobj) (random_state : nat)
  (fixed_features_arg : option (list Z))
  (initial_features : option (list feature))
  (custom_feature_names : option (list string))
  (categorical_features : option (list Z))
  : result (state * StepCandidates) :=
  step <- StepCandidates_init X direction_arg min_features_arg max_features_arg
            fixed_features_arg custom_feature_names categorical_features ;;
  resolved <- resolve_initial_features step direction_arg random_state
                initial_features ;;
  match resolved with
  | None => Raise TypeError
  | Some initial_features =>
      let initial_state := initial_features in
      if max_features (base step) <? length initial_features
      then Raise ValueError
      else if length initial_features <? min_features (base step)
      then Raise ValueError
      else if negb (issubset (fixed_features (base step))
                      initial_features)
      then Raise ValueError
      else Ok (initial_state, step)
  end.

End Generators.

(** ** Search strategies

    The driver receives a state generator and a termination check.  Both
    factories hand it one generator object for the two roles. *)

Class Strategy (G : Type) : Type := {
  (** [state_generator(state)]: the candidates (a generator or [None]) and
      the generator object after the call *)
  propose : G -> pystate -> result (option (iterator state) * G);
  (** [check_finished(results, best_state, batch_results)] *)
  check_finished :
    G -> dict -> pystate -> dict -> result (pystate * score * bool)
}.

#[export] Instance MinMaxStrategy : Strategy MinMaxCandidates := {
  propose self st :=
    Ok (option_map iter_of_list (fst (MinMaxCandidates_call self st)),
        snd (MinMaxCandidates_call self st));
  check_finished := MinMaxCandidates_check_finished
}.

#[export] Instance StepStrategy : Strategy StepCandidates := {
  propose self st := c <- StepCandidates_call self st ;; Ok (c, self);
  check_finished := StepCandidates_check_finished
}.

(** ** FeatureSelector *)

Section Driver.

Context {G : Type} {strategy : Strategy G}.

(** [_calc_score] on the data of this [fit] call: the per-fold scores of
    a state, or the exception that building the submodel, fitting the
    model or scoring it raises.  The first argument numbers the round (0
    for the initial state), so that a state may score differently when it
    is evaluated again. *)
Variable _calc_score : nat -> state -> result (list score).

(** [np.nanmean] *)
Variable nanmean : list score -> score.

Record FeatureSelector : Type := mk_FeatureSelector {
  initial_state : state;
  state_generator : G;
  results_ : dict;
  best_state_ : pystate;
  best_score_ : score;
  finished : bool;
  interrupted_ : bool;
  fitted : bool;
  _TESTING_INTERRUPT_MODE : bool
}.

Definition set_results_ (self : FeatureSelector) (d : dict) :=
  mk_FeatureSelector (initial_state self) (state_generator self) d
    (best_state_ self) (best_score_ self) (finished self)
    (interrupted_ self) (fitted self) (_TESTING_INTERRUPT_MODE self).

Definition set_state_generator (self : FeatureSelector) (g : G) :=
  mk_FeatureSelector (initial_state self) g (results_ self)
    (best_state_ self) (best_score_ self) (finished self)
    (interrupted_ self) (fitted self) (_TESTING_INTERRUPT_MODE self).

Definition set_best (self : FeatureSelector) (s : pystate) (v : score) :=
  mk_FeatureSelector (initial_state self) (state_generator self)
    (results_ self) s v (finished self)
    (interrupted_ self) (fitted self) (_TESTING_INTERRUPT_MODE self).

Definition set_finished (self : FeatureSelector) (b : bool) :=
  mk_FeatureSelector (initial_state self) (state_generator self)
    (results_ self) (best_state_ self) (best_score_ self) b
    (interrupted_ self) (fitted self) (_TESTING_INTERRUPT_MODE self).

Definition set_interrupted_ (self : FeatureSelector) (b : bool) :=
  mk_FeatureSelector (initial_state self) (state_generator self)
    (results_ self) (best_state_ self) (best_score_ self) (finished self)
    b (fitted self) (_TESTING_INTERRUPT_MODE self).

Definition set_fitted (self : FeatureSelector) (b : bool) :=
  mk_FeatureSelector (initial_state self) (state_generator self)
    (results_ self) (best_state_ self) (best_score_ self) (finished self)
    (interrupted_ self) b (_TESTING_INTERRUPT_MODE self).

(** A method of the selector: it returns or raises, and leaves the
    object in a new state either way. *)
Definition method (A : Type) : Type :=
  FeatureSelector -> result A * FeatureSelector.

(** The evaluation of one batch: candidates are drawn from the generator
    and scored one after the other; the first exception, from the
    generator or from a score computation, ends it. *)
Fixpoint score_candidates (round : nat) (candidates : iterator state)
  : result (list (state * list score)) :=
  match candidates with
  | Stop => Ok []
  | Yield s rest =>
      cv <- _calc_score round s ;;
      work <- score_candidates round rest ;;
      Ok ((s, cv) :: work)
  | Throw e => Raise e
  end.

(** The dictionary [results] that [_batch] fills from the scored
    candidates. *)
Definition batch_of (work : list (state * list score)) : dict :=
  fold_left
    (fun results w =>
       dict_set results (fst w) (mk_entry (snd w) (nanmean (snd w))))
    work [].

(** [_batch] *)
Definition _batch (round : nat) (st : pystate) : method dict :=
  fun self =>
    match propose (state_generator self) st with
    | Raise e => (Raise e, self)
    | Ok (candidates, g) =>
        let self := set_state_generator self g in
        match candidates with
        | None => (Ok [], self)
        | Some it =>
            match score_candidates round it with
            | Raise e => (Raise e, self)
            | Ok work => (Ok (batch_of work), self)
            end
        end
    end.

(** [update_results_check] *)
Definition update_results_check (batch_results : dict)
  : method (pystate * option score * bool) :=
  fun self =>
    if dict_is_empty batch_results
    then (Ok (None, None, true), self)
    else
      let self := set_results_ self
                    (dict_update (results_ self) batch_results) in
      match check_finished (state_generator self) (results_ self)
              (best_state_ self) batch_results with
      | Raise e => (Raise e, self)
      | Ok (cur_state, cur_score, fin) =>
          let self :=
            if score_gt cur_score (best_score_ self)
            then set_best self cur_state cur_score
            else self in
          (Ok (cur_state, Some cur_score, fin), self)
      end.

(** [postprocess] *)
Definition postprocess (self : FeatureSelector) : FeatureSelector :=
  fold_left
    (fun self kv =>
       if score_gt (avg_score (snd kv)) (best_score_ self)
       then set_best self (Some (fst kv)) (avg_score (snd kv))
       else self)
    (results_ self) (set_best self None NegInf).

(** The statements of one round of the [while] loop of [fit]: the batch
    and its merge.  It returns the new [_state]. *)
Definition search_round (round : nat) (_state : pystate) : method pystate :=
  fun self =>
    match _batch round _state self with
    | (Raise e, self) => (Raise e, self)
    | (Ok batch_results, self) =>
        match update_results_check batch_results self with
        | (Raise e, self) => (Raise e, self)
        | (Ok (_state, _, fin), self) => (Ok _state, set_finished self fin)
        end
    end.

(** The body of the [while] loop: a round, then the test hook. *)
Definition loop_body (round : nat) (_state : pystate) : method pystate :=
  fun self =>
    match search_round round _state self with
    | (Raise e, self) => (Raise e, self)
    | (Ok _state, self) =>
        if _TESTING_INTERRUPT_MODE self
        then (Raise KeyboardInterrupt, self)
        else (Ok _state, self)
    end.

(** The [while not self.finished] loop, for at most [fuel] rounds.  The
    outcome is [None] when the rounds are used up before the loop is
    left; the object is returned as it stands at that point. *)
Fixpoint search_loop (fuel round : nat) (_state : pystate)
  (self : FeatureSelector) : option (result unit) * FeatureSelector :=
  if finished self then (Some (Ok tt), self)
  else
    match fuel with
    | 0 => (None, self)
    | S fuel' =>
        match loop_body round _state self with
        | (Raise e, self) => (Some (Raise e), self)
        | (Ok _state, self) => search_loop fuel' (S round) _state self
        end
    end.

(** The start of [fit], up to the [try] statement. *)
Definition fit_init : method unit :=
  fun self =>
    let self := set_interrupted_ (set_finished (set_results_ self []) false)
                  false in
    let _state := initial_state self in
    match _calc_score 0 _state with
    | Raise e => (Raise e, self)
    | Ok _scores =>
        let self := set_best self (Some _state) (nanmean _scores) in
        match update_results_check
                [(_state, mk_entry _scores (nanmean _scores))] self with
        | (Raise e, self) => (Raise e, self)
        | (Ok _, self) => (Ok tt, self)
        end
    end.

(** The [try] statement of [fit]: the loop, and the handler of
    KeyboardInterrupt. *)
Definition fit_try (fuel : nat) (self : FeatureSelector)
  : option (result unit) * FeatureSelector :=
  match search_loop fuel 1 (Some (initial_state self)) self with
  | (Some (Raise KeyboardInterrupt), self) =>
      (Some (Ok tt), set_interrupted_ self true)
  | r => r
  end.

(** [fit], with at most [fuel] rounds of its loop. *)
Definition fit (fuel : nat) (self : FeatureSelector)
  : option (result unit) * FeatureSelector :=
  match fit_init self with
  | (Raise e, self) => (Some (Raise e), self)
  | (Ok _, self) =>
      match fit_try fuel self with
      | (Some (Ok _), self) =>
          (Some (Ok tt), postprocess (set_fitted self true))
      | r => r
      end
  end.


(** [FeatureSelector.__init__], as far as the search reads it.  The
    attributes [best_state_] and [best_score_] are bound by [fit] before
    they are read; until then they hold placeholders here. *)
Definition FeatureSelector_init (initial : state) (g : G)
  : FeatureSelector :=
  mk_FeatureSelector initial g [] None NegInf false false false false.

End Driver.

(** ** Reporting *)

Section Reporting.

Context {G : Type}.

(** [np.std], [scipy.stats.sem], [scipy.stats.t._ppf] and the float
    arithmetic around them. *)
Variable np_std : list score -> score.
Variable stats_sem : list score -> score.
Variable t_ppf : score -> nat -> score.
Variable float_mul : score -> score -> score.
(** [(1 + confidence) / 2.0] *)
Variable upper_quantile : score -> score.

(** What the base classes of [FeatureSelector] ([_BaseXComposition] and
    [MetaEstimatorMixin], both defined outside this file) answer when an
    attribute is looked up on them: a method taking an array and a
    confidence level, or nothing. *)
Variable inherited_attribute :
  string -> option (list score -> score -> result (score * score)).

Record metric_entry : Type := mk_metric_entry {
  m_cv_scores : list score;
  m_avg_score : score;
  ci_bound : option score;
  std_dev : option score;
  std_err : option score
}.

(** The names bound in the body of [class FeatureSelector]. *)
Definition class_attributes : list string :=
  ["__init__"; "named_estimators"; "get_params"; "set_params"; "fit";
   "_batch"; "transform"; "fit_transform"; "get_metric_dict";
   "_check_fitted"; "update_results_check"; "postprocess"]%string.

(** The names assigned on [self] by [__init__] and [fit]. *)
Definition instance_attributes : list string :=
  ["estimator"; "initial_state"; "state_generator"; "build_submodel";
   "check_finished"; "pre_dispatch"; "cv"; "n_jobs"; "verbose";
   "clone_estimator"; "est_"; "scoring"; "scorer"; "fitted"; "results_";
   "interrupted_"; "_TESTING_INTERRUPT_MODE"; "finished"; "best_state_";
   "best_score_"]%string.

Definition has_own_attribute (name : string) : bool :=
  existsb (String.eqb name) (instance_attributes ++ class_attributes).

(** The function [_calc_confidence] defined inside [get_metric_dict]: a
    local name of that call. *)
Definition _calc_confidence (ary : list score) (confidence : score)
  : score * score :=
  let std_err := stats_sem ary in
  let bound := float_mul std_err
                 (t_ppf (upper_quantile confidence) (length ary)) in
  (bound, std_err).

(** [_check_fitted] *)
Definition _check_fitted (self : @FeatureSelector G) : result unit :=
  if fitted self then Ok tt else Raise AttributeError.

(** The attribute [self._calc_confidence].  Neither the instance nor the
    class body binds that name, so the lookup is answered by the base
    classes. *)
Definition self_calc_confidence
  : result (list score -> score -> result (score * score)) :=
  match inherited_attribute "_calc_confidence" with
  | Some f => Ok f
  | None => Raise AttributeError
  end.

(** [get_metric_dict] *)
Definition get_metric_dict (confidence_interval : score)
  (self : @FeatureSelector G)
  : result (list (state * metric_entry)) * @FeatureSelector G :=
  match _check_fitted self with
  | Raise e => (Raise e, self)
  | Ok _ =>
      (* fdict = deepcopy(self.results_); every entry of the copy is
         then completed from the stored scores *)
      (map_result
         (fun kv : state * result_entry =>
            let sd := np_std (cv_scores (snd kv)) in
            f <- self_calc_confidence ;;
            be <- f (cv_scores (snd kv)) confidence_interval ;;
            Ok (fst kv,
                {| m_cv_scores := cv_scores (snd kv);
                   m_avg_score := avg_score (snd kv);
                   ci_bound := Some (fst be);
                   std_dev := Some sd;
                   std_err := Some (snd be) |}))
         (results_ self),
       self)
  end.

End Reporting.

(** ** Vocabulary of the statements *)

(** [s] is a key of [results], [v] is its recorded average, and no
    recorded average is strictly greater. *)
Definition is_argmax (results : dict) (s : state) (v : score) : Prop :=
  (exists e, dict_get results s = Some e /\ avg_score e = v) /\
  forall k e, dict_get results k = Some e -> score_gt (avg_score e) v = false.

(** Every key of the table contains every feature of [F]. *)
Definition keys_contain (F : pyset) (results : dict) : Prop :=
  forall k, In k (dict_keys results) -> issubset F k = true.

(** The identifiers found at the given positions of [columns]. *)
Definition pick (columns : list feature) (positions : list nat) : state :=
  map (fun i => nth i columns 0) positions.

(** The position tuples behind the candidates of the exhaustive search:
    [itertools.combinations] run on the positions 0, 1, ... of the
    columns, kept when the identifiers found there contain the fixed
    features. *)
Definition candidate_positions (self : MinMaxCandidates) : list (list nat) :=
  flat_map
    (fun i =>
       filter (fun p => issubset (fixed_features self) (pick (columns self) p))
              (combinations (seq 0 (length (columns self))) i))
    (range (min_features self) (max_features self + 1)).

(** A generator object as [__init__] leaves it for an array with three
    columns, no fixed feature and the bounds 1 and 3. *)
Definition three_columns (info : list (feature * Column))
  (cmap : list (feature * (nat * nat))) : MinMaxCandidates :=
  {| columns := [0; 1; 2];
     min_features := 1;
     max_features := 3;
     column_info_ := info;
     column_map_ := cmap;
     _have_already_run := false;
     fixed_features := [] |}.

(** Stand-ins for the column-encoding helpers, used where a statement is
    run on concrete data: no categorical column, one design column per
    feature. *)
Definition plain_categorical_from_df (X : dataset)
  : result (list bool * list bool) :=
  Ok (repeat false (shape1 X), repeat false (shape1 X)).

Definition plain_check_categories (categorical_features : option (list Z))
  (X : dataset) : result (option (list bool)) :=
  Ok None.

Definition plain_get_column_info (X : dataset) (cols : list nat)
  (is_categorical is_ordinal : list bool) : result (list (feature * Column)) :=
  Ok (map (fun c => (nth c (dataset_columns X) 0,
                     mk_Column c "X" false false ["X"%string]))
          cols).

(** A draw that takes the first [k] members of the population. *)
Definition first_choice (random_state : nat) (population : list feature)
  (k : nat) : list feature :=
  firstn k population.

(** Stand-ins for the evaluator, used where a statement is run on concrete
    data: a single fold whose score is the number of features, and the
    mean of a single score. *)
Definition score_by_size (round : nat) (s : state) : result (list score) :=
  Ok [Fin (Z.of_nat (length s) # 1)].

Definition first_score (cv : list score) : score := hd NaN cv.

(** An evaluator whose scores change between rounds: every state scores
    9/10 when it is the initial state; later (0,) scores 1/2 and any other
    state 3/5. *)
Definition unstable_scores (round : nat) (s : state) : result (list score) :=
  match round, s with
  | 0, _ => Ok [Fin (9#10)]
  | _, [0] => Ok [Fin (1#2)]
  | _, _ => Ok [Fin (3#5)]
  end.

(** An evaluator that fails to score the initial state (NaN) and scores
    every other state 1/2. *)
Definition nan_then_half (round : nat) (s : state) : result (list score) :=
  match round with
  | 0 => Ok [NaN]
  | _ => Ok [Fin (1#2)]
  end.

(** The statement on post-processing: in a run of [fit] that leaves its
    loop with the object [self2], the best score that [postprocess]
    computes is greater than or equal to the best score held by
    [self2]. *)
Definition postprocess_keeps_best {G : Type} {strategy : Strategy G}
  (evaluate : nat -> state -> result (list score))
  (nanmean : list score -> score) (fuel : nat) (self : FeatureSelector)
  : Prop :=
  forall self1 self2,
    fit_init evaluate nanmean self = (Ok tt, self1) ->
    fit_try evaluate nanmean fuel self1 = (Some (Ok tt), self2) ->
    score_ge (best_score_ (postprocess (set_fitted self2 true)))
             (best_score_ self2) = true.


(** A selector after a run of [fit] that evaluated the single state (0,)
    on two folds. *)
Definition fitted_selector : @FeatureSelector MinMaxCandidates :=
  mk_FeatureSelector [0] (three_columns [] [])
    [([0], mk_entry [Fin (1#2); Fin (7#10)] (Fin (3#5)))]
    (Some [0]) (Fin (3#5)) true false true false.

(** Base classes that bind no attribute. *)
Definition no_inherited_attribute (name : string)
  : option (list score -> score -> result (score * score)) :=
  None.

(** ** Submodels and transform *)

Section Submodel.

(** A column of the design matrix; a matrix is the list of its columns. *)
Variable A : Type.

(** [Column.get_columns(X, fit=True)[0]] on the data at hand: the design
    columns that encode one feature, or the exception raised. *)
Variable get_columns : Column -> result (list A).

(** [build_submodel] as both factories define it, closed over the
    [column_info_] of the generator.  [np.column_stack] refuses an empty
    list of blocks. *)
Definition build_submodel (column_info : list (feature * Column))
  (cols : pystate) : result (list A) :=
  match cols with
  | None => Raise TypeError
  | Some l =>
      blocks <- map_result
                  (fun col => c <- info_get column_info col ;; get_columns c)
                  l ;;
      match blocks with
      | [] => Raise ValueError
      | _ => Ok (concat blocks)
      end
  end.

(** [cross_val_score] on a submodel, and the fit of the model followed by
    one call of the scorer; the first argument numbers the round. *)
Variable cross_val_score : nat -> list A -> result (list score).
Variable fit_and_score : nat -> list A -> result score.

(** [_calc_score], given the selector's [build_submodel] and whether its
    [cv] is set. *)
Definition _calc_score (build : pystate -> result (list A)) (cv : bool)
  (round : nat) (s : state) : result (list score) :=
  X_state <- build (Some s) ;;
  if cv then cross_val_score round X_state
  else (v <- fit_and_score round X_state ;; Ok [v]).

Context {G : Type} {strategy : Strategy G}.

(** [transform] *)
Definition transform (build : pystate -> result (list A))
  (self : @FeatureSelector G) : result (list A) :=
  _ <- _check_fitted self ;;
  build (best_state_ self).

(** [fit_transform], with at most [fuel] rounds of the loop of [fit]. *)
Definition fit_transform (build : pystate -> result (list A)) (cv : bool)
  (nanmean : list score -> score) (fuel : nat) (self : @FeatureSelector G)
  : option (result (list A)) * @FeatureSelector G :=
  match fit (_calc_score build cv) nanmean fuel self with
  | (Some (Ok _), self) => (Some (transform build self), self)
  | (Some (Raise e), self) => (Some (Raise e), self)
  | (None, self) => (None, self)
  end.

End Submodel.

(** ** More vocabulary *)

(** [b] is [a] or strictly greater: how a best score may move. *)
Definition score_not_lower (a b : score) : Prop :=
  b = a \/ score_gt b a = true.

(** One design column per feature, named after its position. *)
Definition plain_get_columns (c : Column) : result (list nat) :=
  Ok [col_idx c].

(** The two generator expressions of [StepCandidates.__call__], on the set
    [s] of the current state. *)
Definition forward_candidates (m : MinMaxCandidates) (s : pyset)
  : list state :=
  map (fun c => sorted (set_or s (set_of [c])))
      (filter (fun c => negb (mem c s)
                        && issubset (fixed_features m) (set_or s (set_of [c])))
              (columns m)).

Definition backward_candidates (m : MinMaxCandidates) (s : pyset)
  : list state :=
  map (fun c => sorted (set_xor s (set_of [c])))
      (filter (fun c => mem c s
                        && issubset (fixed_features m) (set_xor s (set_of [c])))
              (columns m)).

(** Stepwise generators over three columns. *)
Definition forward_three : StepCandidates :=
  {| direction := "forward"; base := three_columns [] [] |}.

Definition backward_three : StepCandidates :=
  {| direction := "backward"; base := three_columns [] [] |}.

(** A selector that was fitted before and holds nothing else. *)
Definition refit_selector : @FeatureSelector MinMaxCandidates :=
  mk_FeatureSelector [0] (three_columns [] []) [] None NegInf
    false false true false.

(** An evaluator every fold of which fails to score. *)
Definition always_nan (round : nat) (s : state) : result (list score) :=
  Ok [NaN].

(** The rounds a stepwise search in one direction can still run from a
    state: the features it can still add, or still remove. *)
Definition rounds_left (forward : bool) (max_features_arg : nat)
  (st : pystate) : nat :=
  match st with
  | None => 0
  | Some t =>
      S (if forward then max_features_arg - length (set_of t)
         else length (set_of t))
  end.

(** A feature count within the bounds of a generator. *)
Definition within_bounds (m : MinMaxCandidates) (n : nat) : Prop :=
  min_features m <= n /\ n <= max_features m.

(** Descriptors of three plain columns, and scorers that return the width
    of the design matrix they are given. *)
Definition three_info : list (feature * Column) :=
  map (fun c => (c, mk_Column c "X" false false ["X"%string])) [0; 1; 2].

Definition width_scores (round : nat) (X : list nat) : result (list score) :=
  Ok [Fin (Z.of_nat (length X) # 1)].

Definition width_score (round : nat) (X : list nat) : result score :=
  Ok (Fin (Z.of_nat (length X) # 1)).


(** * Properties *)

(** ** Basic facts *)

Lemma state_eqb_eq (a b : state) : state_eqb a b = true <-> a = b.
Proof.
  revert b; induction a as [|x a IH]; intros [|y b]; simpl;
    try (split; [discriminate | congruence]); try tauto.
  rewrite andb_true_iff, Nat.eqb_eq, IH.
  split; [intros [-> ->]; reflexivity | intros E; inversion E; auto].
Qed.

Lemma state_eqb_refl (a : state) : state_eqb a a = true.
Proof. apply state_eqb_eq; reflexivity. Qed.

Lemma mem_In (c : feature) (s : list feature) : mem c s = true <-> In c s.
Proof.
  unfold mem; rewrite existsb_exists; split.
  - intros [x [Hx E]]; apply Nat.eqb_eq in E; subst; exact Hx.
  - intros H; exists c; split; [exact H | apply Nat.eqb_refl].
Qed.

Lemma issubset_incl (a : pyset) (b : list feature) :
  issubset a b = true <-> incl a b.
Proof.
  unfold issubset, incl; rewrite forallb_forall; split; intros H x Hx.
  - apply mem_In, H, Hx.
  - apply mem_In, H, Hx.
Qed.

Lemma issubset_nil (b : list feature) : issubset [] b = true.
Proof. reflexivity. Qed.

(** Inversion of a sequence of binds that ends in [Ok]. *)
Ltac bind_ok H :=
  repeat match type of H with
         | bind ?m _ = Ok _ =>
             let E := fresh "E" in
             destruct m eqn:E; simpl in H; [|discriminate H]
         end.

(** ** Construction of the generators *)

(** What the bound checks of [__init__] enforce when construction
    succeeds: the bounds lie between 1 and the number of rows of [X]. *)
Lemma MinMaxCandidates_init_bounds cfd cc gci X mn mx fixed custom cat m :
  MinMaxCandidates_init cfd cc gci X mn mx fixed custom cat = Ok m ->
  1 <= min_features m /\ min_features m <= max_features m /\
  max_features m <= shape0 X /\ columns m = dataset_columns X /\
  _have_already_run m = false.
Proof.
  unfold MinMaxCandidates_init; intros H.
  bind_ok H.
  destruct (negb (isinstance_int mx) || _) eqn:Hmx; [discriminate|].
  destruct (negb (isinstance_int mn) || _) eqn:Hmn; [discriminate|].
  destruct (as_int mx <? as_int mn)%Z eqn:Hlt; [discriminate|].
  apply orb_false_elim in Hmx as [_ Hmx], Hmn as [_ Hmn].
  apply orb_false_elim in Hmx as [Hmx1 Hmx2], Hmn as [Hmn1 Hmn2].
  bind_ok H.
  inversion H; subst; clear H; simpl.
  rewrite Z.gtb_ltb in Hmx1, Hmn1.
  apply Z.ltb_ge in Hmx1, Hmx2, Hmn1, Hmn2, Hlt.
  repeat split; try lia.
Qed.

(** C1 (construction bounds).  The spec bounds [min_features] and
    [max_features] by the number of feature columns of [X].  On an array
    with 2 rows and 5 columns the integers 1 and 3 lie within [1, 5], yet
    construction raises, whatever the column helpers do: the bound checks
    compare against [X_.shape[0]], the number of rows. *)
Theorem init_rejects_bounds_within_columns cfd cc gci :
  shape1 (NdArray 2 5) = 5 /\
  MinMaxCandidates_init cfd cc gci (NdArray 2 5) (PyInt 1) (PyInt 3)
    None None None
  = match cc None (NdArray 2 5) with
    | Ok _ => Raise AttributeError
    | Raise e => Raise e
    end.
Proof.
  split; [reflexivity|].
  unfold MinMaxCandidates_init.
  destruct (cc None (NdArray 2 5)) as [c|e]; reflexivity.
Qed.

(** The other side of the same comparison: with 5 rows and 2 columns the
    bound 4 is accepted although it exceeds the number of columns. *)
Lemma init_accepts_bound_beyond_columns :
  exists m,
    MinMaxCandidates_init plain_categorical_from_df plain_check_categories
      plain_get_column_info (NdArray 5 2) (PyInt 1) (PyInt 4) None None None
    = Ok m /\ max_features m = 4 /\ length (columns m) = 2.
Proof. eexists; split; [reflexivity | split; reflexivity]. Qed.

(** ** StepCandidates.__call__ *)

(** C2 (direction "both").  With three columns, bounds 1 and 3 and the
    state (0,), the backward side is [None] because the state has
    [min_features] elements.  The call returns a chain that yields the two
    forward candidates and then raises TypeError, where the spec expects
    the iteration to end normally. *)
Theorem both_raises_at_min_features info cmap :
  exists it,
    StepCandidates_call
      {| direction := "both"; base := three_columns info cmap |} (Some [0])
    = Ok (Some it)
    /\ yielded it = [[0; 1]; [0; 2]]
    /\ raised it = Some TypeError.
Proof. eexists; repeat split. Qed.

(** At [max_features] elements the forward side is [None] and the chain
    raises before it yields anything. *)
Lemma both_raises_at_max_features info cmap :
  exists it,
    StepCandidates_call
      {| direction := "both"; base := three_columns info cmap |}
      (Some [0; 1; 2])
    = Ok (Some it)
    /\ yielded it = []
    /\ raised it = Some TypeError.
Proof. eexists; repeat split. Qed.

Lemma raised_iter_of_list {A : Type} (l : list A) :
  raised (iter_of_list l) = None.
Proof. induction l; simpl; auto. Qed.

Lemma yielded_iter_of_list {A : Type} (l : list A) :
  yielded (iter_of_list l) = l.
Proof. induction l; simpl; congruence. Qed.

Lemma iter_app_of_list {A : Type} (l1 l2 : list A) :
  iter_app (iter_of_list l1) (iter_of_list l2) = iter_of_list (l1 ++ l2).
Proof. induction l1; simpl; congruence. Qed.

Lemma iter_app_Stop {A : Type} (i : iterator A) : iter_app i Stop = i.
Proof. induction i; simpl; congruence. Qed.

(** Strictly between the two bounds, direction "both" does give the
    forward candidates followed by the backward ones. *)
Lemma both_between_bounds (self : StepCandidates) (t : state) :
  String.eqb (direction self) "forward" = false ->
  String.eqb (direction self) "backward" = false ->
  min_features (base self) < length (set_of t) ->
  length (set_of t) < max_features (base self) ->
  let s := set_of t in
  let m := base self in
  StepCandidates_call self (Some t)
  = Ok (Some (iter_of_list
       (map (fun c => sorted (set_or s (set_of [c])))
          (filter (fun c => negb (mem c s)
                            && issubset (fixed_features m)
                                 (set_or s (set_of [c])))
                  (columns m))
        ++
        map (fun c => sorted (set_xor s (set_of [c])))
          (filter (fun c => mem c s
                            && issubset (fixed_features m)
                                 (set_xor s (set_of [c])))
                  (columns m))))).
Proof.
  intros Hf Hb Hmin Hmax; simpl.
  unfold StepCandidates_call.
  rewrite Hf, Hb.
  apply Nat.ltb_lt in Hmin, Hmax; rewrite Hmin, Hmax; simpl.
  rewrite iter_app_Stop.
  rewrite iter_app_of_list; reflexivity.
Qed.

(** ** Comparisons of scores *)

Lemma Qgt_bool_lt (x y : Q) : negb (Qle_bool x y) = true <-> (y < x)%Q.
Proof.
  rewrite negb_true_iff; split; intros H.
  - apply Qnot_le_lt; intros L; apply Qle_bool_iff in L; congruence.
  - destruct (Qle_bool x y) eqn:E; [|reflexivity].
    apply Qle_bool_iff in E; lra.
Qed.

Lemma Qgt_bool_le (x y : Q) : negb (Qle_bool x y) = false <-> (x <= y)%Q.
Proof. rewrite negb_false_iff; apply Qle_bool_iff. Qed.

Lemma score_gt_irrefl (a : score) : score_gt a a = false.
Proof.
  destruct a; simpl; auto.
  apply Qgt_bool_le; lra.
Qed.

Lemma score_gt_not_nan (a b : score) :
  score_gt a b = true -> is_nan a = false /\ is_nan b = false.
Proof. destruct a, b; simpl; intros H; try discriminate; auto. Qed.

Lemma score_gt_trans (a b c : score) :
  score_gt a b = true -> score_gt b c = true -> score_gt a c = true.
Proof.
  destruct a, b, c; simpl; intros H1 H2; try discriminate; auto.
  apply Qgt_bool_lt in H1, H2; apply Qgt_bool_lt; lra.
Qed.

(** Among scores that are not NaN, [>] is the strict part of a total
    order. *)
Lemma score_gt_cotrans (a b c : score) :
  is_nan b = false ->
  score_gt a c = true -> score_gt a b = true \/ score_gt b c = true.
Proof.
  destruct a, b, c; simpl; intros N H; try discriminate; auto.
  apply Qgt_bool_lt in H.
  destruct (Qlt_le_dec q0 q) as [L|L].
  - left; apply Qgt_bool_lt; exact L.
  - right; apply Qgt_bool_lt; lra.
Qed.

Lemma score_le_not_gt (a b : score) :
  is_nan a = false -> is_nan b = false ->
  score_le a b = negb (score_gt a b).
Proof.
  destruct a, b; simpl; intros Na Nb; try discriminate; auto.
  rewrite negb_involutive; reflexivity.
Qed.

Lemma score_gt_NegInf (a b : score) :
  score_gt a b = true -> score_gt a NegInf = true.
Proof. destruct a, b; simpl; intros H; try discriminate; auto. Qed.

(** ** Termination checks *)

Lemma dict_get_In (d : dict) (k : state) (e : result_entry) :
  dict_get d k = Some e -> In (k, e) d.
Proof.
  induction d as [|[k' v] d IH]; simpl; [discriminate|].
  destruct (state_eqb k k') eqn:E.
  - apply state_eqb_eq in E; subst; intros H; inversion H; auto.
  - auto.
Qed.

(** C3, as the spec states it, at a table where the state handed in is
    not the best one: (0,) scores 1/2 and (1,) scores 9/10. *)
Lemma check_finished_not_argmax :
  ~ exists s v,
      MinMaxCandidates_check_finished (three_columns [] [])
        [([0], mk_entry [Fin (1#2)] (Fin (1#2)));
         ([1], mk_entry [Fin (9#10)] (Fin (9#10)))] (Some [0]) []
      = Ok (Some s, v, true)
      /\ is_argmax [([0], mk_entry [Fin (1#2)] (Fin (1#2)));
                    ([1], mk_entry [Fin (9#10)] (Fin (9#10)))] s v.
Proof.
  intros [s [v [H [_ Hmax]]]].
  inversion H; subst; clear H.
  specialize (Hmax [1] (mk_entry [Fin (9#10)] (Fin (9#10))) eq_refl).
  discriminate Hmax.
Qed.

(** C3, amended.  [MinMaxCandidates.check_finished] returns the state it
    is handed as [best_state], with the average recorded for it and the
    flag [True]; it does not search the table. *)
Theorem MinMaxCandidates_check_finished_returns_best_state
  (self : MinMaxCandidates) (results : dict) (best_state : state)
  (e : result_entry) (batch_results : dict) :
  dict_get results best_state = Some e ->
  MinMaxCandidates_check_finished self results (Some best_state)
    batch_results
  = Ok (Some best_state, avg_score e, true).
Proof. intros H; unfold MinMaxCandidates_check_finished; rewrite H; reflexivity. Qed.

Lemma MinMaxCandidates_check_finished_returns_best_state_witness :
  dict_get [([0], mk_entry [Fin (1#2)] (Fin (1#2)));
            ([1], mk_entry [Fin (9#10)] (Fin (9#10)))] [0]
  = Some (mk_entry [Fin (1#2)] (Fin (1#2)))
  /\ MinMaxCandidates_check_finished (three_columns [] [])
       [([0], mk_entry [Fin (1#2)] (Fin (1#2)));
        ([1], mk_entry [Fin (9#10)] (Fin (9#10)))] (Some [0]) []
     = Ok (Some [0], Fin (1#2), true).
Proof.
  split; [reflexivity|].
  apply (MinMaxCandidates_check_finished_returns_best_state
           (three_columns [] []) _ [0] (mk_entry [Fin (1#2)] (Fin (1#2))) []).
  reflexivity.
Defined.

(** A state that is not a key of the table makes the check raise. *)
Lemma MinMaxCandidates_check_finished_KeyError
  (self : MinMaxCandidates) (results : dict) (best_state : state)
  (batch_results : dict) :
  dict_get results best_state = None ->
  MinMaxCandidates_check_finished self results (Some best_state)
    batch_results
  = Raise KeyError.
Proof. intros H; unfold MinMaxCandidates_check_finished; rewrite H; reflexivity. Qed.

(** The scan of a batch, started from any pair whose score is not NaN. *)
Lemma batch_scan_spec (batch : dict) (s0 : pystate) (v0 : score) :
  is_nan v0 = false ->
  is_nan (snd (fold_left keep_better batch (s0, v0))) = false
  /\ (forall k e, In (k, e) batch ->
        score_gt (avg_score e) (snd (fold_left keep_better batch (s0, v0)))
        = false)
  /\ score_gt v0 (snd (fold_left keep_better batch (s0, v0))) = false
  /\ (fold_left keep_better batch (s0, v0) = (s0, v0)
      \/ exists k e, In (k, e) batch
                     /\ fold_left keep_better batch (s0, v0)
                        = (Some k, avg_score e)).
Proof.
  revert s0 v0; induction batch as [|[k e] batch IH]; intros s0 v0 N; simpl.
  - split; [exact N|]; split; [intros ? ? []|].
    split; [apply score_gt_irrefl | left; reflexivity].
  - change (keep_better (s0, v0) (k, e))
      with (if score_gt (avg_score e) v0
            then (Some k, avg_score e) else (s0, v0)).
    destruct (score_gt (avg_score e) v0) eqn:G.
    + destruct (score_gt_not_nan _ _ G) as [Ne _].
      destruct (IH (Some k) (avg_score e) Ne) as (N' & Hall & Hge & Hr).
      set (r := fold_left keep_better batch (Some k, avg_score e)) in *.
      split; [exact N'|]; split; [|split].
      * intros k' e' [E|Hin]; [inversion E; subst; exact Hge | eauto].
      * destruct (score_gt v0 (snd r)) eqn:G'; [exfalso|reflexivity].
        enough (true = false) by discriminate.
        pose proof (score_gt_trans _ _ _ G G') as T.
        exact (eq_trans (eq_sym T) Hge).
      * right; destruct Hr as [Hr | (k' & e' & Hin & Hr)].
        -- exists k, e; split; [left; reflexivity | exact Hr].
        -- exists k', e'; split; [right; exact Hin | exact Hr].
    + destruct (IH s0 v0 N) as (N' & Hall & Hge & Hr).
      set (r := fold_left keep_better batch (s0, v0)) in *.
      split; [exact N'|]; split; [|split].
      * intros k' e' [E|Hin]; [inversion E; subst | eauto].
        destruct (score_gt (avg_score e') (snd r)) eqn:G'; [|reflexivity].
        destruct (score_gt_cotrans _ v0 _ N G') as [C|C];
          [exact (eq_trans (eq_sym C) G) | exact (eq_trans (eq_sym C) Hge)].
      * exact Hge.
      * destruct Hr as [Hr | (k' & e' & Hin & Hr)]; [left; exact Hr|].
        right; exists k', e'; split; [right; exact Hin | exact Hr].
Qed.

Lemma batch_best_spec (batch : dict) :
  is_nan (snd (batch_best batch)) = false
  /\ (forall k e, In (k, e) batch ->
        score_gt (avg_score e) (snd (batch_best batch)) = false)
  /\ (batch_best batch = (None, NegInf)
      \/ exists k e, In (k, e) batch /\ batch_best batch = (Some k, avg_score e)).
Proof.
  destruct (batch_scan_spec batch None NegInf eq_refl) as (N & Hall & _ & Hr).
  unfold batch_best; auto.
Qed.

(** C4, as the spec states it, at a batch whose only average is NaN: the
    scan never replaces its initial [None], so the state returned is not a
    state of the batch. *)
Lemma step_check_finished_nan_batch :
  StepCandidates_check_finished
    {| direction := "forward"; base := three_columns [] [] |}
    [([0], mk_entry [Fin (1#2)] (Fin (1#2)))] (Some [0])
    [([0; 1], mk_entry [NaN] NaN)]
  = Ok (None, NegInf, true)
  /\ ~ exists b v done,
         StepCandidates_check_finished
           {| direction := "forward"; base := three_columns [] [] |}
           [([0], mk_entry [Fin (1#2)] (Fin (1#2)))] (Some [0])
           [([0; 1], mk_entry [NaN] NaN)]
         = Ok (Some b, v, done)
         /\ (exists e, In (b, e) [([0; 1], mk_entry [NaN] NaN)]
                       /\ avg_score e = v)
         /\ (forall k e, In (k, e) [([0; 1], mk_entry [NaN] NaN)] ->
                         score_gt (avg_score e) v = false)
         /\ (done = true <-> score_gt v (Fin (1#2)) = false).
Proof.
  split; [reflexivity|].
  intros (b & v & done & H & _); discriminate H.
Qed.

(** The same statement fails on its flag when the recorded average of the
    best state is NaN: the batch best 1/2 is not strictly greater than
    NaN, and the search is not declared done. *)
Lemma step_check_finished_nan_best (self : StepCandidates) :
  StepCandidates_check_finished self [([0], mk_entry [NaN] NaN)] (Some [0])
    [([0; 1], mk_entry [Fin (1#2)] (Fin (1#2)))]
  = Ok (Some [0; 1], Fin (1#2), false)
  /\ score_gt (Fin (1#2)) NaN = false.
Proof. split; reflexivity. Qed.

(** C4, amended.  When the table records [best_state] and some average of
    the batch is strictly greater than -inf, [StepCandidates.check_finished]
    returns a state of the batch whose average no average of the batch
    exceeds, together with that average; the flag is the comparison
    [batch best <= recorded best], which is "not strictly greater" as soon
    as the recorded average is not NaN. *)
Theorem StepCandidates_check_finished_batch_best
  (self : StepCandidates) (results : dict) (best_state : state)
  (e0 : result_entry) (batch_results : dict) :
  dict_get results best_state = Some e0 ->
  (exists k e, In (k, e) batch_results
               /\ score_gt (avg_score e) NegInf = true) ->
  exists b e,
    StepCandidates_check_finished self results (Some best_state)
      batch_results
    = Ok (Some b, avg_score e, score_le (avg_score e) (avg_score e0))
    /\ In (b, e) batch_results
    /\ (forall k e', In (k, e') batch_results ->
          score_gt (avg_score e') (avg_score e) = false)
    /\ (is_nan (avg_score e0) = false ->
        (score_le (avg_score e) (avg_score e0) = true
         <-> score_gt (avg_score e) (avg_score e0) = false)).
Proof.
  intros Hbest (k1 & e1 & Hin1 & Hgt1).
  destruct (batch_best_spec batch_results) as (N & Hall & Hr).
  unfold StepCandidates_check_finished; rewrite Hbest.
  destruct Hr as [Hr | (b & e & Hin & Hr)].
  - specialize (Hall k1 e1 Hin1); rewrite Hr in Hall; simpl in Hall.
    rewrite Hgt1 in Hall; discriminate.
  - rewrite Hr in *; simpl in *.
    exists b, e; split; [reflexivity|]; split; [exact Hin|].
    split; [exact Hall|].
    intros N0; rewrite (score_le_not_gt _ _ N N0).
    apply negb_true_iff.
Qed.

Lemma StepCandidates_check_finished_batch_best_witness :
  exists b e,
    StepCandidates_check_finished
      {| direction := "forward"; base := three_columns [] [] |}
      [([0], mk_entry [Fin (1#2)] (Fin (1#2)))] (Some [0])
      [([0; 1], mk_entry [Fin (3#5)] (Fin (3#5)));
       ([0; 2], mk_entry [Fin (7#10)] (Fin (7#10)))]
    = Ok (Some b, avg_score e, score_le (avg_score e) (Fin (1#2)))
    /\ In (b, e) [([0; 1], mk_entry [Fin (3#5)] (Fin (3#5)));
                  ([0; 2], mk_entry [Fin (7#10)] (Fin (7#10)))]
    /\ (forall k e', In (k, e')
                       [([0; 1], mk_entry [Fin (3#5)] (Fin (3#5)));
                        ([0; 2], mk_entry [Fin (7#10)] (Fin (7#10)))] ->
          score_gt (avg_score e') (avg_score e) = false)
    /\ (is_nan (Fin (1#2)) = false ->
        (score_le (avg_score e) (Fin (1#2)) = true
         <-> score_gt (avg_score e) (Fin (1#2)) = false)).
Proof.
  apply (StepCandidates_check_finished_batch_best
           {| direction := "forward"; base := three_columns [] [] |}
           [([0], mk_entry [Fin (1#2)] (Fin (1#2)))] [0]
           (mk_entry [Fin (1#2)] (Fin (1#2)))).
  - reflexivity.
  - exists [0; 1], (mk_entry [Fin (3#5)] (Fin (3#5))).
    split; [left; reflexivity | reflexivity].
Defined.

(** ** step_candidates *)

(** C10.  Once the generator is built and the initial features are
    settled, [step_candidates] raises ValueError when their number exceeds
    [max_features], falls below [min_features], or when a fixed feature is
    missing from them; otherwise it returns them as the initial state,
    with the generator, and they contain every fixed feature. *)
Theorem step_candidates_initial_features cfd cc gci rng
  (X : dataset) (dir : string) (mn mx : pyobj) (rs : nat)
  (fixed : option (list Z)) (initial : option (list feature))
  (custom : option (list string)) (cat : option (list Z))
  (step : StepCandidates) (l : list feature) :
  StepCandidates_init cfd cc gci X dir mn mx fixed custom cat = Ok step ->
  resolve_initial_features rng step dir rs initial = Ok (Some l) ->
  ((max_features (base step) < length l
    \/ length l < min_features (base step)
    \/ issubset (fixed_features (base step)) l = false) ->
   step_candidates cfd cc gci rng X dir mn mx rs fixed initial custom cat
   = Raise ValueError)
  /\
  (~ (max_features (base step) < length l
      \/ length l < min_features (base step)
      \/ issubset (fixed_features (base step)) l = false) ->
   step_candidates cfd cc gci rng X dir mn mx rs fixed initial custom cat
   = Ok (l, step)
   /\ issubset (fixed_features (base step)) l = true).
Proof.
  intros Hinit Hres; unfold step_candidates; rewrite Hinit; simpl.
  rewrite Hres; simpl.
  destruct (max_features (base step) <? length l) eqn:E1.
  { split; [reflexivity|]; intros H; exfalso; apply H.
    left; apply Nat.ltb_lt; exact E1. }
  destruct (length l <? min_features (base step)) eqn:E2.
  { split; [reflexivity|]; intros H; exfalso; apply H.
    right; left; apply Nat.ltb_lt; exact E2. }
  destruct (issubset (fixed_features (base step)) l) eqn:E3; simpl.
  - apply Nat.ltb_ge in E1, E2.
    split; [intros [H|[H|H]]; [lia | lia | discriminate] | auto].
  - split; [reflexivity|]; intros H; exfalso; apply H; auto.
Qed.

(** ** itertools.combinations *)

Lemma combinations_0 {A : Type} (l : list A) : combinations l 0 = [[]].
Proof. destruct l; reflexivity. Qed.

Lemma combinations_cons {A : Type} (x : A) (l : list A) (r : nat) :
  combinations (x :: l) (S r)
  = map (cons x) (combinations l r) ++ combinations l (S r).
Proof. reflexivity. Qed.

Lemma length_combinations {A : Type} (l : list A) (r : nat) :
  length (combinations l r) = binomial (length l) r.
Proof.
  revert r; induction l as [|x l IH]; intros [|r]; simpl; auto.
  rewrite length_app, length_map, !IH; reflexivity.
Qed.

Lemma In_combinations {A : Type} (l : list A) (r : nat) (c : list A) :
  In c (combinations l r) <-> subseq c l /\ length c = r.
Proof.
  revert r c; induction l as [|x l IH]; intros r c.
  - destruct r; simpl.
    + split.
      * intros [<-|[]]; split; [constructor | reflexivity].
      * intros [_ E]; destruct c; [auto | discriminate].
    + split; [intros [] | intros [H E]].
      inversion H; subst; discriminate.
  - destruct r.
    + rewrite combinations_0; simpl; split.
      * intros [<-|[]]; split; [constructor | reflexivity].
      * intros [_ E]; destruct c; [auto | discriminate].
    + rewrite combinations_cons, in_app_iff, in_map_iff; split.
      * intros [[c' [<- Hc']] | H].
        -- apply IH in Hc' as [Hs Hl].
           split; [constructor; exact Hs | simpl; lia].
        -- apply IH in H as [Hs Hl].
           split; [apply subseq_skip; exact Hs | exact Hl].
      * intros [Hs Hl]; inversion Hs; subst.
        -- discriminate Hl.
        -- left; exists c0; split; [reflexivity|].
           apply IH; split; [assumption | simpl in Hl; lia].
        -- right; apply IH; auto.
Qed.

Lemma combinations_map {A B : Type} (f : A -> B) (l : list A) (r : nat) :
  combinations (map f l) r = map (map f) (combinations l r).
Proof.
  revert r; induction l as [|x l IH]; intros [|r]; simpl; auto.
  rewrite map_app, !IH, !map_map; reflexivity.
Qed.

Lemma subseq_incl {A : Type} (c l : list A) : subseq c l -> incl c l.
Proof.
  induction 1; intros y Hy.
  - destruct Hy.
  - destruct Hy as [<-|Hy]; [left; reflexivity | right; auto].
  - right; auto.
Qed.

Lemma pick_seq (l : list feature) : pick l (seq 0 (length l)) = l.
Proof.
  unfold pick; induction l as [|x l IH]; simpl; [reflexivity|].
  f_equal; rewrite <- seq_shift, map_map; exact IH.
Qed.

(** ** Binomial coefficients *)

Lemma binomial_0_r (n : nat) : binomial n 0 = 1.
Proof. destruct n; reflexivity. Qed.

Lemma binomial_gt (n k : nat) : n < k -> binomial n k = 0.
Proof.
  revert k; induction n as [|n IH]; intros [|k] H; simpl; try lia.
  rewrite !IH by lia; reflexivity.
Qed.

Lemma binomial_diag (n : nat) : binomial n n = 1.
Proof.
  induction n as [|n IH]; simpl; [reflexivity|].
  rewrite IH, binomial_gt by lia; reflexivity.
Qed.

(** [binomial] is the binomial coefficient: C(n,k) k! (n-k)! = n! *)
Lemma binomial_fact (n k : nat) :
  k <= n -> binomial n k * (fact k * fact (n - k)) = fact n.
Proof.
  revert k; induction n as [|n IH]; intros k Hk.
  - assert (k = 0) by lia; subst; reflexivity.
  - destruct k as [|k].
    + rewrite binomial_0_r; simpl; lia.
    + destruct (Nat.eq_dec k n) as [->|Hne].
      * rewrite binomial_diag, Nat.sub_diag; simpl; lia.
      * assert (Hk1 : k <= n) by lia.
        assert (Hk2 : S k <= n) by lia.
        pose proof (IH k Hk1) as H1.
        pose proof (IH (S k) Hk2) as H2.
        change (binomial (S n) (S k)) with (binomial n k + binomial n (S k)).
        replace (S n - S k) with (n - k) by lia.
        replace (n - k) with (S (n - S k)) in * by lia.
        change (fact (S k)) with (S k * fact k) in *.
        change (fact (S (n - S k))) with (S (n - S k) * fact (n - S k)) in *.
        change (fact (S n)) with (S n * fact n).
        replace (S n) with (S k + S (n - S k)) at 2 by lia.
        nia.
Qed.

(** ** Sorted lists *)

Lemma StronglySorted_app {A : Type} (R : A -> A -> Prop) (l1 l2 : list A) :
  StronglySorted R l1 -> StronglySorted R l2 ->
  (forall a b, In a l1 -> In b l2 -> R a b) ->
  StronglySorted R (l1 ++ l2).
Proof.
  intros H1 H2 H; induction H1 as [|a l1 S1 IH F]; simpl; [exact H2|].
  constructor.
  - apply IH; intros; apply H; [right|]; assumption.
  - apply Forall_app; split; [exact F|].
    apply Forall_forall; intros b Hb; apply H; [left; reflexivity | exact Hb].
Qed.

Lemma StronglySorted_map {A B : Type} (R : A -> A -> Prop)
  (R' : B -> B -> Prop) (f : A -> B) (l : list A) :
  (forall x y, In x l -> In y l -> R x y -> R' (f x) (f y)) ->
  StronglySorted R l -> StronglySorted R' (map f l).
Proof.
  intros H S; induction S as [|a l S IH F]; simpl; constructor.
  - apply IH; intros; apply H; try right; assumption.
  - apply Forall_forall; intros b Hb.
    apply in_map_iff in Hb as [y [<- Hy]].
    apply H; [left; reflexivity | right; exact Hy|].
    rewrite Forall_forall in F; auto.
Qed.

Lemma StronglySorted_filter {A : Type} (R : A -> A -> Prop)
  (f : A -> bool) (l : list A) :
  StronglySorted R l -> StronglySorted R (filter f l).
Proof.
  induction 1 as [|a l S IH F]; simpl; [constructor|].
  destruct (f a); [|exact IH].
  constructor; [exact IH|].
  rewrite Forall_forall in *; intros b Hb.
  apply filter_In in Hb as [Hb _]; auto.
Qed.

Lemma StronglySorted_weaken {A : Type} (R R' : A -> A -> Prop) (l : list A) :
  (forall x y, In x l -> In y l -> R x y -> R' x y) ->
  StronglySorted R l -> StronglySorted R' l.
Proof.
  intros H S; rewrite <- (map_id l).
  apply StronglySorted_map with (R := R); assumption.
Qed.

(** On increasing positions, [combinations] lists its tuples in
    lexicographic order. *)
Lemma combinations_seq_sorted (a n k : nat) :
  StronglySorted lex_lt (combinations (seq a n) k).
Proof.
  revert a k; induction n as [|n IH]; intros a [|k]; simpl.
  - repeat constructor.
  - constructor.
  - repeat constructor.
  - apply StronglySorted_app.
    + apply StronglySorted_map with (R := lex_lt); [|apply IH].
      intros; apply lex_tail; assumption.
    + apply IH.
    + intros p q Hp Hq.
      apply in_map_iff in Hp as [p' [<- _]].
      apply In_combinations in Hq as [Hs Hl].
      destruct q as [|y q]; [discriminate|].
      apply lex_head.
      assert (Hy : In y (seq (S a) n))
        by (apply (subseq_incl _ _ Hs); left; reflexivity).
      apply in_seq in Hy; lia.
Qed.

Lemma map_filter_comm {A B : Type} (f : A -> B) (P : B -> bool) (l : list A) :
  map f (filter (fun x => P (f x)) l) = filter P (map f l).
Proof.
  induction l as [|x l IH]; simpl; [reflexivity|].
  destruct (P (f x)); simpl; rewrite IH; reflexivity.
Qed.

Lemma map_flat_map_comm {A B C : Type} (f : B -> C) (g : A -> list B)
  (l : list A) :
  map f (flat_map g l) = flat_map (fun a => map f (g a)) l.
Proof.
  induction l as [|a l IH]; simpl; [reflexivity|].
  rewrite map_app, IH; reflexivity.
Qed.

Lemma length_flat_map_sum {A B : Type} (g : A -> list B) (l : list A) :
  length (flat_map g l) = list_sum (map (fun a => length (g a)) l).
Proof.
  induction l as [|a l IH]; simpl; [reflexivity|].
  rewrite length_app, IH; reflexivity.
Qed.

Lemma filter_true {A : Type} (l : list A) : filter (fun _ => true) l = l.
Proof. induction l; simpl; congruence. Qed.

Lemma In_range (i a b : nat) : In i (range a (b + 1)) <-> a <= i <= b.
Proof. unfold range; rewrite in_seq; lia. Qed.

(** ** MinMaxCandidates.__call__ *)

Lemma pick_combinations (cols : list feature) (i : nat) :
  map (pick cols) (combinations (seq 0 (length cols)) i)
  = combinations cols i.
Proof.
  change (map (pick cols) (combinations (seq 0 (length cols)) i))
    with (map (map (fun j => nth j cols 0))
            (combinations (seq 0 (length cols)) i)).
  rewrite <- combinations_map.
  exact (f_equal (fun l => combinations l i) (pick_seq cols)).
Qed.

Lemma candidates_of_positions (self : MinMaxCandidates) (st : pystate) :
  _have_already_run self = false ->
  fst (MinMaxCandidates_call self st)
  = Some (map (pick (columns self)) (candidate_positions self)).
Proof.
  intros Hrun; unfold MinMaxCandidates_call, candidate_positions.
  rewrite Hrun; simpl; f_equal.
  rewrite map_flat_map_comm.
  apply flat_map_ext; intros i.
  rewrite (map_filter_comm (pick (columns self))
             (fun c => issubset (fixed_features self) c)).
  rewrite pick_combinations; reflexivity.
Qed.

Lemma candidate_positions_sorted (self : MinMaxCandidates) :
  StronglySorted size_lex_lt (candidate_positions self).
Proof.
  unfold candidate_positions, range.
  generalize (max_features self + 1 - min_features self) as cnt.
  generalize (min_features self) as lo.
  intros lo cnt; revert lo; induction cnt as [|cnt IH]; intros lo; simpl.
  - constructor.
  - apply StronglySorted_app.
    + apply StronglySorted_filter.
      apply StronglySorted_weaken with (R := lex_lt);
        [|apply combinations_seq_sorted].
      intros x y Hx Hy L; right; split; [|exact L].
      apply In_combinations in Hx as [_ ->], Hy as [_ ->]; reflexivity.
    + apply IH.
    + intros p q Hp Hq; left.
      apply filter_In in Hp as [Hp _].
      apply In_combinations in Hp as [_ Hp].
      apply in_flat_map in Hq as [i [Hi Hq]].
      apply filter_In in Hq as [Hq _].
      apply In_combinations in Hq as [_ Hq].
      apply in_seq in Hi; lia.
Qed.

(** A second call on the same object returns [None]. *)
Lemma MinMaxCandidates_second_call (self : MinMaxCandidates) (st st' : pystate) :
  fst (MinMaxCandidates_call (snd (MinMaxCandidates_call self st)) st') = None.
Proof.
  unfold MinMaxCandidates_call.
  destruct (_have_already_run self) eqn:E; simpl; [rewrite E|]; reflexivity.
Qed.

(** C5.  The first call on a freshly built [MinMaxCandidates] returns
    the subsequences of the columns whose size lies between
    [min_features] and [max_features] and which contain the fixed
    features.  They come in the order of their position tuples: smaller
    sizes first, lexicographic within a size.  Without fixed features
    their number is C(n,min) + ... + C(n,max), [n] the number of columns
    of [X]. *)
Theorem MinMaxCandidates_first_call cfd cc gci
  (X : dataset) (mn mx : pyobj) (fixed : option (list Z))
  (custom : option (list string)) (cat : option (list Z))
  (self : MinMaxCandidates) (st : pystate) :
  MinMaxCandidates_init cfd cc gci X mn mx fixed custom cat = Ok self ->
  exists candidates,
    fst (MinMaxCandidates_call self st) = Some candidates
    /\ (forall c, In c candidates <->
                  subseq c (columns self)
                  /\ min_features self <= length c <= max_features self
                  /\ issubset (fixed_features self) c = true)
    /\ candidates = map (pick (columns self)) (candidate_positions self)
    /\ StronglySorted size_lex_lt (candidate_positions self)
    /\ (fixed_features self = [] ->
        length candidates
        = sum_binomial (shape1 X) (min_features self) (max_features self))
    /\ (forall c, In c candidates -> issubset (fixed_features self) c = true).
Proof.
  intros Hinit.
  destruct (MinMaxCandidates_init_bounds _ _ _ _ _ _ _ _ _ _ Hinit)
    as (_ & _ & _ & Hcols & Hrun).
  assert (Hmem : forall c,
             In c (flat_map
                     (fun i => filter (fun c => issubset (fixed_features self) c)
                                 (combinations (columns self) i))
                     (range (min_features self) (max_features self + 1)))
             <-> subseq c (columns self)
                 /\ min_features self <= length c <= max_features self
                 /\ issubset (fixed_features self) c = true).
  { intros c; rewrite in_flat_map; split.
    - intros (i & Hi & Hc).
      apply In_range in Hi.
      apply filter_In in Hc as [Hc Hf].
      apply In_combinations in Hc as [Hs Hl].
      repeat split; try assumption; lia.
    - intros (Hs & Hl & Hf).
      exists (length c); split; [apply In_range; exact Hl|].
      apply filter_In; split; [|exact Hf].
      apply In_combinations; auto. }
  eexists; split.
  { unfold MinMaxCandidates_call; rewrite Hrun; reflexivity. }
  split; [exact Hmem|].
  split.
  { pose proof (candidates_of_positions self st Hrun) as H.
    unfold MinMaxCandidates_call in H; rewrite Hrun in H; simpl in H.
    inversion H; reflexivity. }
  split; [apply candidate_positions_sorted|].
  split.
  - intros Hfixed; rewrite Hfixed.
    rewrite length_flat_map_sum; unfold sum_binomial.
    f_equal; apply map_ext; intros i.
    change (fun c : list feature => issubset [] c)
      with (fun _ : list feature => true).
    rewrite filter_true.
    transitivity (binomial (length (columns self)) i);
      [apply length_combinations|].
    rewrite Hcols.
    destruct X; simpl; [rewrite length_seq|]; reflexivity.
  - intros c Hc; apply Hmem in Hc; tauto.
Qed.

Lemma MinMaxCandidates_first_call_witness :
  exists self,
    MinMaxCandidates_init plain_categorical_from_df plain_check_categories
      plain_get_column_info (NdArray 4 4) (PyInt 1) (PyInt 2) None None None
    = Ok self
    /\ exists candidates,
        fst (MinMaxCandidates_call self (Some [0])) = Some candidates
        /\ (forall c, In c candidates <->
                      subseq c (columns self)
                      /\ min_features self <= length c <= max_features self
                      /\ issubset (fixed_features self) c = true)
        /\ candidates = map (pick (columns self)) (candidate_positions self)
        /\ StronglySorted size_lex_lt (candidate_positions self)
        /\ (fixed_features self = [] ->
            length candidates
            = sum_binomial (shape1 (NdArray 4 4))
                (min_features self) (max_features self))
        /\ (forall c, In c candidates ->
                      issubset (fixed_features self) c = true).
Proof.
  eexists; split; [reflexivity|].
  apply (MinMaxCandidates_first_call plain_categorical_from_df
           plain_check_categories plain_get_column_info (NdArray 4 4)
           (PyInt 1) (PyInt 2) None None None _ (Some [0])).
  reflexivity.
Defined.

(** Four columns, sizes 1 and 2: the 4 + 6 = 10 candidates, in order. *)
Example four_columns_sizes_1_2 :
  forall self,
    MinMaxCandidates_init plain_categorical_from_df plain_check_categories
      plain_get_column_info (NdArray 4 4) (PyInt 1) (PyInt 2) None None None
    = Ok self ->
    fst (MinMaxCandidates_call self None)
    = Some [[0]; [1]; [2]; [3];
            [0; 1]; [0; 2]; [0; 3]; [1; 2]; [1; 3]; [2; 3]]
    /\ sum_binomial 4 1 2 = 10.
Proof. intros self H; inversion H; subst; split; reflexivity. Qed.

(** With the fixed feature 1, only the candidates containing it remain. *)
Example four_columns_fixed_1 :
  forall self,
    MinMaxCandidates_init plain_categorical_from_df plain_check_categories
      plain_get_column_info (NdArray 4 4) (PyInt 1) (PyInt 2)
      (Some [1%Z]) None None
    = Ok self ->
    fst (MinMaxCandidates_call self None)
    = Some [[1]; [0; 1]; [1; 2]; [1; 3]].
Proof. intros self H; inversion H; subst; reflexivity. Qed.

Lemma step_candidates_initial_features_witness :
  exists step,
    step_candidates plain_categorical_from_df plain_check_categories
      plain_get_column_info first_choice (NdArray 4 3) "backward"
      (PyInt 1) (PyInt 2) 0 (Some [0%Z]) None None None
    = Ok ([0; 1], step)
    /\ issubset (fixed_features (base step)) [0; 1] = true.
Proof.
  eexists.
  refine (proj2 (step_candidates_initial_features plain_categorical_from_df
                   plain_check_categories plain_get_column_info first_choice
                   (NdArray 4 3) "backward" (PyInt 1) (PyInt 2) 0
                   (Some [0%Z]) None None None _ [0; 1] eq_refl eq_refl) _).
  simpl; intros [H|[H|H]]; [lia | lia | discriminate H].
Defined.

(** The same call with the bound 1 on both sides: the drawn feature set is
    kept only when it contains the fixed feature. *)
Example step_candidates_backward_missing_fixed :
  step_candidates plain_categorical_from_df plain_check_categories
    plain_get_column_info first_choice (NdArray 4 3) "backward"
    (PyInt 1) (PyInt 1) 0 (Some [2%Z]) None None None
  = Raise ValueError.
Proof. reflexivity. Qed.

(** ** Dictionaries *)

Lemma dict_set_entries (d : dict) (k : state) (v : result_entry)
  (k' : state) (e' : result_entry) :
  In (k', e') (dict_set d k v) -> In (k', e') d \/ (k', e') = (k, v).
Proof.
  induction d as [|[k0 v0] d IH]; simpl.
  - intros [E|[]]; right; auto.
  - destruct (state_eqb k k0) eqn:E.
    + apply state_eqb_eq in E; subst k0.
      intros [H|H]; [right; auto | left; right; exact H].
    + intros [H|H]; [left; left; exact H|].
      destruct (IH H) as [H'|H']; [left; right; exact H' | right; exact H'].
Qed.

Lemma dict_set_keys (d : dict) (k : state) (v : result_entry) (k' : state) :
  In k' (dict_keys (dict_set d k v)) <-> In k' (dict_keys d) \/ k' = k.
Proof.
  unfold dict_keys; induction d as [|[k0 v0] d IH]; simpl.
  - split; [intros [E|[]]; right; auto | intros [[]|E]; left; auto].
  - destruct (state_eqb k k0) eqn:E; simpl.
    + apply state_eqb_eq in E; subst k0.
      split; [tauto | intros [H|H]; [exact H | left; auto]].
    + rewrite IH; tauto.
Qed.

Lemma dict_update_entries (b d : dict) (k : state) (e : result_entry) :
  In (k, e) (dict_update d b) -> In (k, e) d \/ In (k, e) b.
Proof.
  unfold dict_update; revert d; induction b as [|[k0 v0] b IH]; intros d;
    simpl; [auto|].
  intros H; apply IH in H as [H|H]; [|right; right; exact H].
  apply dict_set_entries in H as [H|H]; [left; exact H|].
  right; left; symmetry; exact H.
Qed.

Lemma dict_update_keys (b d : dict) (k : state) :
  In k (dict_keys (dict_update d b))
  <-> In k (dict_keys d) \/ In k (dict_keys b).
Proof.
  unfold dict_update; revert d; induction b as [|[k0 v0] b IH]; intros d;
    simpl; [tauto|].
  rewrite IH, dict_set_keys; simpl.
  split; [intros [[H|H]|H]; auto | intros [H|[H|H]]; auto].
Qed.

Lemma In_dict_keys (d : dict) (k : state) :
  In k (dict_keys d) <-> exists e, In (k, e) d.
Proof.
  unfold dict_keys; rewrite in_map_iff; split.
  - intros [[k' e] [E H]]; simpl in E; subst; eauto.
  - intros [e H]; exists (k, e); auto.
Qed.

Lemma dict_get_Some_key (d : dict) (k : state) :
  In k (dict_keys d) -> exists e, dict_get d k = Some e.
Proof.
  unfold dict_keys; induction d as [|[k0 v0] d IH]; simpl; [intros []|].
  destruct (state_eqb k k0) eqn:E; [eauto|].
  intros [H|H]; [|auto].
  subst; rewrite state_eqb_refl in E; discriminate.
Qed.

(** ** The methods of the driver, step by step *)

Section DriverFacts.

Context {G : Type} {strategy : Strategy G}.
Variable evaluate : nat -> state -> result (list score).
Variable nanmean : list score -> score.

Local Abbreviation Selector := (@FeatureSelector G).

Lemma score_candidates_work (round : nat) (it : iterator state)
  (work : list (state * list score)) :
  score_candidates evaluate round it = Ok work ->
  forall s cv, In (s, cv) work ->
               In s (yielded it) /\ evaluate round s = Ok cv.
Proof.
  revert work; induction it as [|s0 rest IH|e]; simpl; intros work H.
  - inversion H; subst; intros ? ? [].
  - destruct (evaluate round s0) as [cv0|e] eqn:E; simpl in H; [|discriminate].
    destruct (score_candidates evaluate round rest) as [w|e]; simpl in H;
      [|discriminate].
    inversion H; subst; clear H.
    intros s cv [Heq|Hin].
    + inversion Heq; subst; auto.
    + destruct (IH w eq_refl s cv Hin); auto.
  - discriminate.
Qed.

Lemma fold_dict_set_entries (work : list (state * list score)) (d : dict)
  (k : state) (e : result_entry) :
  In (k, e)
     (fold_left
        (fun results w =>
           dict_set results (fst w) (mk_entry (snd w) (nanmean (snd w))))
        work d) ->
  In (k, e) d
  \/ exists cv, In (k, cv) work /\ e = mk_entry cv (nanmean cv).
Proof.
  revert d; induction work as [|[s cv] work IH]; intros d; simpl; [auto|].
  intros H; apply IH in H as [H|[cv' [H1 H2]]].
  - apply dict_set_entries in H as [H|H]; [left; exact H|].
    inversion H; subst; right; exists cv; auto.
  - right; exists cv'; auto.
Qed.

Lemma batch_of_entries (work : list (state * list score))
  (k : state) (e : result_entry) :
  In (k, e) (batch_of nanmean work) ->
  exists cv, In (k, cv) work /\ e = mk_entry cv (nanmean cv).
Proof.
  intros H; apply fold_dict_set_entries in H as [[]|H]; exact H.
Qed.

(** What [_batch] does: it hands the generator object back to the
    selector and touches nothing else; a returned batch holds scored
    candidates of this round. *)
Lemma _batch_spec (round : nat) (st : pystate) (self self' : Selector)
  (r : result dict) :
  _batch evaluate nanmean round st self = (r, self') ->
  (exists e, propose (state_generator self) st = Raise e
             /\ r = Raise e /\ self' = self)
  \/ (exists c g,
        propose (state_generator self) st = Ok (c, g)
        /\ self' = set_state_generator self g
        /\ ((c = None /\ r = Ok [])
            \/ (exists it e, c = Some it
                  /\ score_candidates evaluate round it = Raise e
                  /\ r = Raise e)
            \/ (exists it work, c = Some it
                  /\ score_candidates evaluate round it = Ok work
                  /\ r = Ok (batch_of nanmean work)))).
Proof.
  unfold _batch; intros H.
  destruct (propose (state_generator self) st) as [[c g]|e] eqn:E.
  - right; exists c, g; split; [reflexivity|].
    destruct c as [it|].
    + destruct (score_candidates evaluate round it) as [work|e] eqn:E';
        inversion H; subst; clear H; split; auto.
      * right; right; exists it, work; auto.
      * right; left; exists it, e; auto.
    + inversion H; subst; auto.
  - left; exists e; inversion H; subst; auto.
Qed.

(** What [update_results_check] does. *)
Lemma update_results_check_spec (batch : dict) (self self' : Selector)
  (r : result (pystate * option score * bool)) :
  update_results_check batch self = (r, self') ->
  (batch = [] /\ r = Ok (None, None, true) /\ self' = self)
  \/ (batch <> []
      /\ let merged := set_results_ self (dict_update (results_ self) batch) in
         (exists e,
             check_finished (state_generator self) (results_ merged)
               (best_state_ self) batch = Raise e
             /\ r = Raise e /\ self' = merged)
         \/ (exists cur_state cur_score fin,
                check_finished (state_generator self) (results_ merged)
                  (best_state_ self) batch = Ok (cur_state, cur_score, fin)
                /\ r = Ok (cur_state, Some cur_score, fin)
                /\ self' = if score_gt cur_score (best_score_ self)
                           then set_best merged cur_state cur_score
                           else merged)).
Proof.
  unfold update_results_check; intros H.
  destruct batch as [|kv batch]; simpl in H.
  - left; inversion H; auto.
  - right; split; [discriminate|]; simpl.
    destruct (check_finished _ _ _ _) as [[[cs sc] fin]|e] eqn:E.
    + right; exists cs, sc, fin; inversion H; subst; auto.
    + left; exists e; inversion H; subst; auto.
Qed.

Lemma postprocess_fields (self : Selector) :
  results_ (postprocess self) = results_ self
  /\ state_generator (postprocess self) = state_generator self
  /\ fitted (postprocess self) = fitted self
  /\ interrupted_ (postprocess self) = interrupted_ self
  /\ initial_state (postprocess self) = initial_state self.
Proof.
  unfold postprocess.
  assert (H : forall (l : dict) (s : Selector),
             let s' := fold_left
                         (fun self kv =>
                            if score_gt (avg_score (snd kv)) (best_score_ self)
                            then set_best self (Some (fst kv))
                                   (avg_score (snd kv))
                            else self) l s in
             results_ s' = results_ s
             /\ state_generator s' = state_generator s
             /\ fitted s' = fitted s
             /\ interrupted_ s' = interrupted_ s
             /\ initial_state s' = initial_state s).
  { induction l as [|kv l IH]; intros s; simpl; [tauto|].
    specialize (IH (if score_gt (avg_score (snd kv)) (best_score_ s)
                    then set_best s (Some (fst kv)) (avg_score (snd kv))
                    else s)).
    simpl in IH.
    destruct (score_gt (avg_score (snd kv)) (best_score_ s)); exact IH. }
  exact (H (results_ self) (set_best self None NegInf)).
Qed.

End DriverFacts.

(** ** Invariants of the search loop *)

Section FitInvariant.

Context {G : Type} {strategy : Strategy G}.
Variable evaluate : nat -> state -> result (list score).
Variable nanmean : list score -> score.

Local Abbreviation Selector := (@FeatureSelector G).

(** [I] is a property of the selector object, [B] one of the batches. *)
Variable I : Selector -> Prop.
Variable B : dict -> Prop.

Hypothesis I_batch :
  forall round st self r self',
    I self -> _batch evaluate nanmean round st self = (r, self') ->
    I self' /\ forall b, r = Ok b -> B b.
Hypothesis I_update :
  forall b self r self',
    I self -> B b -> update_results_check b self = (r, self') -> I self'.
Hypothesis I_finished : forall self b, I self -> I (set_finished self b).
Hypothesis I_interrupted :
  forall self b, I self -> I (set_interrupted_ self b).

Lemma search_round_invariant (round : nat) (st : pystate)
  (self self' : Selector) (r : result pystate) :
  I self -> search_round evaluate nanmean round st self = (r, self') ->
  I self'.
Proof.
  intros HI H; unfold search_round in H.
  destruct (_batch evaluate nanmean round st self) as [rb s1] eqn:Eb.
  destruct (I_batch _ _ _ _ _ HI Eb) as [HI1 HB].
  destruct rb as [batch|e]; [|inversion H; subst; exact HI1].
  destruct (update_results_check batch s1) as [ru s2] eqn:Eu.
  pose proof (I_update _ _ _ _ HI1 (HB batch eq_refl) Eu) as HI2.
  destruct ru as [[[st' sc] fin]|e]; inversion H; subst; auto.
Qed.

Lemma loop_body_invariant (round : nat) (st : pystate)
  (self self' : Selector) (r : result pystate) :
  I self -> loop_body evaluate nanmean round st self = (r, self') ->
  I self'.
Proof.
  intros HI H; unfold loop_body in H.
  destruct (search_round evaluate nanmean round st self) as [rr s1] eqn:Er.
  pose proof (search_round_invariant _ _ _ _ _ HI Er) as HI1.
  destruct rr as [st'|e]; [|inversion H; subst; exact HI1].
  destruct (_TESTING_INTERRUPT_MODE s1); inversion H; subst; exact HI1.
Qed.

Lemma search_loop_invariant (fuel round : nat) (st : pystate)
  (self : Selector) :
  I self -> I (snd (search_loop evaluate nanmean fuel round st self)).
Proof.
  revert round st self; induction fuel as [|fuel IH]; intros round st self HI;
    simpl.
  - destruct (finished self); exact HI.
  - destruct (finished self); [exact HI|].
    destruct (loop_body evaluate nanmean round st self) as [r s1] eqn:E.
    pose proof (loop_body_invariant _ _ _ _ _ HI E) as HI1.
    destruct r as [st'|e]; [apply IH; exact HI1 | exact HI1].
Qed.

Lemma fit_try_invariant (fuel : nat) (self : Selector) :
  I self -> I (snd (fit_try evaluate nanmean fuel self)).
Proof.
  intros HI; unfold fit_try.
  pose proof (search_loop_invariant fuel 1 (Some (initial_state self)) self HI)
    as H.
  destruct (search_loop evaluate nanmean fuel 1 (Some (initial_state self))
              self) as [[[u|e]|] s1]; simpl in *; auto.
  destruct e; simpl; auto.
Qed.

(** The start of [fit]: the invariant has to hold of the emptied object
    and of the object once the initial state is scored. *)
Lemma fit_init_invariant (self self' : Selector) (r : result unit) :
  (forall e,
      evaluate 0 (initial_state self) = Raise e ->
      I (set_interrupted_ (set_finished (set_results_ self []) false) false)) ->
  (forall scores,
      evaluate 0 (initial_state self) = Ok scores ->
      I (set_best
           (set_interrupted_ (set_finished (set_results_ self []) false) false)
           (Some (initial_state self)) (nanmean scores))
      /\ B [(initial_state self, mk_entry scores (nanmean scores))]) ->
  fit_init evaluate nanmean self = (r, self') -> I self'.
Proof.
  intros H0 H1 H; unfold fit_init in H; simpl in H.
  destruct (evaluate 0 (initial_state self)) as [scores|e] eqn:E.
  - destruct (H1 scores eq_refl) as [HI HB].
    destruct (update_results_check _ _) as [ru s1] eqn:Eu in H.
    pose proof (I_update _ _ _ _ HI HB Eu) as HI1.
    destruct ru; inversion H; subst; exact HI1.
  - inversion H; subst; exact (H0 e eq_refl).
Qed.

End FitInvariant.

(** ** Fixed features in the result table *)

Lemma insert_sorted_In (x y : feature) (l : list feature) :
  In y (insert_sorted x l) <-> y = x \/ In y l.
Proof.
  induction l as [|z l IH]; simpl.
  - split; [intros [H|[]]; auto | intros [H|[]]; auto].
  - destruct (x <=? z); simpl; [split; intros [H|H]; auto|].
    rewrite IH; split; [intros [H|[H|H]]; auto | intros [H|[H|H]]; auto].
Qed.

Lemma sorted_In (y : feature) (l : list feature) :
  In y (sorted l) <-> In y l.
Proof.
  unfold sorted; induction l as [|x l IH]; simpl; [tauto|].
  rewrite insert_sorted_In, IH; split; intros [H|H]; auto.
Qed.

Lemma issubset_sorted (a : pyset) (l : list feature) :
  issubset a (sorted l) = issubset a l.
Proof.
  destruct (issubset a l) eqn:E.
  - apply issubset_incl; apply issubset_incl in E.
    intros x Hx; apply sorted_In; auto.
  - destruct (issubset a (sorted l)) eqn:E'; [|reflexivity].
    apply issubset_incl in E'.
    assert (H : issubset a l = true)
      by (apply issubset_incl; intros x Hx; apply sorted_In; auto).
    congruence.
Qed.

Lemma issubset_refl (a : pyset) : issubset a a = true.
Proof. apply issubset_incl; apply incl_refl. Qed.

Lemma yielded_iter_app {A : Type} (i j : iterator A) (a : A) :
  In a (yielded (iter_app i j)) -> In a (yielded i) \/ In a (yielded j).
Proof.
  induction i as [|x rest IH|e]; simpl; auto.
  intros [H|H]; [auto | destruct (IH H); auto].
Qed.

Section KeysContainFixed.

Context {G : Type} {strategy : Strategy G}.
Variable evaluate : nat -> state -> result (list score).
Variable nanmean : list score -> score.

Local Abbreviation Selector := (@FeatureSelector G).

(** The fixed features, and what identifies the generators built on
    them. *)
Variable F : pyset.
Variable P : G -> Prop.

Hypothesis propose_contains :
  forall g st c g',
    P g -> propose g st = Ok (c, g') ->
    P g' /\ forall it, c = Some it ->
                       forall s, In s (yielded it) -> issubset F s = true.

Lemma _batch_keys (round : nat) (st : pystate) (self : Selector)
  (r : result dict) (self' : Selector) :
  P (state_generator self) /\ keys_contain F (results_ self) ->
  _batch evaluate nanmean round st self = (r, self') ->
  (P (state_generator self') /\ keys_contain F (results_ self'))
  /\ forall b, r = Ok b -> keys_contain F b.
Proof.
  intros [HP HK] H.
  apply _batch_spec in H
    as [(e & Hp & -> & ->) | (c & g & Hp & -> & Hc)].
  - split; [auto | discriminate].
  - destruct (propose_contains _ _ _ _ HP Hp) as [HP' Hy].
    split; [split; auto|].
    intros b Hb.
    destruct Hc as [[-> ->] | [(it & e & -> & _ & ->) | (it & w & -> & Hw & ->)]].
    + inversion Hb; subst; intros k [].
    + discriminate.
    + inversion Hb; subst; clear Hb.
      intros k Hk; apply In_dict_keys in Hk as [e He].
      apply batch_of_entries in He as (cv & Hin & _).
      destruct (score_candidates_work _ _ _ _ Hw _ _ Hin) as [Hyield _].
      exact (Hy it eq_refl k Hyield).
Qed.

Lemma update_results_check_keys (b : dict) (self : Selector)
  (r : result (pystate * option score * bool)) (self' : Selector) :
  P (state_generator self) /\ keys_contain F (results_ self) ->
  keys_contain F b ->
  update_results_check b self = (r, self') ->
  P (state_generator self') /\ keys_contain F (results_ self').
Proof.
  intros [HP HK] HB H.
  assert (HM : keys_contain F (dict_update (results_ self) b)).
  { intros k Hk; apply dict_update_keys in Hk as [Hk|Hk]; auto. }
  apply update_results_check_spec in H
    as [(-> & -> & ->) | (Hne & [(e & _ & -> & ->)
                                | (cs & sc & fin & _ & -> & ->)])];
    simpl; auto.
  destruct (score_gt sc (best_score_ self)); simpl; auto.
Qed.

(** Whatever the outcome of [fit], the keys of its table contain the
    fixed features. *)
Lemma fit_keys_contain (fuel : nat) (self : Selector) :
  P (state_generator self) ->
  issubset F (initial_state self) = true ->
  keys_contain F (results_ (snd (fit evaluate nanmean fuel self))).
Proof.
  intros HP Hinit; unfold fit.
  destruct (fit_init evaluate nanmean self) as [r s1] eqn:E1.
  assert (H1 : P (state_generator s1) /\ keys_contain F (results_ s1)).
  { apply (fit_init_invariant evaluate nanmean
             (fun s => P (state_generator s) /\ keys_contain F (results_ s))
             (keys_contain F) update_results_check_keys self s1 r);
      [| |exact E1].
    - intros e _; simpl; split; [exact HP | intros k []].
    - intros scores _; simpl; split; [split; [exact HP | intros k []]|].
      intros k [<-|[]]; exact Hinit. }
  destruct r as [u|e]; simpl; [|apply H1].
  pose proof (fit_try_invariant evaluate nanmean
                (fun s => P (state_generator s) /\ keys_contain F (results_ s))
                (keys_contain F) _batch_keys update_results_check_keys
                (fun s b H => H) (fun s b H => H) fuel s1 H1) as H2.
  destruct (fit_try evaluate nanmean fuel s1) as [[[u'|e]|] s2]; simpl in *;
    try apply H2.
  destruct (postprocess_fields (set_fitted s2 true)) as (-> & _).
  apply H2.
Qed.

End KeysContainFixed.

Lemma MinMaxCandidates_propose_contains (F : pyset) (g : MinMaxCandidates)
  (st : pystate) (c : option (iterator state)) (g' : MinMaxCandidates) :
  fixed_features g = F -> propose g st = Ok (c, g') ->
  fixed_features g' = F
  /\ forall it, c = Some it ->
                forall s, In s (yielded it) -> issubset F s = true.
Proof.
  intros HF H; simpl in H; inversion H; subst; clear H.
  unfold MinMaxCandidates_call.
  destruct (_have_already_run g); simpl; split; try reflexivity;
    intros it Hit; inversion Hit; subst; clear Hit.
  intros s Hs; rewrite yielded_iter_of_list in Hs.
  apply in_flat_map in Hs as (i & _ & Hs).
  apply filter_In in Hs as [_ Hs]; exact Hs.
Qed.

Lemma forward_candidates_contain (F s : pyset) (cols : list feature)
  (x : state) :
  In x (map (fun c => sorted (set_or s (set_of [c])))
          (filter (fun c => negb (mem c s)
                            && issubset F (set_or s (set_of [c]))) cols)) ->
  issubset F x = true.
Proof.
  intros H; apply in_map_iff in H as (c & <- & Hc).
  apply filter_In in Hc as [_ Hc].
  apply andb_true_iff in Hc as [_ Hc].
  rewrite issubset_sorted; exact Hc.
Qed.

Lemma backward_candidates_contain (F s : pyset) (cols : list feature)
  (x : state) :
  In x (map (fun c => sorted (set_xor s (set_of [c])))
          (filter (fun c => mem c s
                            && issubset F (set_xor s (set_of [c]))) cols)) ->
  issubset F x = true.
Proof.
  intros H; apply in_map_iff in H as (c & <- & Hc).
  apply filter_In in Hc as [_ Hc].
  apply andb_true_iff in Hc as [_ Hc].
  rewrite issubset_sorted; exact Hc.
Qed.

(** Every candidate a stepwise generator yields contains its fixed
    features, in all three directions and also when the chain of
    direction "both" ends in an exception. *)
Lemma StepCandidates_call_contains (g : StepCandidates) (st : pystate)
  (it : iterator state) :
  StepCandidates_call g st = Ok (Some it) ->
  forall s, In s (yielded it) -> issubset (fixed_features (base g)) s = true.
Proof.
  unfold StepCandidates_call; destruct st as [t|]; [|discriminate].
  set (fwd := map _ (filter _ (columns (base g)))).
  set (bwd := map (fun c => sorted (set_xor _ _)) _).
  assert (Hf : forall s, In s fwd -> issubset (fixed_features (base g)) s = true)
    by (intros s; apply forward_candidates_contain).
  assert (Hb : forall s, In s bwd -> issubset (fixed_features (base g)) s = true)
    by (intros s; apply backward_candidates_contain).
  clearbody fwd bwd.
  destruct (length (set_of t) <? max_features (base g));
    destruct (min_features (base g) <? length (set_of t));
    destruct (String.eqb (direction g) "forward");
    destruct (String.eqb (direction g) "backward");
    simpl; intros H; inversion H; subst; clear H; intros s Hs;
    repeat rewrite ?iter_app_Stop, ?yielded_iter_of_list in Hs;
    try (apply yielded_iter_app in Hs as [Hs|Hs];
         rewrite ?yielded_iter_of_list in Hs);
    simpl in Hs; auto; try contradiction.
Qed.

Lemma StepCandidates_propose_contains (F : pyset) (g : StepCandidates)
  (st : pystate) (c : option (iterator state)) (g' : StepCandidates) :
  fixed_features (base g) = F -> propose g st = Ok (c, g') ->
  fixed_features (base g') = F
  /\ forall it, c = Some it ->
                forall s, In s (yielded it) -> issubset F s = true.
Proof.
  intros HF H; simpl in H.
  destruct (StepCandidates_call g st) as [c'|e] eqn:E; simpl in H;
    [|discriminate].
  inversion H; subst; clear H; split; [reflexivity|].
  intros it ->; exact (StepCandidates_call_contains _ _ _ E).
Qed.

(** What the two factories return on success. *)
Lemma min_max_candidates_Ok cfd cc gci X mn mx fixed custom cat init g :
  min_max_candidates cfd cc gci X mn mx fixed custom cat = Ok (init, g) ->
  MinMaxCandidates_init cfd cc gci X mn mx fixed custom cat = Ok g
  /\ issubset (fixed_features g) init = true.
Proof.
  unfold min_max_candidates; intros H.
  destruct (MinMaxCandidates_init cfd cc gci X mn mx fixed custom cat)
    as [m|e]; simpl in H; [|discriminate].
  inversion H; subst; clear H; split; [reflexivity|].
  destruct (fixed_features g) as [|f fs] eqn:E; [reflexivity|].
  rewrite issubset_sorted; apply issubset_refl.
Qed.

Lemma step_candidates_Ok cfd cc gci rng X dir mn mx rs fixed initial custom
  cat init g :
  step_candidates cfd cc gci rng X dir mn mx rs fixed initial custom cat
  = Ok (init, g) ->
  StepCandidates_init cfd cc gci X dir mn mx fixed custom cat = Ok g
  /\ issubset (fixed_features (base g)) init = true
  /\ min_features (base g) <= length init <= max_features (base g).
Proof.
  unfold step_candidates; intros H.
  destruct (StepCandidates_init cfd cc gci X dir mn mx fixed custom cat)
    as [step|e]; simpl in H; [|discriminate].
  destruct (resolve_initial_features rng step dir rs initial) as [[l|]|e];
    simpl in H; try discriminate.
  destruct (max_features (base step) <? length l) eqn:E1; [discriminate|].
  destruct (length l <? min_features (base step)) eqn:E2; [discriminate|].
  destruct (issubset (fixed_features (base step)) l) eqn:E3; simpl in H;
    [|discriminate].
  inversion H; subst; clear H.
  apply Nat.ltb_ge in E1, E2; auto.
Qed.

(** C6.  In a run of [fit] on the initial state and generator that
    [min_max_candidates] or [step_candidates] returns, every key of the
    result table contains every fixed feature of the generator: after any
    number of rounds, and whether [fit] returns, raises or is still
    running. *)
Theorem results_keys_contain_fixed_features :
  (forall cfd cc gci X mn mx fixed custom cat init g
          evaluate nanmean fuel (self : @FeatureSelector MinMaxCandidates),
      min_max_candidates cfd cc gci X mn mx fixed custom cat = Ok (init, g) ->
      initial_state self = init -> state_generator self = g ->
      keys_contain (fixed_features g)
        (results_ (snd (fit evaluate nanmean fuel self))))
  /\
  (forall cfd cc gci rng X dir mn mx rs fixed initial custom cat init g
          evaluate nanmean fuel (self : @FeatureSelector StepCandidates),
      step_candidates cfd cc gci rng X dir mn mx rs fixed initial custom cat
      = Ok (init, g) ->
      initial_state self = init -> state_generator self = g ->
      keys_contain (fixed_features (base g))
        (results_ (snd (fit evaluate nanmean fuel self)))).
Proof.
  split.
  - intros cfd cc gci X mn mx fixed custom cat init g evaluate nanmean fuel
      self H Hi Hg.
    apply min_max_candidates_Ok in H as [_ H].
    apply (fit_keys_contain evaluate nanmean (fixed_features g)
             (fun m => fixed_features m = fixed_features g)).
    + intros; eapply MinMaxCandidates_propose_contains; eassumption.
    + rewrite Hg; reflexivity.
    + rewrite Hi; exact H.
  - intros cfd cc gci rng X dir mn mx rs fixed initial custom cat init g
      evaluate nanmean fuel self H Hi Hg.
    apply step_candidates_Ok in H as (_ & H & _).
    apply (fit_keys_contain evaluate nanmean (fixed_features (base g))
             (fun m => fixed_features (base m) = fixed_features (base g))).
    + intros; eapply StepCandidates_propose_contains; eassumption.
    + rewrite Hg; reflexivity.
    + rewrite Hi; exact H.
Qed.

Lemma results_keys_contain_fixed_features_witness :
  (exists init g,
      min_max_candidates plain_categorical_from_df plain_check_categories
        plain_get_column_info (NdArray 4 3) (PyInt 1) (PyInt 2)
        (Some [1%Z]) None None = Ok (init, g)
      /\ keys_contain (fixed_features g)
           (results_ (snd (fit score_by_size first_score 3
                             (FeatureSelector_init init g)))))
  /\
  (exists init g,
      step_candidates plain_categorical_from_df plain_check_categories
        plain_get_column_info first_choice (NdArray 4 3) "forward"
        (PyInt 1) (PyInt 3) 0 (Some [1%Z]) None None None = Ok (init, g)
      /\ keys_contain (fixed_features (base g))
           (results_ (snd (fit score_by_size first_score 3
                             (FeatureSelector_init init g))))).
Proof.
  split; eexists; eexists; (split; [reflexivity|]).
  - apply (proj1 results_keys_contain_fixed_features
             plain_categorical_from_df plain_check_categories
             plain_get_column_info (NdArray 4 3) (PyInt 1) (PyInt 2)
             (Some [1%Z]) None None _ _ score_by_size first_score 3
             (FeatureSelector_init _ _) eq_refl eq_refl eq_refl).
  - apply (proj2 results_keys_contain_fixed_features
             plain_categorical_from_df plain_check_categories
             plain_get_column_info first_choice (NdArray 4 3)
             "forward"%string
             (PyInt 1) (PyInt 3) 0 (Some [1%Z]) None None None _ _
             score_by_size first_score 3
             (FeatureSelector_init _ _) eq_refl eq_refl eq_refl).
Defined.

(** ** Post-processing *)

(** [postprocess] runs over the whole table the scan that
    [StepCandidates.check_finished] runs over a batch. *)
Lemma postprocess_batch_best {G : Type} (self : @FeatureSelector G) :
  (best_state_ (postprocess self), best_score_ (postprocess self))
  = batch_best (results_ self).
Proof.
  unfold postprocess, batch_best.
  change (None, NegInf)
    with (best_state_ (set_best self None NegInf),
          best_score_ (set_best self None NegInf)).
  generalize (set_best self None NegInf) as s.
  induction (results_ self) as [|kv l IH]; intros s; simpl; [reflexivity|].
  rewrite IH; f_equal.
  unfold keep_better; simpl.
  destruct (score_gt (avg_score (snd kv)) (best_score_ s)); reflexivity.
Qed.

(** The score that [postprocess] settles on is not NaN, and it is greater
    than or equal to every recorded average that is not NaN. *)
Lemma postprocess_best_ge {G : Type} (self : @FeatureSelector G) :
  is_nan (best_score_ (postprocess self)) = false
  /\ forall k e, In (k, e) (results_ self) ->
                 is_nan (avg_score e) = false ->
                 score_ge (best_score_ (postprocess self)) (avg_score e) = true.
Proof.
  pose proof (postprocess_batch_best self) as E.
  destruct (batch_best_spec (results_ self)) as (N & Hall & _).
  rewrite <- E in N, Hall; simpl in N, Hall.
  split; [exact N|].
  intros k e Hin Ne; unfold score_ge.
  rewrite (score_le_not_gt _ _ Ne N), (Hall k e Hin); reflexivity.
Qed.

Lemma score_ge_NegInf (a : score) :
  is_nan a = false -> score_ge a NegInf = true.
Proof. destruct a; simpl; auto. Qed.

(** [fit] is its start, its loop and [postprocess] on the object the
    loop leaves. *)
Lemma fit_decomposes {G : Type} {strategy : Strategy G}
  (evaluate : nat -> state -> result (list score))
  (nanmean : list score -> score) (fuel : nat)
  (self self1 self2 : @FeatureSelector G) :
  fit_init evaluate nanmean self = (Ok tt, self1) ->
  fit_try evaluate nanmean fuel self1 = (Some (Ok tt), self2) ->
  fit evaluate nanmean fuel self
  = (Some (Ok tt), postprocess (set_fitted self2 true)).
Proof. intros H1 H2; unfold fit; rewrite H1, H2; reflexivity. Qed.

Section PostprocessBest.

Context {G : Type} {strategy : Strategy G}.
Variable evaluate : nat -> state -> result (list score).
Variable nanmean : list score -> score.

Local Abbreviation Selector := (@FeatureSelector G).

(** The average a state gets whenever it is evaluated. *)
Variable f : state -> score.

Hypothesis same_average :
  forall round s cv, evaluate round s = Ok cv -> nanmean cv = f s.

(** The termination check reports -inf or a recorded average. *)
Hypothesis check_reports_recorded :
  forall g results best batch s v d,
    check_finished g results best batch = Ok (s, v, d) ->
    v = NegInf
    \/ exists k e, (In (k, e) results \/ In (k, e) batch) /\ avg_score e = v.

Local Abbreviation consistent d :=
  (forall k e, In (k, e) d -> avg_score e = f k).

Local Abbreviation recorded v keys :=
  (v = NegInf \/ exists k, In k keys /\ f k = v).

Lemma update_results_check_recorded (b : dict) (self : Selector)
  (r : result (pystate * option score * bool)) (self' : Selector) :
  consistent (results_ self) -> consistent b ->
  is_nan (best_score_ self) = false ->
  recorded (best_score_ self) (dict_keys (results_ self) ++ dict_keys b) ->
  update_results_check b self = (r, self') ->
  consistent (results_ self')
  /\ is_nan (best_score_ self') = false
  /\ recorded (best_score_ self') (dict_keys (results_ self')).
Proof.
  intros HC HB HN HR H.
  assert (HM : consistent (dict_update (results_ self) b)).
  { intros k e Hin; apply dict_update_entries in Hin as [Hin|Hin]; auto. }
  assert (HRM : recorded (best_score_ self)
                  (dict_keys (dict_update (results_ self) b))).
  { destruct HR as [HR | (k & Hk & HR)]; [left; exact HR|].
    right; exists k; split; [|exact HR].
    apply dict_update_keys; apply in_app_or in Hk; exact Hk. }
  apply update_results_check_spec in H
    as [(-> & -> & ->) | (Hne & [(e & _ & -> & ->)
                                | (cs & sc & fin & Hc & -> & ->)])].
  - split; [exact HC|]; split; [exact HN|].
    simpl in HR; rewrite app_nil_r in HR; exact HR.
  - simpl; auto.
  - destruct (score_gt sc (best_score_ self)) eqn:Hgt; simpl; [|auto].
    split; [exact HM|].
    split; [apply (score_gt_not_nan _ _ Hgt)|].
    apply check_reports_recorded in Hc as [Hc | (k & e & Hin & Hc)];
      [left; exact Hc|].
    simpl in Hin; right; exists k; split.
    + apply dict_update_keys.
      destruct Hin as [Hin|Hin].
      * apply dict_update_keys, In_dict_keys; eauto.
      * right; apply In_dict_keys; eauto.
    + rewrite <- Hc; symmetry.
      destruct Hin as [Hin|Hin]; [apply HM | apply HB]; exact Hin.
Qed.

Lemma _batch_recorded (round : nat) (st : pystate) (self : Selector)
  (r : result dict) (self' : Selector) :
  (consistent (results_ self)
   /\ is_nan (best_score_ self) = false
   /\ recorded (best_score_ self) (dict_keys (results_ self))) ->
  _batch evaluate nanmean round st self = (r, self') ->
  (consistent (results_ self')
   /\ is_nan (best_score_ self') = false
   /\ recorded (best_score_ self') (dict_keys (results_ self')))
  /\ forall b, r = Ok b -> consistent b.
Proof.
  intros HI H.
  apply _batch_spec in H
    as [(e & Hp & -> & ->) | (c & g & Hp & -> & Hc)].
  - split; [exact HI | discriminate].
  - split; [exact HI|].
    intros b Hb.
    destruct Hc as [[-> ->] | [(it & e & -> & _ & ->) | (it & w & -> & Hw & ->)]].
    + inversion Hb; subst; intros k e [].
    + discriminate.
    + inversion Hb; subst; clear Hb.
      intros k e He.
      apply batch_of_entries in He as (cv & Hin & ->); simpl.
      destruct (score_candidates_work _ _ _ _ Hw _ _ Hin) as [_ Hev].
      exact (same_average _ _ _ Hev).
Qed.

(** With an evaluator that gives a state the same average every time, a
    termination check that reports recorded averages and an initial
    average that is not NaN, post-processing does not fall below the best
    score the loop ended with. *)
Lemma postprocess_not_below (fuel : nat) (self : Selector) :
  is_nan (f (initial_state self)) = false ->
  postprocess_keeps_best evaluate nanmean fuel self.
Proof.
  intros Hnan self1 self2 Hinit Htry.
  assert (H1 : consistent (results_ self1)
               /\ is_nan (best_score_ self1) = false
               /\ recorded (best_score_ self1) (dict_keys (results_ self1))).
  { unfold fit_init in Hinit; simpl in Hinit.
    destruct (evaluate 0 (initial_state self)) as [scores|e] eqn:E;
      [|discriminate].
    pose proof (same_average _ _ _ E) as Hav.
    destruct (update_results_check _ _) as [ru s1] eqn:Eu in Hinit.
    apply update_results_check_recorded in Eu; simpl.
    - destruct ru; inversion Hinit; subst; exact Eu.
    - intros k e [].
    - intros k e [Heq|[]]; inversion Heq; subst; exact Hav.
    - simpl; rewrite Hav; exact Hnan.
    - simpl; right; exists (initial_state self).
      split; [left; reflexivity | symmetry; exact Hav]. }
  pose proof (fit_try_invariant evaluate nanmean
                (fun s : Selector =>
                   consistent (results_ s)
                   /\ is_nan (best_score_ s) = false
                   /\ recorded (best_score_ s) (dict_keys (results_ s)))
                (fun b : dict => consistent b)
                _batch_recorded
                (fun b s r s' HI HB => update_results_check_recorded
                   b s r s' (proj1 HI) HB (proj1 (proj2 HI))
                   (match proj2 (proj2 HI) with
                    | or_introl E => or_introl E
                    | or_intror (ex_intro _ k (conj Hk E)) =>
                        or_intror (ex_intro _ k
                                     (conj (in_or_app _ _ _ (or_introl Hk)) E))
                    end))
                (fun s b H => H) (fun s b H => H) fuel self1 H1) as H2.
  rewrite Htry in H2; simpl in H2.
  destruct H2 as (HC & HN & HR).
  destruct (postprocess_best_ge (set_fitted self2 true)) as [Np Hge].
  destruct HR as [HR | (k & Hk & HR)].
  - rewrite HR; apply score_ge_NegInf; exact Np.
  - apply In_dict_keys in Hk as [e He].
    specialize (Hge k e He).
    rewrite (HC k e He), HR in Hge.
    apply Hge; exact HN.
Qed.

End PostprocessBest.

Lemma MinMaxCandidates_check_reports_recorded (g : MinMaxCandidates)
  (results : dict) (best : pystate) (batch : dict)
  (s : pystate) (v : score) (d : bool) :
  check_finished g results best batch = Ok (s, v, d) ->
  v = NegInf
  \/ exists k e, (In (k, e) results \/ In (k, e) batch) /\ avg_score e = v.
Proof.
  simpl; unfold MinMaxCandidates_check_finished.
  destruct best as [b|]; [|discriminate].
  destruct (dict_get results b) as [e|] eqn:E; [|discriminate].
  intros H; inversion H; subst; clear H.
  right; exists b, e; split; [left; apply dict_get_In; exact E | reflexivity].
Qed.

Lemma StepCandidates_check_reports_recorded (g : StepCandidates)
  (results : dict) (best : pystate) (batch : dict)
  (s : pystate) (v : score) (d : bool) :
  check_finished g results best batch = Ok (s, v, d) ->
  v = NegInf
  \/ exists k e, (In (k, e) results \/ In (k, e) batch) /\ avg_score e = v.
Proof.
  simpl; unfold StepCandidates_check_finished.
  destruct best as [b|]; [|discriminate].
  destruct (dict_get results b) as [e0|]; [|discriminate].
  intros H; inversion H; subst; clear H.
  destruct (batch_best_spec batch) as (_ & _ & [Hr | (k & e & Hin & Hr)]);
    rewrite Hr; simpl; [left; reflexivity|].
  right; exists k, e; auto.
Qed.

(** C7, as the spec states it, on an exhaustive search over two columns
    with both bounds 1.  The initial state (0,) scores 9/10; it is proposed
    again in the only batch and scores 1/2 there, while (1,) scores 3/5.
    The loop ends with the best score 9/10; post-processing finds 3/5. *)
Lemma postprocess_below_loop_best :
  exists init g,
    min_max_candidates plain_categorical_from_df plain_check_categories
      plain_get_column_info (NdArray 2 2) (PyInt 1) (PyInt 1) None None None
    = Ok (init, g)
    /\ ~ postprocess_keeps_best unstable_scores first_score 2
           (FeatureSelector_init init g).
Proof.
  eexists; eexists; split; [reflexivity|].
  intros H.
  pose proof (H _ _ eq_refl eq_refl) as C.
  vm_compute in C; discriminate C.
Qed.

(** The same statement fails when the initial state scores NaN: the
    loop's best score stays NaN, and no score is greater than or equal to
    NaN. *)
Lemma postprocess_not_ge_nan :
  exists init g,
    step_candidates plain_categorical_from_df plain_check_categories
      plain_get_column_info first_choice (NdArray 2 2) "forward"
      (PyInt 1) (PyInt 2) 0 None None None None
    = Ok (init, g)
    /\ ~ postprocess_keeps_best nan_then_half first_score 3
           (FeatureSelector_init init g).
Proof.
  eexists; eexists; split; [reflexivity|].
  intros H.
  pose proof (H _ _ eq_refl eq_refl) as C.
  vm_compute in C; discriminate C.
Qed.

(** C7, amended.  Take a run of [fit] in which every state gets the same
    average each time it is evaluated, the termination check reports -inf
    or an average recorded in the table or the batch (both shipped
    generators do), and the average of the initial state is not NaN.  When
    the loop is left, the best score that [postprocess] computes from the
    table is greater than or equal to the loop's last best score. *)
Theorem postprocess_not_below_loop_best
  {G : Type} {strategy : Strategy G}
  (evaluate : nat -> state -> result (list score))
  (nanmean : list score -> score) (f : state -> score)
  (fuel : nat) (self : @FeatureSelector G) :
  (forall round s cv, evaluate round s = Ok cv -> nanmean cv = f s) ->
  (forall g results best batch s v d,
      check_finished g results best batch = Ok (s, v, d) ->
      v = NegInf
      \/ exists k e, (In (k, e) results \/ In (k, e) batch)
                     /\ avg_score e = v) ->
  is_nan (f (initial_state self)) = false ->
  postprocess_keeps_best evaluate nanmean fuel self.
Proof.
  intros Hsame Hcheck Hnan.
  exact (postprocess_not_below evaluate nanmean f Hsame Hcheck fuel self Hnan).
Qed.

(** The two shipped generators, under an evaluator with stable averages. *)
Lemma MinMaxCandidates_postprocess_not_below
  (evaluate : nat -> state -> result (list score))
  (nanmean : list score -> score) (f : state -> score)
  (fuel : nat) (self : @FeatureSelector MinMaxCandidates) :
  (forall round s cv, evaluate round s = Ok cv -> nanmean cv = f s) ->
  is_nan (f (initial_state self)) = false ->
  postprocess_keeps_best evaluate nanmean fuel self.
Proof.
  intros Hsame Hnan.
  exact (postprocess_not_below evaluate nanmean f Hsame
           MinMaxCandidates_check_reports_recorded fuel self Hnan).
Qed.

Lemma StepCandidates_postprocess_not_below
  (evaluate : nat -> state -> result (list score))
  (nanmean : list score -> score) (f : state -> score)
  (fuel : nat) (self : @FeatureSelector StepCandidates) :
  (forall round s cv, evaluate round s = Ok cv -> nanmean cv = f s) ->
  is_nan (f (initial_state self)) = false ->
  postprocess_keeps_best evaluate nanmean fuel self.
Proof.
  intros Hsame Hnan.
  exact (postprocess_not_below evaluate nanmean f Hsame
           StepCandidates_check_reports_recorded fuel self Hnan).
Qed.

Lemma postprocess_not_below_loop_best_witness :
  postprocess_keeps_best score_by_size first_score 3
    (FeatureSelector_init [0] (three_columns [] []))
  /\ fst (fit score_by_size first_score 3
            (FeatureSelector_init [0] (three_columns [] [])))
     = Some (Ok tt).
Proof.
  split; [|reflexivity].
  apply (postprocess_not_below_loop_best score_by_size first_score
           (fun s => Fin (Z.of_nat (length s) # 1)) 3
           (FeatureSelector_init [0] (three_columns [] []))).
  - intros round s cv H; inversion H; reflexivity.
  - apply MinMaxCandidates_check_reports_recorded.
  - reflexivity.
Defined.

(** ** Interruption *)

Section Interruption.

Context {G : Type} {strategy : Strategy G}.
Variable evaluate : nat -> state -> result (list score).
Variable nanmean : list score -> score.

Local Abbreviation Selector := (@FeatureSelector G).

(** The termination check does not itself raise the interrupt: it
    arrives while a batch is drawn and scored, or from the test hook. *)
Hypothesis check_not_interrupted :
  forall g results best batch,
    check_finished g results best batch <> Raise KeyboardInterrupt.


Lemma loop_body_Ok (round : nat) (st st' : pystate) (self self' : Selector) :
  loop_body evaluate nanmean round st self = (Ok st', self') ->
  search_round evaluate nanmean round st self = (Ok st', self').
Proof.
  unfold loop_body.
  destruct (search_round evaluate nanmean round st self) as [[s|e] s1];
    [|discriminate].
  destruct (_TESTING_INTERRUPT_MODE s1); [discriminate | auto].
Qed.


End Interruption.

(** Neither shipped termination check raises KeyboardInterrupt. *)
Lemma MinMaxCandidates_check_not_interrupted (g : MinMaxCandidates)
  (results : dict) (best : pystate) (batch : dict) :
  check_finished g results best batch <> Raise KeyboardInterrupt.
Proof.
  simpl; unfold MinMaxCandidates_check_finished.
  destruct best as [b|]; [|discriminate].
  destruct (dict_get results b); discriminate.
Qed.




(** The test hook: with [_TESTING_INTERRUPT_MODE] set, the interrupt is
    raised at the end of the first round, and the table holds that round. *)
Example fit_with_test_hook :
  let self := mk_FeatureSelector [0]
                {| direction := "forward"; base := three_columns [] [] |}
                [] None NegInf false false false true in
  fst (fit score_by_size first_score 5 self) = Some (Ok tt)
  /\ interrupted_ (snd (fit score_by_size first_score 5 self)) = true
  /\ fitted (snd (fit score_by_size first_score 5 self)) = true
  /\ dict_keys (results_ (snd (fit score_by_size first_score 5 self)))
     = [[0]; [0; 1]; [0; 2]]
  /\ best_state_ (snd (fit score_by_size first_score 5 self)) = Some [0; 1].
Proof. repeat split. Qed.

(** An interrupt while the initial state is scored is outside the [try]
    statement: it leaves [fit] as an exception. *)
Lemma fit_initial_interrupt {G : Type} {strategy : Strategy G}
  (evaluate : nat -> state -> result (list score))
  (nanmean : list score -> score) (fuel : nat) (self : @FeatureSelector G) :
  evaluate 0 (initial_state self) = Raise KeyboardInterrupt ->
  fst (fit evaluate nanmean fuel self) = Some (Raise KeyboardInterrupt).
Proof. intros H; unfold fit, fit_init; simpl; rewrite H; reflexivity. Qed.

(** ** get_metric_dict *)

Lemma calc_confidence_not_own : has_own_attribute "_calc_confidence" = false.
Proof. reflexivity. Qed.

(** When no base class binds [_calc_confidence], [get_metric_dict] raises
    AttributeError on every fitted selector with a non-empty table; the
    table is left as it was. *)
Lemma get_metric_dict_AttributeError {G : Type}
  (np_std : list score -> score)
  (inherited_attribute :
     string -> option (list score -> score -> result (score * score)))
  (confidence_interval : score) (self : @FeatureSelector G) :
  inherited_attribute "_calc_confidence"%string = None ->
  fitted self = true ->
  results_ self <> [] ->
  get_metric_dict np_std inherited_attribute confidence_interval self
  = (Raise AttributeError, self).
Proof.
  intros Hattr Hfit Hne; unfold get_metric_dict, _check_fitted.
  rewrite Hfit.
  destruct (results_ self) as [|kv l]; [contradiction|].
  simpl; unfold self_calc_confidence; rewrite Hattr; reflexivity.
Qed.

(** The object is the same after [get_metric_dict], however it ends. *)
Lemma get_metric_dict_read_only {G : Type}
  (np_std : list score -> score)
  (inherited_attribute :
     string -> option (list score -> score -> result (score * score)))
  (confidence_interval : score) (self : @FeatureSelector G) :
  snd (get_metric_dict np_std inherited_attribute confidence_interval self)
  = self.
Proof.
  unfold get_metric_dict; destruct (_check_fitted self); reflexivity.
Qed.

(** C8.  On a fitted selector whose table holds one state, with base
    classes that bind nothing, [get_metric_dict] at the confidence level
    0.95 raises AttributeError where the spec expects the augmented
    dictionary: the helper [_calc_confidence] is a local function of the
    method, while the loop looks it up as an attribute of [self]. *)
Theorem get_metric_dict_raises (np_std : list score -> score) :
  has_own_attribute "_calc_confidence" = false
  /\ get_metric_dict np_std no_inherited_attribute (Fin (19#20))
       fitted_selector
     = (Raise AttributeError, fitted_selector).
Proof. split; reflexivity. Qed.

(** ** The failing inputs, end to end *)

(** The generator of C2 is the one [__init__] builds for an array with
    three rows and three columns. *)
Example three_columns_constructed :
  exists info cmap,
    StepCandidates_init plain_categorical_from_df plain_check_categories
      plain_get_column_info (NdArray 3 3) "both" (PyInt 1) (PyInt 3)
      None None None
    = Ok {| direction := "both"; base := three_columns info cmap |}.
Proof. eexists; eexists; reflexivity. Qed.

(** With direction "both" and the default initial features, the first
    batch of [fit] already ends in that TypeError; only the initial state
    is in the table. *)
Example fit_both_raises :
  exists init g,
    step_candidates plain_categorical_from_df plain_check_categories
      plain_get_column_info first_choice (NdArray 3 3) "both"
      (PyInt 1) (PyInt 3) 0 None None None None
    = Ok (init, g)
    /\ fst (fit score_by_size first_score 5 (FeatureSelector_init init g))
       = Some (Raise TypeError)
    /\ dict_keys (results_ (snd (fit score_by_size first_score 5
                                   (FeatureSelector_init init g))))
       = [[0]].
Proof. eexists; eexists; repeat split. Qed.

(** The bound checks reject every pair that is not a pair of integers
    with 1 <= min <= max <= number of rows. *)
Lemma MinMaxCandidates_init_rejects cfd cc gci X mn mx fixed custom cat :
  match X with
  | NdArray _ _ => exists v, cc cat X = Ok v
  | DataFrame _ _ => exists v, cfd X = Ok v
  end ->
  isinstance_int mn = false \/ isinstance_int mx = false
  \/ (as_int mn < 1)%Z \/ (as_int mx < as_int mn)%Z
  \/ (Z.of_nat (shape0 X) < as_int mx)%Z ->
  MinMaxCandidates_init cfd cc gci X mn mx fixed custom cat
  = Raise AttributeError.
Proof.
  intros Hc Hbad; unfold MinMaxCandidates_init.
  assert (Hcats : exists cats,
             match X with
             | NdArray _ n_cols =>
                 c <- cc cat X ;;
                 Ok (match c with
                     | Some m => m
                     | None => repeat false n_cols
                     end,
                     repeat false
                       (length match c with
                               | Some m => m
                               | None => repeat false n_cols
                               end))
             | DataFrame _ _ => cfd X
             end = Ok cats).
  { destruct X; destruct Hc as [v Hv]; rewrite Hv; simpl; eauto. }
  destruct Hcats as [cats Hcats]; cbv zeta; rewrite Hcats; simpl.
  destruct (isinstance_int mx) eqn:Imx; simpl; [|reflexivity].
  destruct (as_int mx >? Z.of_nat (shape0 X))%Z eqn:E1; simpl; [reflexivity|].
  destruct (as_int mx <? 1)%Z eqn:E2; simpl; [reflexivity|].
  destruct (isinstance_int mn) eqn:Imn; simpl; [|reflexivity].
  destruct (as_int mn >? Z.of_nat (shape0 X))%Z eqn:E3; simpl; [reflexivity|].
  destruct (as_int mn <? 1)%Z eqn:E4; simpl; [reflexivity|].
  destruct (as_int mx <? as_int mn)%Z eqn:E5; simpl; [reflexivity|].
  rewrite Z.gtb_ltb in E1, E3.
  apply Z.ltb_ge in E1, E2, E3, E4, E5.
  destruct Hbad as [H|[H|[H|[H|H]]]]; try discriminate; lia.
Qed.

(** ** Candidates of an array, in order *)

Lemma pick_seq_positions (n : nat) (p : list nat) :
  (forall i, In i p -> i < n) -> pick (seq 0 n) p = p.
Proof.
  intros H; unfold pick.
  rewrite <- (map_id p) at 2.
  apply map_ext_in; intros i Hi.
  rewrite seq_nth by auto; reflexivity.
Qed.

(** For an array the identifiers are the positions, so the candidates
    themselves come by size and then lexicographically. *)
Lemma candidates_sorted_ndarray (self : MinMaxCandidates) (n : nat)
  (st : pystate) (candidates : list state) :
  columns self = seq 0 n ->
  fst (MinMaxCandidates_call self st) = Some candidates ->
  StronglySorted size_lex_lt candidates.
Proof.
  intros Hcols Hcall.
  assert (Hrun : _have_already_run self = false).
  { unfold MinMaxCandidates_call in Hcall.
    destruct (_have_already_run self); [discriminate | reflexivity]. }
  rewrite (candidates_of_positions self st Hrun) in Hcall.
  inversion Hcall; subst; clear Hcall.
  replace (map (pick (columns self)) (candidate_positions self))
    with (candidate_positions self);
    [apply candidate_positions_sorted|].
  rewrite <- (map_id (candidate_positions self)) at 1.
  apply map_ext_in; intros p Hp.
  unfold candidate_positions in Hp.
  apply in_flat_map in Hp as (i & _ & Hp).
  apply filter_In in Hp as [Hp _].
  apply In_combinations in Hp as [Hs _].
  rewrite Hcols at 1; symmetry; apply pick_seq_positions.
  intros j Hj.
  apply (subseq_incl _ _ Hs) in Hj.
  rewrite Hcols, length_seq in Hj; apply in_seq in Hj; lia.
Qed.

(** * Further properties of the code *)

(** ** Sets and sorted tuples *)

Lemma set_of_In (x : feature) (l : list feature) :
  In x (set_of l) <-> In x l.
Proof.
  induction l as [|y l IH]; simpl; [tauto|].
  destruct (mem y l) eqn:E.
  - rewrite IH; split; [auto | intros [<-|H]; [apply mem_In; exact E | exact H]].
  - simpl; rewrite IH; tauto.
Qed.

Lemma set_of_NoDup (l : list feature) : NoDup (set_of l).
Proof.
  induction l as [|y l IH]; simpl; [constructor|].
  destruct (mem y l) eqn:E; [exact IH|].
  constructor; [|exact IH].
  rewrite set_of_In; intros H; apply mem_In in H; congruence.
Qed.

Lemma set_of_NoDup_id (l : list feature) : NoDup l -> set_of l = l.
Proof.
  induction 1 as [|x l Hx Hl IH]; simpl; [reflexivity|].
  destruct (mem x l) eqn:E; [apply mem_In in E; contradiction|].
  rewrite IH; reflexivity.
Qed.

Lemma mem_false (c : feature) (s : list feature) :
  mem c s = false <-> ~ In c s.
Proof.
  rewrite <- mem_In; destruct (mem c s); split; intros H; congruence.
Qed.

Lemma insert_sorted_Permutation (x : feature) (l : list feature) :
  Permutation (insert_sorted x l) (x :: l).
Proof.
  induction l as [|y l IH]; simpl; [reflexivity|].
  destruct (x <=? y); [reflexivity|].
  rewrite IH; apply perm_swap.
Qed.

Lemma sorted_Permutation (l : list feature) : Permutation (sorted l) l.
Proof.
  unfold sorted; induction l as [|x l IH]; simpl; [reflexivity|].
  rewrite insert_sorted_Permutation, IH; reflexivity.
Qed.

Lemma sorted_length (l : list feature) : length (sorted l) = length l.
Proof. apply Permutation_length, sorted_Permutation. Qed.

Lemma sorted_NoDup (l : list feature) : NoDup l -> NoDup (sorted l).
Proof.
  intros H; apply (Permutation_NoDup (l := l)); [|exact H].
  symmetry; apply sorted_Permutation.
Qed.

Lemma insert_sorted_Sorted (x : feature) (l : list feature) :
  StronglySorted le l -> StronglySorted le (insert_sorted x l).
Proof.
  induction 1 as [|y l S IH F]; simpl; [repeat constructor|].
  destruct (x <=? y) eqn:E.
  - apply Nat.leb_le in E.
    constructor; [constructor; assumption|].
    constructor; [exact E|].
    rewrite Forall_forall in *; intros z Hz; specialize (F z Hz); lia.
  - apply Nat.leb_gt in E.
    constructor; [exact IH|].
    rewrite Forall_forall in *; intros z Hz.
    apply insert_sorted_In in Hz as [->|Hz]; [lia | auto].
Qed.

Lemma sorted_Sorted (l : list feature) : StronglySorted le (sorted l).
Proof.
  unfold sorted; induction l as [|x l IH]; simpl; [constructor|].
  apply insert_sorted_Sorted; exact IH.
Qed.

Lemma Sorted_NoDup_lt (l : list feature) :
  StronglySorted le l -> NoDup l -> StronglySorted lt l.
Proof.
  induction 1 as [|x l S IH F]; intros N; [constructor|].
  inversion N; subst.
  constructor; [auto|].
  rewrite Forall_forall in *; intros z Hz.
  specialize (F z Hz).
  assert (z <> x) by (intros ->; contradiction).
  lia.
Qed.

(** A strictly increasing tuple is determined by its elements. *)
Lemma strictly_sorted_unique (l l' : list feature) :
  StronglySorted lt l -> StronglySorted lt l' ->
  (forall x, In x l <-> In x l') -> l = l'.
Proof.
  intros S; revert l'; induction S as [|x l S IH F]; intros l' S' H.
  - destruct l' as [|y l']; [reflexivity|].
    destruct (proj2 (H y) (or_introl eq_refl)).
  - destruct S' as [|y l' S' F'].
    + destruct (proj1 (H x) (or_introl eq_refl)).
    + rewrite Forall_forall in F, F'.
      assert (x = y).
      { destruct (proj1 (H x) (or_introl eq_refl)) as [E|Hx]; [auto|].
        destruct (proj2 (H y) (or_introl eq_refl)) as [E|Hy]; [auto|].
        specialize (F y Hy); specialize (F' x Hx); lia. }
      subst y; f_equal; apply IH; [exact S'|].
      intros z; split; intros Hz.
      * destruct (proj1 (H z) (or_intror Hz)) as [E|Hz']; [|exact Hz'].
        subst z; specialize (F x Hz); lia.
      * destruct (proj2 (H z) (or_intror Hz)) as [E|Hz']; [|exact Hz'].
        subst z; specialize (F' x Hz); lia.
Qed.

(** [sorted] of a set depends only on the elements of the set. *)
Lemma sorted_set_unique (l l' : list feature) :
  NoDup l -> NoDup l' -> (forall x, In x l <-> In x l') ->
  sorted l = sorted l'.
Proof.
  intros N N' H; apply strictly_sorted_unique.
  - apply Sorted_NoDup_lt; [apply sorted_Sorted | apply sorted_NoDup, N].
  - apply Sorted_NoDup_lt; [apply sorted_Sorted | apply sorted_NoDup, N'].
  - intros x; rewrite !sorted_In; apply H.
Qed.

Lemma set_or_singleton (s : pyset) (c : feature) :
  mem c s = false -> set_or s (set_of [c]) = s ++ [c].
Proof. intros H; unfold set_or; simpl; rewrite H; reflexivity. Qed.

Lemma set_or_In (a b : pyset) (x : feature) :
  In x (set_or a b) <-> In x a \/ In x b.
Proof.
  unfold set_or; rewrite in_app_iff, filter_In, negb_true_iff, mem_false.
  split; [tauto|].
  intros [H|H]; [auto|].
  destruct (in_dec Nat.eq_dec x a); auto.
Qed.

Lemma set_or_NoDup (a b : pyset) : NoDup a -> NoDup b -> NoDup (set_or a b).
Proof.
  intros Ha Hb; unfold set_or; apply NoDup_app;
    [exact Ha | apply NoDup_filter, Hb|].
  intros x Hx Hf; apply filter_In in Hf as [_ Hf].
  apply negb_true_iff, mem_false in Hf; contradiction.
Qed.

Lemma set_xor_singleton (s : pyset) (c : feature) :
  mem c s = true ->
  set_xor s (set_of [c]) = filter (fun x => negb (Nat.eqb x c)) s.
Proof.
  intros H; unfold set_xor; simpl; rewrite H; simpl.
  rewrite app_nil_r; apply filter_ext; intros x.
  unfold mem; simpl; rewrite orb_false_r; reflexivity.
Qed.

Lemma filter_remove_length (s : list feature) (c : feature) :
  NoDup s -> In c s ->
  S (length (filter (fun x => negb (Nat.eqb x c)) s)) = length s.
Proof.
  induction 1 as [|y s Hy Hs IH]; intros Hc; [destruct Hc|].
  simpl; destruct (Nat.eqb y c) eqn:E; simpl.
  - apply Nat.eqb_eq in E; subst y; f_equal.
    clear IH Hc; induction s as [|z s IH]; [reflexivity|].
    simpl; destruct (Nat.eqb z c) eqn:E; simpl.
    + apply Nat.eqb_eq in E; subst; exfalso; apply Hy; left; reflexivity.
    + f_equal; apply IH.
      * intros H; apply Hy; right; exact H.
      * inversion Hs; assumption.
  - f_equal; apply IH.
    destruct Hc as [->|Hc]; [rewrite Nat.eqb_refl in E; discriminate | exact Hc].
Qed.

(** ** StepCandidates.__call__, direction by direction *)

Lemma StepCandidates_call_forward (self : StepCandidates) (t : state) :
  String.eqb (direction self) "forward" = true ->
  StepCandidates_call self (Some t)
  = Ok (if length (set_of t) <? max_features (base self)
        then Some (iter_of_list (forward_candidates (base self) (set_of t)))
        else None).
Proof.
  intros H; unfold StepCandidates_call; rewrite H.
  destruct (length (set_of t) <? max_features (base self)); reflexivity.
Qed.

Lemma StepCandidates_call_backward (self : StepCandidates) (t : state) :
  String.eqb (direction self) "forward" = false ->
  String.eqb (direction self) "backward" = true ->
  StepCandidates_call self (Some t)
  = Ok (if min_features (base self) <? length (set_of t)
        then Some (iter_of_list (backward_candidates (base self) (set_of t)))
        else None).
Proof.
  intros Hf H; unfold StepCandidates_call; rewrite Hf, H.
  destruct (min_features (base self) <? length (set_of t)); reflexivity.
Qed.

Lemma forward_candidate_shape (m : MinMaxCandidates) (t k : state) :
  In k (forward_candidates m (set_of t)) ->
  length k = S (length (set_of t))
  /\ StronglySorted lt k
  /\ issubset (fixed_features m) k = true
  /\ exists c, In c (columns m) /\ ~ In c t
               /\ forall x, In x k <-> In x t \/ x = c.
Proof.
  unfold forward_candidates; intros H.
  apply in_map_iff in H as (c & <- & Hc).
  apply filter_In in Hc as [Hcol Hc].
  apply andb_true_iff in Hc as [Hm Hf].
  apply negb_true_iff in Hm.
  pose proof (set_or_singleton _ _ Hm) as E.
  assert (N : NoDup (set_or (set_of t) (set_of [c])))
    by (apply set_or_NoDup; apply set_of_NoDup).
  split; [rewrite sorted_length, E, last_length; reflexivity|].
  split; [apply Sorted_NoDup_lt; [apply sorted_Sorted | apply sorted_NoDup, N]|].
  split; [rewrite issubset_sorted; exact Hf|].
  exists c; split; [exact Hcol|]; split.
  - apply mem_false in Hm; rewrite set_of_In in Hm; exact Hm.
  - intros x; rewrite sorted_In, E, in_app_iff, set_of_In; simpl; intuition.
Qed.

Lemma backward_candidate_shape (m : MinMaxCandidates) (t k : state) :
  In k (backward_candidates m (set_of t)) ->
  S (length k) = length (set_of t)
  /\ StronglySorted lt k
  /\ issubset (fixed_features m) k = true
  /\ exists c, In c (columns m) /\ In c t /\ ~ In c (fixed_features m)
               /\ forall x, In x k <-> In x t /\ x <> c.
Proof.
  unfold backward_candidates; intros H.
  apply in_map_iff in H as (c & <- & Hc).
  apply filter_In in Hc as [Hcol Hc].
  apply andb_true_iff in Hc as [Hm Hf].
  pose proof (set_xor_singleton _ _ Hm) as E.
  assert (Hin : In c (set_of t)) by (apply mem_In; exact Hm).
  assert (Hel : forall x, In x (set_xor (set_of t) (set_of [c]))
                          <-> In x t /\ x <> c).
  { intros x; rewrite E, filter_In, set_of_In, negb_true_iff, Nat.eqb_neq.
    tauto. }
  split; [rewrite sorted_length, E;
          apply filter_remove_length; [apply set_of_NoDup | exact Hin]|].
  split.
  { apply Sorted_NoDup_lt; [apply sorted_Sorted|].
    apply sorted_NoDup; rewrite E; apply NoDup_filter, set_of_NoDup. }
  split; [rewrite issubset_sorted; exact Hf|].
  exists c; split; [exact Hcol|].
  split; [apply set_of_In; exact Hin|].
  split.
  - intros Hfix.
    apply issubset_incl in Hf.
    apply Hf, Hel in Hfix; tauto.
  - intros x; rewrite sorted_In; apply Hel.
Qed.

(** X1.  In direction "forward" the generator, when it returns candidates,
    returns them without raising; each candidate is a strictly increasing
    tuple with one feature more than the set of the state, at most
    [max_features] features, made of the state plus one column that is not
    in the state, and it contains the fixed features. *)
Theorem forward_call_candidates (self : StepCandidates) (t : state)
  (it : iterator state) :
  String.eqb (direction self) "forward" = true ->
  StepCandidates_call self (Some t) = Ok (Some it) ->
  raised it = None
  /\ forall k, In k (yielded it) ->
       length k = S (length (set_of t))
       /\ length k <= max_features (base self)
       /\ StronglySorted lt k
       /\ issubset (fixed_features (base self)) k = true
       /\ exists c, In c (columns (base self)) /\ ~ In c t
                    /\ forall x, In x k <-> In x t \/ x = c.
Proof.
  intros Hd H; rewrite (StepCandidates_call_forward _ _ Hd) in H.
  destruct (length (set_of t) <? max_features (base self)) eqn:E;
    inversion H; subst; clear H.
  apply Nat.ltb_lt in E.
  split; [apply raised_iter_of_list|].
  intros k Hk; rewrite yielded_iter_of_list in Hk.
  destruct (forward_candidate_shape _ _ _ Hk) as (Hl & Hs & Hf & Hc).
  repeat split; auto; lia.
Qed.

Lemma forward_call_candidates_witness :
  exists it,
    StepCandidates_call forward_three (Some [1; 0]) = Ok (Some it)
    /\ yielded it = [[0; 1; 2]]
    /\ raised it = None
    /\ forall k, In k (yielded it) ->
         length k = S (length (set_of [1; 0]))
         /\ length k <= max_features (base forward_three)
         /\ StronglySorted lt k
         /\ issubset (fixed_features (base forward_three)) k = true
         /\ exists c, In c (columns (base forward_three)) /\ ~ In c [1; 0]
                      /\ forall x, In x k <-> In x [1; 0] \/ x = c.
Proof.
  eexists; split; [reflexivity|]; split; [reflexivity|].
  apply (forward_call_candidates forward_three [1; 0] _ eq_refl eq_refl).
Defined.

(** X2.  In direction "backward" the generator, when it returns
    candidates, returns them without raising; each candidate is a strictly
    increasing tuple with one feature less than the set of the state, at
    least [min_features] features, made of the state without one of its
    features, and the feature left out is never a fixed feature. *)
Theorem backward_call_candidates (self : StepCandidates) (t : state)
  (it : iterator state) :
  String.eqb (direction self) "forward" = false ->
  String.eqb (direction self) "backward" = true ->
  StepCandidates_call self (Some t) = Ok (Some it) ->
  raised it = None
  /\ forall k, In k (yielded it) ->
       S (length k) = length (set_of t)
       /\ min_features (base self) <= length k
       /\ StronglySorted lt k
       /\ issubset (fixed_features (base self)) k = true
       /\ exists c, In c (columns (base self)) /\ In c t
                    /\ ~ In c (fixed_features (base self))
                    /\ forall x, In x k <-> In x t /\ x <> c.
Proof.
  intros Hf Hd H; rewrite (StepCandidates_call_backward _ _ Hf Hd) in H.
  destruct (min_features (base self) <? length (set_of t)) eqn:E;
    inversion H; subst; clear H.
  apply Nat.ltb_lt in E.
  split; [apply raised_iter_of_list|].
  intros k Hk; rewrite yielded_iter_of_list in Hk.
  destruct (backward_candidate_shape _ _ _ Hk) as (Hl & Hs & Hfx & Hc).
  repeat split; auto; lia.
Qed.

Lemma backward_call_candidates_witness :
  exists it,
    StepCandidates_call backward_three (Some [2; 0]) = Ok (Some it)
    /\ yielded it = [[2]; [0]]
    /\ raised it = None
    /\ forall k, In k (yielded it) ->
         S (length k) = length (set_of [2; 0])
         /\ min_features (base backward_three) <= length k
         /\ StronglySorted lt k
         /\ issubset (fixed_features (base backward_three)) k = true
         /\ exists c, In c (columns (base backward_three)) /\ In c [2; 0]
                      /\ ~ In c (fixed_features (base backward_three))
                      /\ forall x, In x k <-> In x [2; 0] /\ x <> c.
Proof.
  eexists; split; [reflexivity|]; split; [reflexivity|].
  apply (backward_call_candidates backward_three [2; 0] _ eq_refl eq_refl
           eq_refl).
Defined.

Lemma set_xor_In (a b : pyset) (x : feature) :
  In x (set_xor a b) <-> (In x a /\ ~ In x b) \/ (In x b /\ ~ In x a).
Proof.
  unfold set_xor.
  rewrite in_app_iff, !filter_In, !negb_true_iff, !mem_false; tauto.
Qed.

Lemma set_xor_NoDup (a b : pyset) : NoDup a -> NoDup b -> NoDup (set_xor a b).
Proof.
  intros Ha Hb; unfold set_xor; apply NoDup_app;
    [apply NoDup_filter, Ha | apply NoDup_filter, Hb|].
  intros x Hx Hy.
  apply filter_In in Hx as [Hx _].
  apply filter_In in Hy as [_ Hy].
  apply negb_true_iff, mem_false in Hy; contradiction.
Qed.

Lemma mem_ext (c : feature) (s s' : list feature) :
  (forall x, In x s <-> In x s') -> mem c s = mem c s'.
Proof.
  intros H; destruct (mem c s') eqn:E.
  - apply mem_In, H, mem_In; exact E.
  - apply mem_false; intros Hc; apply H, mem_In in Hc; congruence.
Qed.

Lemma issubset_ext (a : pyset) (b b' : list feature) :
  (forall x, In x b <-> In x b') -> issubset a b = issubset a b'.
Proof.
  intros H; unfold issubset.
  induction a as [|y a IH]; simpl; [reflexivity|].
  rewrite IH, (mem_ext y b b' H); reflexivity.
Qed.

Lemma StepCandidates_call_unfold (self : StepCandidates) (t : state) :
  StepCandidates_call self (Some t)
  = (let forward :=
       if length (set_of t) <? max_features (base self)
       then Some (forward_candidates (base self) (set_of t)) else None in
     let backward :=
       if min_features (base self) <? length (set_of t)
       then Some (backward_candidates (base self) (set_of t)) else None in
     if String.eqb (direction self) "forward"
     then Ok (option_map iter_of_list forward)
     else if String.eqb (direction self) "backward"
     then Ok (option_map iter_of_list backward)
     else Ok (Some (chain_from_iterable
                      [option_map iter_of_list forward;
                       option_map iter_of_list backward]))).
Proof. reflexivity. Qed.

Lemma forward_candidates_ext (m : MinMaxCandidates) (s s' : pyset) :
  NoDup s -> NoDup s' -> (forall x, In x s <-> In x s') ->
  forward_candidates m s = forward_candidates m s'.
Proof.
  intros N N' H; unfold forward_candidates.
  assert (Hel : forall c x, In x (set_or s (set_of [c]))
                            <-> In x (set_or s' (set_of [c]))).
  { intros c x; rewrite !set_or_In, H; reflexivity. }
  rewrite (filter_ext
             (fun c => negb (mem c s)
                       && issubset (fixed_features m) (set_or s (set_of [c])))
             (fun c => negb (mem c s')
                       && issubset (fixed_features m)
                            (set_or s' (set_of [c])))).
  - apply map_ext; intros c.
    apply sorted_set_unique;
      try (apply set_or_NoDup; [assumption | apply set_of_NoDup]).
    apply Hel.
  - intros c; rewrite (mem_ext c s s' H), (issubset_ext _ _ _ (Hel c)).
    reflexivity.
Qed.

Lemma backward_candidates_ext (m : MinMaxCandidates) (s s' : pyset) :
  NoDup s -> NoDup s' -> (forall x, In x s <-> In x s') ->
  backward_candidates m s = backward_candidates m s'.
Proof.
  intros N N' H; unfold backward_candidates.
  assert (Hel : forall c x, In x (set_xor s (set_of [c]))
                            <-> In x (set_xor s' (set_of [c]))).
  { intros c x; rewrite !set_xor_In, H; reflexivity. }
  rewrite (filter_ext
             (fun c => mem c s
                       && issubset (fixed_features m) (set_xor s (set_of [c])))
             (fun c => mem c s'
                       && issubset (fixed_features m)
                            (set_xor s' (set_of [c])))).
  - apply map_ext; intros c.
    apply sorted_set_unique;
      try (apply set_xor_NoDup; [assumption | apply set_of_NoDup]).
    apply Hel.
  - intros c; rewrite (mem_ext c s s' H), (issubset_ext _ _ _ (Hel c)).
    reflexivity.
Qed.

(** X3.  [StepCandidates.__call__] reads its argument as a set: two states
    with the same features, in whatever order and with whatever
    repetitions, get the same answer, in every direction. *)
Theorem StepCandidates_call_set (self : StepCandidates) (t t' : state) :
  (forall x, In x t <-> In x t') ->
  StepCandidates_call self (Some t) = StepCandidates_call self (Some t').
Proof.
  intros H.
  assert (Hs : forall x, In x (set_of t) <-> In x (set_of t'))
    by (intros x; rewrite !set_of_In; apply H).
  assert (Hl : length (set_of t) = length (set_of t')).
  { apply Permutation_length, NoDup_Permutation;
      [apply set_of_NoDup | apply set_of_NoDup | exact Hs]. }
  rewrite !StepCandidates_call_unfold; cbv zeta.
  rewrite Hl.
  rewrite (forward_candidates_ext (base self) _ _
             (set_of_NoDup t) (set_of_NoDup t') Hs).
  rewrite (backward_candidates_ext (base self) _ _
             (set_of_NoDup t) (set_of_NoDup t') Hs).
  reflexivity.
Qed.

Lemma StepCandidates_call_set_witness :
  StepCandidates_call forward_three (Some [1; 0; 1])
  = StepCandidates_call forward_three (Some [0; 1]).
Proof.
  apply (StepCandidates_call_set forward_three [1; 0; 1] [0; 1]).
  intros x; simpl; tauto.
Defined.

Lemma filter_negb_length {A : Type} (f : A -> bool) (l : list A) :
  length (filter f l) + length (filter (fun x => negb (f x)) l) = length l.
Proof.
  induction l as [|x l IH]; simpl; [reflexivity|].
  destruct (f x); simpl; lia.
Qed.

Lemma filter_mem_length (cols s : list feature) :
  NoDup cols -> NoDup s -> incl s cols ->
  length (filter (fun c => mem c s) cols) = length s.
Proof.
  intros Nc Ns Hi; apply Permutation_length, NoDup_Permutation;
    [apply NoDup_filter, Nc | exact Ns|].
  intros x; rewrite filter_In, mem_In; split; [tauto|].
  intros Hx; split; [apply Hi, Hx | exact Hx].
Qed.

Lemma forward_map_NoDup (s : pyset) (l : list feature) :
  NoDup l -> (forall c, In c l -> mem c s = false) ->
  NoDup (map (fun c => sorted (set_or s (set_of [c]))) l).
Proof.
  induction 1 as [|c l Hc Nl IH]; intros Hout; cbn [map]; constructor.
  - intros Hin; apply in_map_iff in Hin as (c' & E & Hc').
    cbv beta in E.
    assert (Hcin : In c (sorted (set_or s (set_of [c'])))).
    { rewrite E; apply sorted_In, set_or_In; right; left; reflexivity. }
    apply sorted_In, set_or_In in Hcin as [Hcin|[<-|[]]].
    + apply mem_In in Hcin.
      rewrite (Hout c (or_introl eq_refl)) in Hcin; discriminate.
    + contradiction.
  - apply IH; intros c' Hc'; apply Hout; right; exact Hc'.
Qed.

(** X4.  A forward step from a state that holds the fixed features
    proposes every column outside the state exactly once: with distinct
    column identifiers, the number of candidates plus the number of
    features of the state is the number of columns. *)
Theorem forward_batch_size (self : StepCandidates) (t : state) :
  String.eqb (direction self) "forward" = true ->
  NoDup (columns (base self)) ->
  incl t (columns (base self)) ->
  issubset (fixed_features (base self)) t = true ->
  length (set_of t) < max_features (base self) ->
  exists it,
    StepCandidates_call self (Some t) = Ok (Some it)
    /\ raised it = None
    /\ NoDup (yielded it)
    /\ length (yielded it) + length (set_of t) = length (columns (base self)).
Proof.
  intros Hd Nc Hi Hf Hlt.
  rewrite (StepCandidates_call_forward _ _ Hd).
  apply Nat.ltb_lt in Hlt; rewrite Hlt.
  eexists; split; [reflexivity|].
  split; [apply raised_iter_of_list|].
  rewrite yielded_iter_of_list.
  set (s := set_of t).
  assert (Hfilter :
            filter (fun c => negb (mem c s)
                             && issubset (fixed_features (base self))
                                  (set_or s (set_of [c])))
                   (columns (base self))
            = filter (fun c => negb (mem c s)) (columns (base self))).
  { apply filter_ext; intros c.
    replace (issubset (fixed_features (base self)) (set_or s (set_of [c])))
      with true; [apply andb_true_r|].
    symmetry; apply issubset_incl; intros x Hx.
    apply set_or_In; left; apply set_of_In.
    apply issubset_incl in Hf; apply Hf, Hx. }
  split.
  - unfold forward_candidates; fold s; rewrite Hfilter.
    apply forward_map_NoDup; [apply NoDup_filter, Nc|].
    intros c Hc; apply filter_In in Hc as [_ Hc].
    apply negb_true_iff; exact Hc.
  - unfold forward_candidates; fold s; rewrite Hfilter, length_map.
    pose proof (filter_negb_length (fun c => mem c s) (columns (base self)))
      as E.
    rewrite (filter_mem_length _ s Nc (set_of_NoDup t)) in E; [lia|].
    intros x Hx; apply Hi, set_of_In, Hx.
Qed.

Lemma forward_batch_size_witness :
  exists it,
    StepCandidates_call forward_three (Some [1]) = Ok (Some it)
    /\ raised it = None
    /\ NoDup (yielded it)
    /\ length (yielded it) + length (set_of [1])
       = length (columns (base forward_three)).
Proof.
  apply (forward_batch_size forward_three [1]).
  - reflexivity.
  - simpl; repeat constructor; simpl; intuition discriminate.
  - intros x [<-|[]]; simpl; auto.
  - reflexivity.
  - simpl; lia.
Defined.

(** ** The result table as a dictionary *)

Lemma dict_get_set_same (d : dict) (k : state) (v : result_entry) :
  dict_get (dict_set d k v) k = Some v.
Proof.
  induction d as [|[k0 v0] d IH]; simpl.
  - rewrite state_eqb_refl; reflexivity.
  - destruct (state_eqb k k0) eqn:E; simpl; rewrite E; auto.
Qed.

Lemma dict_get_set_other (d : dict) (k k' : state) (v : result_entry) :
  k' <> k -> dict_get (dict_set d k v) k' = dict_get d k'.
Proof.
  intros Hne; induction d as [|[k0 v0] d IH]; simpl.
  - destruct (state_eqb k' k) eqn:E; [|reflexivity].
    apply state_eqb_eq in E; contradiction.
  - destruct (state_eqb k k0) eqn:E; simpl.
    + apply state_eqb_eq in E; subst k0.
      destruct (state_eqb k' k) eqn:E'; [|reflexivity].
      apply state_eqb_eq in E'; contradiction.
    + rewrite IH; reflexivity.
Qed.

Lemma dict_get_None (d : dict) (k : state) :
  dict_get d k = None <-> ~ In k (dict_keys d).
Proof.
  unfold dict_keys; induction d as [|[k0 v0] d IH]; simpl; [tauto|].
  destruct (state_eqb k k0) eqn:E.
  - apply state_eqb_eq in E; subst; split; [discriminate | tauto].
  - rewrite IH; split; [|tauto].
    intros H [H'|H']; [|tauto].
    subst; rewrite state_eqb_refl in E; discriminate.
Qed.

(** [d[k] = v] adds [k] behind the keys already there, or leaves the
    keys as they are. *)
Lemma dict_set_keys_prefix (d : dict) (k : state) (v : result_entry) :
  dict_keys (dict_set d k v)
  = dict_keys d ++ match dict_get d k with
                   | Some _ => []
                   | None => [k]
                   end.
Proof.
  unfold dict_keys; induction d as [|[k0 v0] d IH]; simpl; [reflexivity|].
  destruct (state_eqb k k0) eqn:E; simpl.
  - rewrite app_nil_r; reflexivity.
  - rewrite IH; reflexivity.
Qed.

Lemma dict_update_keys_prefix (b d : dict) :
  exists l, dict_keys (dict_update d b) = dict_keys d ++ l.
Proof.
  unfold dict_update; revert d; induction b as [|[k v] b IH]; intros d; simpl.
  - exists []; rewrite app_nil_r; reflexivity.
  - destruct (IH (dict_set d k v)) as [l Hl].
    rewrite Hl, dict_set_keys_prefix, <- app_assoc; eauto.
Qed.

Lemma dict_set_NoDup (d : dict) (k : state) (v : result_entry) :
  NoDup (dict_keys d) -> NoDup (dict_keys (dict_set d k v)).
Proof.
  intros N; rewrite dict_set_keys_prefix.
  destruct (dict_get d k) eqn:E; [rewrite app_nil_r; exact N|].
  apply NoDup_app; [exact N | repeat constructor; intros [] |].
  intros x Hx [<-|[]]; apply dict_get_None in E; contradiction.
Qed.

Lemma dict_update_NoDup (b d : dict) :
  NoDup (dict_keys d) -> NoDup (dict_keys (dict_update d b)).
Proof.
  unfold dict_update; revert d; induction b as [|[k v] b IH]; intros d N;
    simpl; [exact N|].
  apply IH, dict_set_NoDup, N.
Qed.

(** The lookup after [d.update(b)], for a dictionary [b]: the entry of
    [b] when [b] has the key, the old entry otherwise. *)
Lemma dict_update_get (b d : dict) (k : state) :
  NoDup (dict_keys b) ->
  dict_get (dict_update d b) k
  = match dict_get b k with
    | Some v => Some v
    | None => dict_get d k
    end.
Proof.
  unfold dict_update; revert d; induction b as [|[k0 v0] b IH]; intros d N;
    simpl; [reflexivity|].
  inversion N as [|? ? Hk0 Nb]; subst.
  rewrite (IH _ Nb).
  destruct (state_eqb k k0) eqn:E.
  - apply state_eqb_eq in E; subst k0.
    apply dict_get_None in Hk0; rewrite Hk0.
    apply dict_get_set_same.
  - destruct (dict_get b k); [reflexivity|].
    apply dict_get_set_other.
    intros ->; rewrite state_eqb_refl in E; discriminate.
Qed.

(** The batch that [_batch] builds is a dictionary: its keys are
    distinct. *)
Lemma batch_of_NoDup (nanmean : list score -> score)
  (work : list (state * list score)) :
  NoDup (dict_keys (batch_of nanmean work)).
Proof.
  unfold batch_of.
  assert (H : forall d : dict,
             NoDup (dict_keys d) ->
             NoDup (dict_keys
                      (fold_left
                         (fun results w =>
                            dict_set results (fst w)
                              (mk_entry (snd w) (nanmean (snd w))))
                         work d))).
  { induction work as [|w work IH]; intros d N; simpl; [exact N|].
    apply IH, dict_set_NoDup, N. }
  apply H; constructor.
Qed.

(** X5.  [update_results_check] merges like [dict.update]: afterwards a
    state of the batch has the entry of the batch, overwriting an earlier
    entry of that state, and every other state keeps its entry; the keys
    already in the table keep their places, new ones follow them. *)
Theorem update_results_check_merge {G : Type} {strategy : Strategy G}
  (batch_results : dict) (self self' : @FeatureSelector G)
  (r : result (pystate * option score * bool)) :
  NoDup (dict_keys batch_results) ->
  update_results_check batch_results self = (r, self') ->
  (forall k, dict_get (results_ self') k
             = match dict_get batch_results k with
               | Some v => Some v
               | None => dict_get (results_ self) k
               end)
  /\ exists l, dict_keys (results_ self')
               = dict_keys (results_ self) ++ l.
Proof.
  intros N H.
  apply update_results_check_spec in H
    as [(-> & -> & ->) | (Hne & [(e & _ & -> & ->)
                                | (cs & sc & fin & _ & -> & ->)])].
  - split; [reflexivity | exists []; rewrite app_nil_r; reflexivity].
  - simpl; split; [intros k; apply dict_update_get, N|].
    apply dict_update_keys_prefix.
  - assert (E : results_ (if score_gt sc (best_score_ self)
                          then set_best
                                 (set_results_ self
                                    (dict_update (results_ self) batch_results))
                                 cs sc
                          else set_results_ self
                                 (dict_update (results_ self) batch_results))
                = dict_update (results_ self) batch_results)
      by (destruct (score_gt sc (best_score_ self)); reflexivity).
    rewrite E; split; [intros k; apply dict_update_get, N|].
    apply dict_update_keys_prefix.
Qed.

Lemma update_results_check_merge_witness :
  (forall k,
      dict_get
        (results_
           (snd (update_results_check
                   [([0], mk_entry [Fin (1#2)] (Fin (1#2)));
                    ([1], mk_entry [Fin (3#5)] (Fin (3#5)))]
                   fitted_selector))) k
      = match dict_get [([0], mk_entry [Fin (1#2)] (Fin (1#2)));
                        ([1], mk_entry [Fin (3#5)] (Fin (3#5)))] k with
        | Some v => Some v
        | None => dict_get (results_ fitted_selector) k
        end)
  /\ exists l,
      dict_keys
        (results_
           (snd (update_results_check
                   [([0], mk_entry [Fin (1#2)] (Fin (1#2)));
                    ([1], mk_entry [Fin (3#5)] (Fin (3#5)))]
                   fitted_selector)))
      = dict_keys (results_ fitted_selector) ++ l.
Proof.
  apply (update_results_check_merge
           [([0], mk_entry [Fin (1#2)] (Fin (1#2)));
            ([1], mk_entry [Fin (3#5)] (Fin (3#5)))]
           fitted_selector _
           (fst (update_results_check
                   [([0], mk_entry [Fin (1#2)] (Fin (1#2)));
                    ([1], mk_entry [Fin (3#5)] (Fin (3#5)))]
                   fitted_selector))).
  - repeat constructor; simpl; intuition discriminate.
  - reflexivity.
Defined.

(** ** The scan for the best average *)

(** Where the scan stops: at the first entry whose average nothing that
    follows exceeds and that exceeds everything before it. *)
Lemma batch_scan_first (batch : dict) (s0 : pystate) (v0 : score)
  (k : state) (v : score) :
  is_nan v0 = false ->
  fold_left keep_better batch (s0, v0) = (Some k, v) ->
  (s0 = Some k /\ v0 = v
   /\ forall x, In x batch -> score_gt (avg_score (snd x)) v = false)
  \/ exists l1 e l2,
       batch = l1 ++ (k, e) :: l2
       /\ avg_score e = v
       /\ score_gt v v0 = true
       /\ (forall x, In x l1 ->
             score_gt v (avg_score (snd x)) = true
             \/ is_nan (avg_score (snd x)) = true)
       /\ (forall x, In x l2 -> score_gt (avg_score (snd x)) v = false).
Proof.
  revert s0 v0; induction batch as [|[kx ex] batch IH]; intros s0 v0 N H;
    simpl in H.
  - inversion H; subst; left; repeat split; intros x [].
  - change (keep_better (s0, v0) (kx, ex))
      with (if score_gt (avg_score ex) v0
            then (Some kx, avg_score ex) else (s0, v0)) in H.
    destruct (score_gt (avg_score ex) v0) eqn:G.
    + destruct (score_gt_not_nan _ _ G) as [Ne _].
      destruct (IH _ _ Ne H)
        as [(Es & Ev & Hall) | (l1 & e & l2 & -> & Ee & Hgt & H1 & H2)].
      * inversion Es; subst; right.
        exists [], ex, batch; repeat split; auto.
      * right; exists ((kx, ex) :: l1), e, l2; repeat split; auto.
        -- exact (score_gt_trans _ _ _ Hgt G).
        -- intros x [<-|Hx]; [left; exact Hgt | auto].
    + destruct (IH _ _ N H)
        as [(Es & Ev & Hall) | (l1 & e & l2 & -> & Ee & Hgt & H1 & H2)].
      * subst; left; repeat split.
        intros x [<-|Hx]; [exact G | auto].
      * right; exists ((kx, ex) :: l1), e, l2; repeat split; auto.
        intros x [<-|Hx]; [|auto]; simpl.
        destruct (is_nan (avg_score ex)) eqn:Nx; [right; reflexivity|].
        destruct (score_gt_cotrans _ (avg_score ex) _ Nx Hgt) as [C|C];
          [left; exact C | congruence].
Qed.

Lemma batch_best_None (batch : dict) :
  fst (batch_best batch) = None <->
  forall x, In x batch -> score_gt (avg_score (snd x)) NegInf = false.
Proof.
  destruct (batch_best_spec batch) as (N & Hall & Hr); split.
  - intros H [kx ex] Hx; simpl.
    destruct Hr as [Hr | (k & e & _ & Hr)].
    + specialize (Hall kx ex Hx); rewrite Hr in Hall; exact Hall.
    + rewrite Hr in H; discriminate H.
  - intros H.
    destruct Hr as [Hr | (k & e & Hin & Hr)]; [rewrite Hr; reflexivity|].
    exfalso.
    pose proof (H _ Hin) as Hk; simpl in Hk.
    unfold batch_best in Hr.
    apply batch_scan_first in Hr
      as [(Es & _) | (l1 & e' & l2 & _ & Ee & Hgt & _)];
      [discriminate | | reflexivity].
    rewrite Hgt in Hk; discriminate.
Qed.

(** X6.  [postprocess] finds the first best entry of the table.  When it
    settles on a state, that state is a key of the table and the best
    score is its recorded average; no recorded average is strictly
    greater; every entry before it has a strictly smaller average or NaN,
    so of two states with the same best average the one evaluated first
    wins.  It settles on no state ([None], with -inf) exactly when no
    recorded average is greater than -inf. *)
Theorem postprocess_first_best {G : Type} (self : @FeatureSelector G) :
  (forall k, best_state_ (postprocess self) = Some k ->
     exists l1 e l2,
       results_ self = l1 ++ (k, e) :: l2
       /\ avg_score e = best_score_ (postprocess self)
       /\ (forall x, In x l1 ->
             score_gt (avg_score e) (avg_score (snd x)) = true
             \/ is_nan (avg_score (snd x)) = true)
       /\ (forall x, In x (results_ self) ->
             score_gt (avg_score (snd x)) (avg_score e) = false))
  /\ (best_state_ (postprocess self) = None <->
      forall x, In x (results_ self) ->
                score_gt (avg_score (snd x)) NegInf = false)
  /\ (best_state_ (postprocess self) = None ->
      best_score_ (postprocess self) = NegInf).
Proof.
  pose proof (postprocess_batch_best self) as E.
  destruct (batch_best_spec (results_ self)) as (N & Hall & Hr).
  split; [|split].
  - intros k Hk.
    assert (Hb : batch_best (results_ self)
                 = (Some k, best_score_ (postprocess self)))
      by (rewrite <- E, Hk; reflexivity).
    unfold batch_best in Hb.
    apply batch_scan_first in Hb
      as [(Es & _) | (l1 & e & l2 & Hsplit & Ee & _ & H1 & _)];
      [discriminate | | reflexivity].
    rewrite <- E in Hall; simpl in Hall.
    exists l1, e, l2; split; [exact Hsplit|]; split; [exact Ee|].
    rewrite Ee; split; [exact H1|].
    intros [kx ex] Hx; exact (Hall kx ex Hx).
  - rewrite <- (batch_best_None (results_ self)), <- E; reflexivity.
  - intros Hn.
    destruct Hr as [Hr | (k & e & _ & Hr)]; rewrite <- E in Hr;
      inversion Hr as [[H1 H2]]; [reflexivity|].
    rewrite Hn in H1; discriminate.
Qed.

(** X7.  [postprocess] reads the table and nothing else: run on its own
    result it changes nothing. *)
Theorem postprocess_idempotent {G : Type} (self : @FeatureSelector G) :
  postprocess (postprocess self) = postprocess self.
Proof.
  assert (H : forall (l : dict) (s : @FeatureSelector G),
             fold_left
               (fun self kv =>
                  if score_gt (avg_score (snd kv)) (best_score_ self)
                  then set_best self (Some (fst kv)) (avg_score (snd kv))
                  else self) l s
             = set_best s
                 (fst (fold_left keep_better l (best_state_ s, best_score_ s)))
                 (snd (fold_left keep_better l (best_state_ s, best_score_ s)))).
  { induction l as [|kv l IH]; intros s; simpl.
    - destruct s; reflexivity.
    - rewrite IH.
      change (keep_better (best_state_ s, best_score_ s) kv)
        with (if score_gt (avg_score (snd kv)) (best_score_ s)
              then (Some (fst kv), avg_score (snd kv))
              else (best_state_ s, best_score_ s)).
      destruct (score_gt (avg_score (snd kv)) (best_score_ s)); reflexivity. }
  unfold postprocess; rewrite !H; simpl.
  destruct self; reflexivity.
Qed.

(** X8.  On a tie [StepCandidates.check_finished] returns the earlier
    state: the state it returns is an entry of the batch, every entry
    before it has a strictly smaller average or NaN, and no entry has a
    strictly greater one. *)
Theorem StepCandidates_check_finished_first
  (self : StepCandidates) (results : dict) (best_state : pystate)
  (batch_results : dict) (b : state) (v : score) (done : bool) :
  StepCandidates_check_finished self results best_state batch_results
  = Ok (Some b, v, done) ->
  exists l1 e l2,
    batch_results = l1 ++ (b, e) :: l2
    /\ avg_score e = v
    /\ (forall x, In x l1 ->
          score_gt v (avg_score (snd x)) = true
          \/ is_nan (avg_score (snd x)) = true)
    /\ (forall x, In x batch_results ->
          score_gt (avg_score (snd x)) v = false).
Proof.
  unfold StepCandidates_check_finished.
  destruct best_state as [b0|]; [|discriminate].
  destruct (dict_get results b0) as [e0|]; [|discriminate].
  intros H; inversion H as [[Hb Hv Hd]]; clear H.
  destruct (batch_best_spec batch_results) as (_ & Hall & _).
  assert (Hbb : batch_best batch_results = (Some b, v))
    by (rewrite (surjective_pairing (batch_best batch_results)), Hb, Hv;
        reflexivity).
  rewrite Hbb in Hall; simpl in Hall.
  unfold batch_best in Hbb.
  apply batch_scan_first in Hbb
    as [(Es & _) | (l1 & e & l2 & Hsplit & Ee & _ & H1 & _)];
    [discriminate | | reflexivity].
  rewrite ?Hv.
  exists l1, e, l2.
  split; [exact Hsplit|]; split; [exact Ee|]; split; [exact H1|].
  intros [kx ex] Hx; exact (Hall kx ex Hx).
Qed.

Lemma StepCandidates_check_finished_first_witness :
  exists l1 e l2,
    [([0; 1], mk_entry [Fin (3#5)] (Fin (3#5)));
     ([0; 2], mk_entry [Fin (3#5)] (Fin (3#5)))]
    = l1 ++ ([0; 1], e) :: l2
    /\ avg_score e = Fin (3#5)
    /\ (forall x, In x l1 ->
          score_gt (Fin (3#5)) (avg_score (snd x)) = true
          \/ is_nan (avg_score (snd x)) = true)
    /\ (forall x, In x [([0; 1], mk_entry [Fin (3#5)] (Fin (3#5)));
                        ([0; 2], mk_entry [Fin (3#5)] (Fin (3#5)))] ->
          score_gt (avg_score (snd x)) (Fin (3#5)) = false).
Proof.
  apply (StepCandidates_check_finished_first forward_three
           [([0], mk_entry [Fin (1#2)] (Fin (1#2)))] (Some [0])
           [([0; 1], mk_entry [Fin (3#5)] (Fin (3#5)));
            ([0; 2], mk_entry [Fin (3#5)] (Fin (3#5)))]
           [0; 1] (Fin (3#5)) false).
  reflexivity.
Defined.

(** ** What the loop keeps *)

Lemma score_not_lower_refl (a : score) : score_not_lower a a.
Proof. left; reflexivity. Qed.

Lemma score_not_lower_trans (a b c : score) :
  score_not_lower a b -> score_not_lower b c -> score_not_lower a c.
Proof.
  intros [->|H1] [->|H2]; [left; reflexivity | right; exact H2
                          | right; exact H1 |].
  right; exact (score_gt_trans _ _ _ H2 H1).
Qed.

Section LoopKeeps.

Context {G : Type} {strategy : Strategy G}.
Variable evaluate : nat -> state -> result (list score).
Variable nanmean : list score -> score.

Local Abbreviation Selector := (@FeatureSelector G).

(** How an object [s'] stands to an earlier object [s] of the same run:
    the best score has not dropped, the keys of [s] still head the table,
    the flag [fitted] was not cleared, and the configuration is the
    same. *)
Local Abbreviation later s s' :=
  (score_not_lower (best_score_ s) (best_score_ s')
   /\ (exists l, dict_keys (results_ s') = dict_keys (results_ s) ++ l)
   /\ (fitted s = true -> fitted s' = true)
   /\ initial_state s' = initial_state s
   /\ _TESTING_INTERRUPT_MODE s' = _TESTING_INTERRUPT_MODE s).

Lemma later_refl (s : Selector) : later s s.
Proof.
  split; [apply score_not_lower_refl|].
  split; [exists []; rewrite app_nil_r; reflexivity | auto].
Qed.

Lemma later_trans (s1 s2 s3 : Selector) :
  later s1 s2 -> later s2 s3 -> later s1 s3.
Proof.
  intros (A1 & [l1 B1] & C1 & D1 & E1) (A2 & [l2 B2] & C2 & D2 & E2).
  split; [exact (score_not_lower_trans _ _ _ A1 A2)|].
  split; [exists (l1 ++ l2); rewrite B2, B1, app_assoc; reflexivity|].
  split; [auto|]; split; congruence.
Qed.

Lemma _batch_later (s0 : Selector) (round : nat) (st : pystate)
  (self : Selector) (r : result dict) (self' : Selector) :
  later s0 self ->
  _batch evaluate nanmean round st self = (r, self') ->
  later s0 self' /\ forall b : dict, r = Ok b -> True.
Proof.
  intros HL H; split; [|auto].
  apply _batch_spec in H as [(e & _ & _ & ->) | (c & g & _ & -> & _)];
    exact HL.
Qed.

Lemma update_results_check_later (s0 : Selector) (b : dict)
  (self : Selector) (r : result (pystate * option score * bool))
  (self' : Selector) :
  later s0 self -> True ->
  update_results_check b self = (r, self') -> later s0 self'.
Proof.
  intros HL _ H; apply (later_trans s0 self self' HL).
  apply update_results_check_spec in H
    as [(-> & -> & ->) | (Hne & [(e & _ & -> & ->)
                                | (cs & sc & fin & _ & -> & ->)])].
  - apply later_refl.
  - split; [apply score_not_lower_refl|].
    split; [apply dict_update_keys_prefix | simpl; auto].
  - destruct (score_gt sc (best_score_ self)) eqn:Hgt; simpl.
    + split; [right; exact Hgt|].
      split; [apply dict_update_keys_prefix | simpl; auto].
    + split; [apply score_not_lower_refl|].
      split; [apply dict_update_keys_prefix | simpl; auto].
Qed.

(** X9.  Through the rounds of the search the best score only moves up
    (it is replaced by strictly greater scores only) and the table only
    grows: the states recorded earlier keep their places at the head of
    the table.  This holds after any number of rounds and however the
    loop ends. *)
Theorem search_loop_keeps (fuel round : nat) (st : pystate) (self : Selector) :
  score_not_lower (best_score_ self)
    (best_score_ (snd (search_loop evaluate nanmean fuel round st self)))
  /\ exists l,
       dict_keys (results_ (snd (search_loop evaluate nanmean fuel round st
                                   self)))
       = dict_keys (results_ self) ++ l.
Proof.
  pose proof (search_loop_invariant evaluate nanmean
                (fun s : Selector => later self s) (fun _ : dict => True)
                (_batch_later self) (update_results_check_later self)
                (fun s b H => H) fuel round st self (later_refl self))
    as (A & B & _).
  split; [exact A | exact B].
Qed.

Lemma fit_try_later (fuel : nat) (self : Selector) :
  later self (snd (fit_try evaluate nanmean fuel self)).
Proof.
  exact (fit_try_invariant evaluate nanmean
           (fun s : Selector => later self s) (fun _ : dict => True)
           (_batch_later self) (update_results_check_later self)
           (fun s b H => H) (fun s b H => H) fuel self (later_refl self)).
Qed.

(** What the start of [fit] leaves when it does not raise. *)
Lemma fit_init_Ok (self self1 : Selector) :
  fit_init evaluate nanmean self = (Ok tt, self1) ->
  exists cv,
    evaluate 0 (initial_state self) = Ok cv
    /\ results_ self1
       = [(initial_state self, mk_entry cv (nanmean cv))]
    /\ score_not_lower (nanmean cv) (best_score_ self1)
    /\ finished self1 = false
    /\ interrupted_ self1 = false
    /\ state_generator self1 = state_generator self
    /\ initial_state self1 = initial_state self
    /\ fitted self1 = fitted self
    /\ _TESTING_INTERRUPT_MODE self1 = _TESTING_INTERRUPT_MODE self.
Proof.
  unfold fit_init; simpl.
  destruct (evaluate 0 (initial_state self)) as [cv|e]; [|discriminate].
  destruct (update_results_check _ _) as [ru s1] eqn:Eu.
  intros H; exists cv; split; [reflexivity|].
  apply update_results_check_spec in Eu
    as [(Hb & _) | (Hne & [(e & _ & -> & ->)
                          | (cs & sc & fin & _ & -> & ->)])];
    [discriminate | discriminate |].
  inversion H; subst; clear H; simpl.
  destruct (score_gt sc (nanmean cv)) eqn:Hgt; simpl;
    (split; [reflexivity|]);
    (split; [first [right; exact Hgt | left; reflexivity]|]);
    repeat split.
Qed.

(** What a normal return of [fit] leaves. *)
Lemma fit_Ok_fields (fuel : nat) (self self' : Selector) :
  fit evaluate nanmean fuel self = (Some (Ok tt), self') ->
  fitted self' = true
  /\ exists l, dict_keys (results_ self') = initial_state self :: l.
Proof.
  unfold fit.
  destruct (fit_init evaluate nanmean self) as [[[]|e] s1] eqn:E1;
    [|discriminate].
  apply fit_init_Ok in E1 as (cv & _ & Hres & _).
  pose proof (fit_try_later fuel s1) as (_ & [l Hl] & _).
  destruct (fit_try evaluate nanmean fuel s1) as [[[[]|e]|] s2];
    try discriminate.
  intros H; inversion H; subst; clear H.
  destruct (postprocess_fields (set_fitted s2 true)) as (-> & _ & -> & _).
  split; [reflexivity|].
  simpl in Hl |- *; rewrite Hl, Hres; simpl; eauto.
Qed.

(** X10.  When [fit] returns normally, the object is marked fitted and
    the table is not empty: its first key is the initial state. *)
Theorem fit_Ok_table (fuel : nat) (self self' : Selector) :
  fit evaluate nanmean fuel self = (Some (Ok tt), self') ->
  fitted self' = true
  /\ exists l, dict_keys (results_ self') = initial_state self :: l.
Proof. exact (fit_Ok_fields fuel self self'). Qed.

(** X11.  [fit] never clears [fitted]: an object that was fitted before
    stays fitted whatever the new run does, also when the new run
    raises. *)
Theorem fit_keeps_fitted (fuel : nat) (self : Selector) :
  fitted self = true ->
  fitted (snd (fit evaluate nanmean fuel self)) = true.
Proof.
  intros Hf; unfold fit.
  destruct (fit_init evaluate nanmean self) as [r s1] eqn:E1.
  assert (H1 : fitted s1 = true).
  { unfold fit_init in E1; simpl in E1.
    destruct (evaluate 0 (initial_state self)) as [cv|e];
      [|inversion E1; subst; exact Hf].
    destruct (update_results_check _ _) as [ru s] eqn:Eu in E1.
    apply update_results_check_spec in Eu
      as [(_ & _ & ->) | (Hne & [(e & _ & _ & ->)
                                | (cs & sc & fin & _ & _ & ->)])];
      destruct ru; inversion E1; subst; simpl; auto;
      destruct (score_gt sc (nanmean cv)); exact Hf. }
  destruct r as [u|e]; simpl; [|exact H1].
  pose proof (fit_try_later fuel s1) as (_ & _ & Hk & _).
  destruct (fit_try evaluate nanmean fuel s1) as [[[u'|e]|] s2]; simpl in *;
    auto.
  destruct (postprocess_fields (set_fitted s2 true)) as (_ & _ & -> & _).
  reflexivity.
Qed.

(** X12.  A new run of [fit] starts afresh: when the initial state is
    scored, neither the table, the best state and score, nor the flags
    [finished] and [interrupted_] left by an earlier run influence the
    outcome or the resulting object. *)
Theorem fit_forgets_previous_run (fuel : nat) (self self' : Selector)
  (cv : list score) :
  initial_state self' = initial_state self ->
  state_generator self' = state_generator self ->
  fitted self' = fitted self ->
  _TESTING_INTERRUPT_MODE self' = _TESTING_INTERRUPT_MODE self ->
  evaluate 0 (initial_state self) = Ok cv ->
  fit evaluate nanmean fuel self' = fit evaluate nanmean fuel self.
Proof.
  intros Hi Hg Hf Ht He.
  unfold fit, fit_init; simpl; rewrite Hi, He.
  replace (set_best
             (set_interrupted_
                (set_finished (set_results_ self' []) false) false)
             (Some (initial_state self)) (nanmean cv))
    with (set_best
            (set_interrupted_
               (set_finished (set_results_ self []) false) false)
            (Some (initial_state self)) (nanmean cv));
    [reflexivity|].
  unfold set_best, set_interrupted_, set_finished, set_results_; simpl.
  rewrite Hi, Hg, Hf, Ht; reflexivity.
Qed.

End LoopKeeps.

Lemma fit_Ok_table_witness :
  exists self',
    fit score_by_size first_score 3
      (FeatureSelector_init [0] (three_columns [] []))
    = (Some (Ok tt), self')
    /\ fitted self' = true
    /\ exists l, dict_keys (results_ self') = [0] :: l.
Proof.
  eexists; split; [reflexivity|].
  apply (fit_Ok_table score_by_size first_score 3
           (FeatureSelector_init [0] (three_columns [] []))).
  reflexivity.
Defined.

Lemma fit_keeps_fitted_witness :
  fitted (snd (fit nan_then_half first_score 0 fitted_selector)) = true.
Proof.
  apply (fit_keeps_fitted nan_then_half first_score 0 fitted_selector).
  reflexivity.
Defined.

Lemma fit_forgets_previous_run_witness :
  fit score_by_size first_score 3 fitted_selector
  = fit score_by_size first_score 3 refit_selector.
Proof.
  apply (fit_forgets_previous_run score_by_size first_score 3
           refit_selector fitted_selector [Fin (1#1)]);
    reflexivity.
Defined.

(** X13.  After a run of [fit] that returned normally, [get_metric_dict]
    raises AttributeError whenever no base class binds
    [_calc_confidence]: the run left a fitted object and a table that is
    not empty. *)
Theorem get_metric_dict_after_fit {G : Type} {strategy : Strategy G}
  (evaluate : nat -> state -> result (list score))
  (nanmean np_std : list score -> score)
  (inherited_attribute :
     string -> option (list score -> score -> result (score * score)))
  (confidence_interval : score) (fuel : nat) (self self' : @FeatureSelector G) :
  inherited_attribute "_calc_confidence"%string = None ->
  fit evaluate nanmean fuel self = (Some (Ok tt), self') ->
  get_metric_dict np_std inherited_attribute confidence_interval self'
  = (Raise AttributeError, self').
Proof.
  intros Hattr Hfit.
  apply fit_Ok_fields in Hfit as [Hf [l Hl]].
  apply get_metric_dict_AttributeError; [exact Hattr | exact Hf|].
  intros E; rewrite E in Hl; discriminate.
Qed.

Lemma get_metric_dict_after_fit_witness :
  exists self',
    fit score_by_size first_score 3
      (FeatureSelector_init [0] (three_columns [] []))
    = (Some (Ok tt), self')
    /\ get_metric_dict first_score no_inherited_attribute (Fin (19#20)) self'
       = (Raise AttributeError, self').
Proof.
  eexists; split; [reflexivity|].
  apply (get_metric_dict_after_fit score_by_size first_score first_score
           no_inherited_attribute (Fin (19#20)) 3
           (FeatureSelector_init [0] (three_columns [] []))).
  - reflexivity.
  - reflexivity.
Defined.

(** ** Exhaustive search *)

Lemma NoDup_combinations {A : Type} (l : list A) (r : nat) :
  NoDup l -> NoDup (combinations l r).
Proof.
  intros N; revert r; induction N as [|x l Hx N IH]; intros [|r]; simpl;
    try (repeat constructor; intros []).
  apply NoDup_app.
  - clear Hx. specialize (IH r).
    induction IH as [|c cs Hc _ IHc]; simpl; constructor; [|exact IHc].
    intros H; apply in_map_iff in H as (c' & E & Hc').
    inversion E; subst; contradiction.
  - apply IH.
  - intros c Hc Hc'.
    apply in_map_iff in Hc as (c0 & <- & _).
    apply In_combinations in Hc' as [Hs _].
    apply Hx, (subseq_incl _ _ Hs); left; reflexivity.
Qed.

Lemma NoDup_flat_map_length {A : Type} (g : nat -> list (list A))
  (lo cnt : nat) :
  (forall i, NoDup (g i)) ->
  (forall i c, In c (g i) -> length c = i) ->
  NoDup (flat_map g (seq lo cnt)).
Proof.
  intros Hn Hl; revert lo; induction cnt as [|cnt IH]; intros lo; simpl;
    [constructor|].
  apply NoDup_app; [apply Hn | apply IH|].
  intros c Hc Hc'.
  apply in_flat_map in Hc' as (i & Hi & Hc').
  apply in_seq in Hi.
  apply Hl in Hc, Hc'; lia.
Qed.

(** X14.  With distinct column identifiers the exhaustive generator
    proposes no state twice. *)
Theorem MinMaxCandidates_call_NoDup (self : MinMaxCandidates) (st : pystate)
  (candidates : list state) :
  NoDup (columns self) ->
  fst (MinMaxCandidates_call self st) = Some candidates ->
  NoDup candidates.
Proof.
  intros N H; unfold MinMaxCandidates_call in H.
  destruct (_have_already_run self); [discriminate|].
  inversion H; subst; clear H.
  unfold range; apply NoDup_flat_map_length.
  - intros i; apply NoDup_filter, NoDup_combinations, N.
  - intros i c Hc; apply filter_In in Hc as [Hc _].
    apply In_combinations in Hc as [_ Hc]; exact Hc.
Qed.

Lemma MinMaxCandidates_call_NoDup_witness :
  NoDup [[0]; [1]; [2]; [0; 1]; [0; 2]; [1; 2]; [0; 1; 2]].
Proof.
  apply (MinMaxCandidates_call_NoDup (three_columns [] []) None).
  - simpl; repeat constructor; simpl; intuition discriminate.
  - reflexivity.
Defined.

Lemma fold_dict_set_keys (nanmean : list score -> score)
  (work : list (state * list score)) (d : dict) (k : state) :
  In k (dict_keys
          (fold_left
             (fun results w =>
                dict_set results (fst w) (mk_entry (snd w) (nanmean (snd w))))
             work d))
  <-> In k (dict_keys d) \/ In k (map fst work).
Proof.
  revert d; induction work as [|w work IH]; intros d; simpl; [tauto|].
  rewrite IH, dict_set_keys; intuition.
Qed.

Lemma batch_of_keys (nanmean : list score -> score)
  (work : list (state * list score)) (k : state) :
  In k (dict_keys (batch_of nanmean work)) <-> In k (map fst work).
Proof.
  unfold batch_of; rewrite fold_dict_set_keys; simpl; tauto.
Qed.

Lemma score_candidates_total
  (evaluate : nat -> state -> result (list score)) (round : nat)
  (l : list state) :
  (forall s, exists cv, evaluate round s = Ok cv) ->
  exists work,
    score_candidates evaluate round (iter_of_list l) = Ok work
    /\ map fst work = l.
Proof.
  intros Ht; induction l as [|s l [work [Hw Hm]]]; simpl.
  - exists []; auto.
  - destruct (Ht s) as [cv Hcv]; rewrite Hcv, Hw; simpl.
    exists ((s, cv) :: work); simpl; rewrite Hm; auto.
Qed.

Lemma update_results_check_results {G : Type} {strategy : Strategy G}
  (b : dict) (self : @FeatureSelector G)
  (r : result (pystate * option score * bool)) (self' : @FeatureSelector G) :
  update_results_check b self = (r, self') ->
  results_ self' = dict_update (results_ self) b.
Proof.
  intros H; apply update_results_check_spec in H
    as [(-> & -> & ->) | (Hne & [(e & _ & -> & ->)
                                | (cs & sc & fin & _ & -> & ->)])];
    try reflexivity.
  destruct (score_gt sc (best_score_ self)); reflexivity.
Qed.

Section ExhaustiveFit.

Variable evaluate : nat -> state -> result (list score).
Variable nanmean : list score -> score.

Local Abbreviation Selector := (@FeatureSelector MinMaxCandidates).

(** A round of the exhaustive search that runs to its end sets
    [finished]. *)
Lemma MinMaxCandidates_round_finishes (round : nat) (st st' : pystate)
  (self self' : Selector) :
  search_round evaluate nanmean round st self = (Ok st', self') ->
  finished self' = true.
Proof.
  unfold search_round.
  destruct (_batch evaluate nanmean round st self) as [[batch|e] s1];
    [|discriminate].
  destruct (update_results_check batch s1) as [ru s2] eqn:Eu.
  apply update_results_check_spec in Eu
    as [(-> & -> & ->) | (Hne & [(e & _ & -> & ->)
                                | (cs & sc & fin & Hc & -> & ->)])];
    try discriminate.
  - intros H; inversion H; reflexivity.
  - intros H; inversion H; subst; clear H; simpl.
    simpl in Hc; unfold MinMaxCandidates_check_finished in Hc.
    destruct (best_state_ s1) as [b|]; [|discriminate].
    destruct (dict_get _ b); [|discriminate].
    inversion Hc; reflexivity.
Qed.

(** X15.  [fit] with the exhaustive generator needs one round of its
    loop: with room for one round it never runs out of rounds, whatever
    the evaluator does. *)
Theorem exhaustive_fit_one_round (fuel : nat) (self : Selector) :
  fst (fit evaluate nanmean (S fuel) self) <> None.
Proof.
  unfold fit.
  destruct (fit_init evaluate nanmean self) as [[[]|e] s1] eqn:E1;
    [|discriminate].
  apply fit_init_Ok in E1 as (cv & _ & _ & _ & Hfin & _).
  unfold fit_try; simpl; rewrite Hfin.
  destruct (loop_body evaluate nanmean 1 (Some (initial_state s1)) s1)
    as [[st'|e] s2] eqn:E2.
  - apply loop_body_Ok, MinMaxCandidates_round_finishes in E2.
    destruct fuel; simpl; rewrite E2; discriminate.
  - destruct e; discriminate.
Qed.

(** X16.  The exhaustive search, with an evaluator that always returns
    scores and a generator that has not run yet, returns normally after
    its single batch; the table then holds the initial state and every
    candidate of the generator, and nothing else. *)
Theorem exhaustive_fit_table (fuel : nat) (self : Selector) :
  (forall round s, exists cv, evaluate round s = Ok cv) ->
  _have_already_run (state_generator self) = false ->
  _TESTING_INTERRUPT_MODE self = false ->
  exists self' candidates,
    fit evaluate nanmean (S fuel) self = (Some (Ok tt), self')
    /\ fst (MinMaxCandidates_call (state_generator self)
              (Some (initial_state self))) = Some candidates
    /\ (forall k, In k (dict_keys (results_ self'))
                  <-> k = initial_state self \/ In k candidates)
    /\ interrupted_ self' = false
    /\ _have_already_run (state_generator self') = true.
Proof.
  intros Ht Hrun Htest.
  destruct (fit_init evaluate nanmean self) as [r s1] eqn:E1.
  assert (Hr : r = Ok tt).
  { unfold fit_init in E1; simpl in E1.
    destruct (Ht 0 (initial_state self)) as [cv Hcv]; rewrite Hcv in E1.
    unfold update_results_check in E1; simpl in E1.
    unfold MinMaxCandidates_check_finished in E1; simpl in E1.
    rewrite state_eqb_refl in E1; inversion E1; reflexivity. }
  subst r.
  pose proof E1 as E1'.
  apply fit_init_Ok in E1'
    as (cv & _ & Hres & _ & Hfin & Hint & Hgen & Hini & _ & Htest1).
  assert (Hbest : best_state_ s1 = Some (initial_state self)).
  { unfold fit_init in E1; simpl in E1.
    destruct (evaluate 0 (initial_state self)) as [cv0|]; [|discriminate].
    unfold update_results_check in E1; simpl in E1.
    unfold MinMaxCandidates_check_finished in E1; simpl in E1.
    rewrite state_eqb_refl in E1; simpl in E1.
    rewrite score_gt_irrefl in E1; inversion E1; reflexivity. }
  set (g := state_generator self) in *.
  set (init := initial_state self) in *.
  assert (Hcall : exists candidates,
             MinMaxCandidates_call g (Some init)
             = (Some candidates,
                snd (MinMaxCandidates_call g (Some init)))
             /\ _have_already_run (snd (MinMaxCandidates_call g (Some init)))
                = true).
  { unfold MinMaxCandidates_call; rewrite Hrun; simpl; eauto. }
  destruct Hcall as (cands & Hcall & Hrun').
  destruct (score_candidates_total evaluate 1 cands (Ht 1))
    as (work & Hwork & Hmap).
  subst cands.
  (* the single round *)
  assert (Hbatch : _batch evaluate nanmean 1 (Some init) s1
                   = (Ok (batch_of nanmean work),
                      set_state_generator s1
                        (snd (MinMaxCandidates_call g (Some init))))).
  { unfold _batch; simpl; rewrite Hgen, Hcall; simpl; rewrite Hwork.
    reflexivity. }
  destruct (update_results_check (batch_of nanmean work)
              (set_state_generator s1
                 (snd (MinMaxCandidates_call g (Some init)))))
    as [ru s2] eqn:Eu.
  pose proof (update_results_check_results _ _ _ _ Eu) as Hresults.
  simpl in Hresults.
  assert (Hs2 : exists st sc,
             ru = Ok (st, sc, true)
             /\ interrupted_ s2 = false
             /\ _TESTING_INTERRUPT_MODE s2 = false
             /\ state_generator s2
                = snd (MinMaxCandidates_call g (Some init))).
  { apply update_results_check_spec in Eu
      as [(_ & -> & ->) | (Hne & [(e & Hc & _ & _)
                                 | (cs & sc & fin & Hc & -> & ->)])].
    - exists None, None; simpl.
      split; [reflexivity|]; split; [exact Hint|].
      split; [rewrite Htest1; exact Htest | reflexivity].
    - exfalso; simpl in Hc; unfold MinMaxCandidates_check_finished in Hc.
      rewrite Hbest in Hc.
      destruct (dict_get_Some_key
                  (dict_update (results_ s1) (batch_of nanmean work)) init)
        as [e' He'].
      { apply dict_update_keys; left; rewrite Hres; left; reflexivity. }
      rewrite He' in Hc; discriminate.
    - simpl in Hc; unfold MinMaxCandidates_check_finished in Hc.
      rewrite Hbest in Hc.
      destruct (dict_get _ init); [|discriminate].
      inversion Hc; subst.
      exists (Some init), (Some (avg_score r)).
      destruct (score_gt (avg_score r) _); simpl;
        (split; [reflexivity|]; split; [exact Hint|];
         split; [rewrite Htest1; exact Htest | reflexivity]). }
  destruct Hs2 as (st & sc & -> & Hint2 & Htest2 & Hgen2).
  exists (postprocess (set_fitted (set_finished s2 true) true)),
    (map fst work).
  split.
  { unfold fit; rewrite E1.
    unfold fit_try; simpl; rewrite Hfin, Hini.
    unfold loop_body, search_round; fold init.
    rewrite Hbatch, Eu; simpl; rewrite Htest2.
    destruct fuel; reflexivity. }
  split; [rewrite Hcall; reflexivity|].
  destruct (postprocess_fields (set_fitted (set_finished s2 true) true))
    as (-> & -> & _ & -> & _); simpl.
  split; [|split; [exact Hint2 | rewrite Hgen2; exact Hrun']].
  intros k.
  assert (Hk : In k (dict_keys (results_ s2))
               <-> In k (dict_keys (results_ s1))
                   \/ In k (dict_keys (batch_of nanmean work))).
  { rewrite Hresults; apply dict_update_keys. }
  rewrite Hk, Hres, batch_of_keys; simpl.
  split; [intros [[E|[]]|H]; auto | intros [E|H]; auto].
Qed.

End ExhaustiveFit.

Lemma exhaustive_fit_table_witness :
  exists self' candidates,
    fit score_by_size first_score 1
      (FeatureSelector_init [0] (three_columns [] []))
    = (Some (Ok tt), self')
    /\ fst (MinMaxCandidates_call (three_columns [] []) (Some [0]))
       = Some candidates
    /\ (forall k, In k (dict_keys (results_ self'))
                  <-> k = [0] \/ In k candidates)
    /\ interrupted_ self' = false
    /\ _have_already_run (state_generator self') = true.
Proof.
  apply (exhaustive_fit_table score_by_size first_score 0
           (FeatureSelector_init [0] (three_columns [] []))).
  - intros round s; eexists; reflexivity.
  - reflexivity.
  - reflexivity.
Defined.

(** X17.  The generator object is not reset by [fit].  A run on an
    exhaustive generator that has already produced its candidates
    evaluates the initial state and nothing else: it returns normally
    and its table holds that single state. *)
Theorem exhaustive_refit_initial_state_only
  (evaluate : nat -> state -> result (list score))
  (nanmean : list score -> score) (fuel : nat)
  (self : @FeatureSelector MinMaxCandidates) (cv : list score) :
  _have_already_run (state_generator self) = true ->
  evaluate 0 (initial_state self) = Ok cv ->
  exists self',
    fit evaluate nanmean (S fuel) self = (Some (Ok tt), self')
    /\ results_ self'
       = [(initial_state self, mk_entry cv (nanmean cv))]
    /\ fitted self' = true.
Proof.
  intros Hrun Hcv.
  destruct (fit_init evaluate nanmean self) as [r s1] eqn:E1.
  assert (Hr : r = Ok tt).
  { unfold fit_init in E1; simpl in E1; rewrite Hcv in E1.
    unfold update_results_check in E1; simpl in E1.
    unfold MinMaxCandidates_check_finished in E1; simpl in E1.
    rewrite state_eqb_refl in E1; inversion E1; reflexivity. }
  subst r.
  pose proof (fit_init_Ok _ _ _ _ E1)
    as (cv' & Hcv' & Hres & _ & Hfin & _ & Hgen & Hini & _).
  rewrite Hcv in Hcv'; inversion Hcv'; subst cv'; clear Hcv'.
  assert (Hround : search_round evaluate nanmean 1
                     (Some (initial_state s1)) s1
                   = (Ok None, set_finished s1 true)).
  { rewrite <- Hgen in Hrun.
    unfold search_round, _batch; simpl.
    unfold MinMaxCandidates_call; rewrite Hrun; simpl.
    destruct s1; reflexivity. }
  assert (Hloop : exists o,
             search_loop evaluate nanmean (S fuel) 1
               (Some (initial_state s1)) s1
             = (Some o, set_finished s1 true)
             /\ (o = Ok tt \/ o = Raise KeyboardInterrupt)).
  { simpl; rewrite Hfin; unfold loop_body; rewrite Hround.
    destruct (_TESTING_INTERRUPT_MODE (set_finished s1 true)).
    - exists (Raise KeyboardInterrupt); auto.
    - exists (Ok tt); split; [destruct fuel; reflexivity | auto]. }
  destruct Hloop as (o & Hloop & Ho).
  unfold fit; rewrite E1; unfold fit_try; rewrite Hloop.
  destruct Ho as [-> | ->]; eexists;
    (split; [reflexivity|]);
    match goal with
    | |- context [postprocess ?s] =>
        destruct (postprocess_fields s) as (-> & _ & -> & _)
    end; simpl; auto.
Qed.

Lemma exhaustive_refit_initial_state_only_witness :
  exists self',
    fit score_by_size first_score 1
      (snd (fit score_by_size first_score 1
              (FeatureSelector_init [0] (three_columns [] []))))
    = (Some (Ok tt), self')
    /\ results_ self' = [([0], mk_entry [Fin (1#1)] (Fin (1#1)))]
    /\ fitted self' = true.
Proof.
  exact (exhaustive_refit_initial_state_only score_by_size first_score 0
           (snd (fit score_by_size first_score 1
                   (FeatureSelector_init [0] (three_columns [] []))))
           [Fin (1#1)] eq_refl eq_refl).
Defined.

(** ** What the constructor establishes *)

Lemma map_result_Ok {A B : Type} (f : A -> result B) (l : list A)
  (bs : list B) :
  map_result f l = Ok bs ->
  length bs = length l
  /\ forall b, In b bs <-> exists a, In a l /\ f a = Ok b.
Proof.
  revert bs; induction l as [|a l IH]; simpl; intros bs H.
  - inversion H; subst; split; [reflexivity|].
    intros b; split; [intros [] | intros (a & [] & _)].
  - destruct (f a) as [b0|e] eqn:Ea; simpl in H; [|discriminate].
    destruct (map_result f l) as [bs0|e]; simpl in H; [|discriminate].
    inversion H; subst; clear H.
    destruct (IH bs0 eq_refl) as [Hlen Hin].
    split; [simpl; congruence|].
    intros b; simpl; rewrite Hin; split.
    + intros [<-|(a' & Ha' & Hf)]; [exists a; auto | exists a'; auto].
    + intros (a' & [<-|Ha'] & Hf); [left; congruence | right; eauto].
Qed.

Lemma py_index_In {A : Type} (l : list A) (i : Z) (a : A) :
  py_index l i = Ok a -> In a l.
Proof.
  unfold py_index.
  destruct ((_ <? 0) || _)%Z; [discriminate|].
  destruct (nth_error l _) as [a'|] eqn:E; [|discriminate].
  intros H; inversion H; subst; exact (nth_error_In _ _ E).
Qed.

Lemma build_column_map_Ok (info : list (feature * Column))
  (cols : list feature) (idx : nat) (cmap : list (feature * (nat * nat))) :
  build_column_map info cols idx = Ok cmap ->
  forall col, In col cols -> exists c, info_get info col = Ok c.
Proof.
  revert idx cmap; induction cols as [|col0 cols IH]; simpl;
    intros idx cmap H col Hin; [destruct Hin|].
  destruct (info_get info col0) as [c|e] eqn:E; simpl in H; [|discriminate].
  destruct (build_column_map info cols _) as [rest|e] eqn:E';
    simpl in H; [|discriminate].
  destruct Hin as [<-|Hin]; [eauto | exact (IH _ _ E' col Hin)].
Qed.

(** The parts of a generator that [__init__] returns. *)
Lemma MinMaxCandidates_init_Ok_parts cfd cc gci
  (X : dataset) (mn mx : pyobj) (fixed : option (list Z))
  (custom : option (list string)) (cat : option (list Z))
  (m : MinMaxCandidates) :
  MinMaxCandidates_init cfd cc gci X mn mx fixed custom cat = Ok m ->
  NoDup (fixed_features m)
  /\ incl (fixed_features m) (columns m)
  /\ (forall x, In x (fixed_features m) <->
        exists fs f, fixed = Some fs /\ In f fs
                     /\ py_index (columns m) f = Ok x)
  /\ (forall col, In col (columns m) ->
        exists c, info_get (column_info_ m) col = Ok c).
Proof.
  unfold MinMaxCandidates_init; intros H.
  bind_ok H.
  destruct (negb (isinstance_int mx) || _); [discriminate|].
  destruct (negb (isinstance_int mn) || _); [discriminate|].
  destruct (as_int mx <? as_int mn)%Z; [discriminate|].
  bind_ok H.
  inversion H; subst; clear H; simpl.
  assert (Hfix : forall x, In x a3 <->
            exists fs f, fixed = Some fs /\ In f fs
                         /\ py_index (dataset_columns X) f = Ok x).
  { destruct fixed as [fs|].
    - destruct (map_result (py_index (dataset_columns X)) fs) as [l|e] eqn:El;
        simpl in E3; [|discriminate].
      inversion E3; subst; clear E3.
      destruct (map_result_Ok _ _ _ El) as [_ Hin].
      intros x; rewrite set_of_In, Hin; split.
      + intros (f & Hf & Hp); exists fs, f; auto.
      + intros (fs' & f & Efs & Hf & Hp); inversion Efs; subst; eauto.
    - inversion E3; subst; intros x; split; [intros []|].
      intros (fs & f & Efs & _); discriminate. }
  split.
  { destruct fixed as [fs|].
    - destruct (map_result (py_index (dataset_columns X)) fs) as [l|e];
        simpl in E3; [|discriminate].
      inversion E3; apply set_of_NoDup.
    - inversion E3; constructor. }
  split.
  { intros x Hx; apply Hfix in Hx as (fs & f & _ & _ & Hp).
    exact (py_index_In _ _ _ Hp). }
  split; [exact Hfix|].
  exact (build_column_map_Ok _ _ _ _ E1).
Qed.

(** X18.  A generator that [__init__] returns has consistent parts: its
    fixed features are distinct columns, namely the columns at the
    positions given (none when no positions are given), and every column
    has its descriptor in [column_info_]. *)
Theorem MinMaxCandidates_init_parts cfd cc gci
  (X : dataset) (mn mx : pyobj) (fixed : option (list Z))
  (custom : option (list string)) (cat : option (list Z))
  (m : MinMaxCandidates) :
  MinMaxCandidates_init cfd cc gci X mn mx fixed custom cat = Ok m ->
  NoDup (fixed_features m)
  /\ incl (fixed_features m) (columns m)
  /\ (forall x, In x (fixed_features m) <->
        exists fs f, fixed = Some fs /\ In f fs
                     /\ py_index (columns m) f = Ok x)
  /\ (forall col, In col (columns m) ->
        exists c, info_get (column_info_ m) col = Ok c).
Proof. exact (MinMaxCandidates_init_Ok_parts cfd cc gci X mn mx fixed custom cat m). Qed.

Lemma MinMaxCandidates_init_parts_witness :
  exists m,
    MinMaxCandidates_init plain_categorical_from_df plain_check_categories
      plain_get_column_info (NdArray 4 3) (PyInt 1) (PyInt 2)
      (Some [(-1)%Z; 2%Z]) None None = Ok m
    /\ fixed_features m = [2]
    /\ NoDup (fixed_features m)
    /\ incl (fixed_features m) (columns m)
    /\ (forall x, In x (fixed_features m) <->
          exists fs f, Some [(-1)%Z; 2%Z] = Some fs /\ In f fs
                       /\ py_index (columns m) f = Ok x)
    /\ (forall col, In col (columns m) ->
          exists c, info_get (column_info_ m) col = Ok c).
Proof.
  eexists; split; [reflexivity|]; split; [reflexivity|].
  apply (MinMaxCandidates_init_parts plain_categorical_from_df
           plain_check_categories plain_get_column_info (NdArray 4 3)
           (PyInt 1) (PyInt 2) (Some [(-1)%Z; 2%Z]) None None).
  reflexivity.
Defined.

(** X19.  With [custom_feature_names] given, construction never
    succeeds on data that has a column: whatever the names, no object is
    returned (past the length check the renaming loop fails in its first
    round, where it reads [is_categorical] from the column identifier). *)
Theorem custom_feature_names_never_constructs cfd cc gci
  (X : dataset) (mn mx : pyobj) (fixed : option (list Z))
  (names : list string) (cat : option (list Z)) (m : MinMaxCandidates) :
  dataset_columns X <> [] ->
  MinMaxCandidates_init cfd cc gci X mn mx fixed (Some names) cat <> Ok m.
Proof.
  intros Hcols H; unfold MinMaxCandidates_init in H.
  bind_ok H.
  destruct (negb (isinstance_int mx) || _); [discriminate|].
  destruct (negb (isinstance_int mn) || _); [discriminate|].
  destruct (as_int mx <? as_int mn)%Z; [discriminate|].
  bind_ok H.
  destruct (negb (Z.of_nat (length names) =? Z.of_nat (shape0 X))%Z);
    [discriminate|].
  destruct (dataset_columns X) as [|col cols]; [contradiction|].
  destruct (info_get a0 col); simpl in E2; [|discriminate].
  destruct (py_index names 0); simpl in E2; discriminate.
Qed.

Lemma custom_feature_names_never_constructs_witness :
  dataset_columns (NdArray 2 2) <> []
  /\ MinMaxCandidates_init plain_categorical_from_df plain_check_categories
       plain_get_column_info (NdArray 2 2) (PyInt 1) (PyInt 1) None
       (Some ["a"; "b"]%string) None <> Ok (three_columns [] []).
Proof.
  assert (H : dataset_columns (NdArray 2 2) <> []) by (simpl; discriminate).
  split; [exact H|].
  exact (custom_feature_names_never_constructs plain_categorical_from_df
           plain_check_categories plain_get_column_info (NdArray 2 2)
           (PyInt 1) (PyInt 1) None ["a"; "b"]%string None
           (three_columns [] []) H).
Defined.

Lemma MinMaxCandidates_call_In (self : MinMaxCandidates) (st : pystate)
  (candidates : list state) (c : state) :
  fst (MinMaxCandidates_call self st) = Some candidates ->
  (In c candidates <->
   subseq c (columns self)
   /\ min_features self <= length c <= max_features self
   /\ issubset (fixed_features self) c = true).
Proof.
  unfold MinMaxCandidates_call.
  destruct (_have_already_run self); [discriminate|].
  intros H; inversion H; subst; clear H.
  rewrite in_flat_map; split.
  - intros (i & Hi & Hc).
    apply In_range in Hi.
    apply filter_In in Hc as [Hc Hf].
    apply In_combinations in Hc as [Hs Hl].
    repeat split; try assumption; lia.
  - intros (Hs & Hl & Hf).
    exists (length c); split; [apply In_range; exact Hl|].
    apply filter_In; split; [|exact Hf].
    apply In_combinations; auto.
Qed.

Lemma subseq_seq_prefix (a m d : nat) : subseq (seq a m) (seq a (m + d)).
Proof.
  revert a; induction m as [|m IH]; intros a; simpl; constructor; apply IH.
Qed.

(** X20.  Without fixed features [min_max_candidates] starts from the
    state (0, ..., min_features - 1); on an array with at least
    [min_features] columns the generator proposes that very state again
    among its candidates, whatever state it is called with. *)
Theorem min_max_candidates_initial_state_proposed cfd cc gci
  (n_rows n_cols : nat) (mn mx : pyobj)
  (custom : option (list string)) (cat : option (list Z))
  (init : state) (g : MinMaxCandidates) (st : pystate) :
  min_max_candidates cfd cc gci (NdArray n_rows n_cols) mn mx None custom cat
  = Ok (init, g) ->
  min_features g <= n_cols ->
  init = range 0 (min_features g)
  /\ exists candidates,
       fst (MinMaxCandidates_call g st) = Some candidates
       /\ In init candidates.
Proof.
  intros H Hmin.
  unfold min_max_candidates in H.
  destruct (MinMaxCandidates_init cfd cc gci (NdArray n_rows n_cols) mn mx
              None custom cat) as [m|e] eqn:Em; simpl in H; [|discriminate].
  destruct (MinMaxCandidates_init_bounds _ _ _ _ _ _ _ _ _ _ Em)
    as (_ & Hle & _ & Hcols & Hrun).
  destruct (MinMaxCandidates_init_Ok_parts _ _ _ _ _ _ _ _ _ _ Em)
    as (_ & _ & Hfix & _).
  assert (Hnil : fixed_features m = []).
  { destruct (fixed_features m) as [|x l]; [reflexivity|].
    destruct (proj1 (Hfix x) (or_introl eq_refl)) as (fs & f & E & _).
    discriminate. }
  rewrite Hnil in H; inversion H; subst; clear H.
  split; [reflexivity|].
  destruct (MinMaxCandidates_call g st) as [c g'] eqn:Ec.
  assert (Hc : exists candidates, c = Some candidates).
  { unfold MinMaxCandidates_call in Ec; rewrite Hrun in Ec.
    inversion Ec; eauto. }
  destruct Hc as [candidates ->].
  exists candidates; split; [reflexivity|].
  apply (MinMaxCandidates_call_In g st candidates);
    [rewrite Ec; reflexivity|].
  unfold range; rewrite Nat.sub_0_r, length_seq, Hnil, Hcols; simpl.
  split; [|split; [lia | reflexivity]].
  replace n_cols with (min_features g + (n_cols - min_features g)) by lia.
  apply subseq_seq_prefix.
Qed.

Lemma min_max_candidates_initial_state_proposed_witness :
  exists init g,
    min_max_candidates plain_categorical_from_df plain_check_categories
      plain_get_column_info (NdArray 4 3) (PyInt 2) (PyInt 2) None None None
    = Ok (init, g)
    /\ init = range 0 (min_features g)
    /\ exists candidates,
         fst (MinMaxCandidates_call g None) = Some candidates
         /\ In init candidates.
Proof.
  eexists; eexists; split; [reflexivity|].
  apply (min_max_candidates_initial_state_proposed plain_categorical_from_df
           plain_check_categories plain_get_column_info 4 3 (PyInt 2)
           (PyInt 2) None None _ _ None eq_refl).
  simpl; lia.
Defined.

(** ** Submodels and transform *)

Lemma map_result_total {A B : Type} (f : A -> result B) (l : list A) :
  (forall a, In a l -> exists b, f a = Ok b) ->
  exists bs, map_result f l = Ok bs /\ length bs = length l.
Proof.
  induction l as [|a l IH]; intros H; simpl; [exists []; auto|].
  destruct (H a (or_introl eq_refl)) as [b Hb]; rewrite Hb; simpl.
  destruct IH as (bs & Hbs & Hlen); [intros; apply H; right; assumption|].
  rewrite Hbs; simpl; exists (b :: bs); simpl; auto.
Qed.

(** X21.  Every candidate of a generator that [__init__] returned can be
    turned into a submodel: when the column encoders return their columns,
    [build_submodel] raises neither KeyError for a missing descriptor nor
    ValueError for an empty state. *)
Theorem build_submodel_of_candidate {A : Type}
  (get_columns : Column -> result (list A)) cfd cc gci
  (X : dataset) (mn mx : pyobj) (fixed : option (list Z))
  (custom : option (list string)) (cat : option (list Z))
  (g : MinMaxCandidates) (st : pystate) (candidates : list state)
  (k : state) :
  (forall c, exists cols, get_columns c = Ok cols) ->
  MinMaxCandidates_init cfd cc gci X mn mx fixed custom cat = Ok g ->
  fst (MinMaxCandidates_call g st) = Some candidates ->
  In k candidates ->
  exists M, build_submodel A get_columns (column_info_ g) (Some k) = Ok M.
Proof.
  intros Htot Hinit Hcall Hk.
  destruct (MinMaxCandidates_init_bounds _ _ _ _ _ _ _ _ _ _ Hinit)
    as (Hmin & _).
  destruct (MinMaxCandidates_init_Ok_parts _ _ _ _ _ _ _ _ _ _ Hinit)
    as (_ & _ & _ & Hinfo).
  apply (MinMaxCandidates_call_In g st candidates k Hcall) in Hk
    as (Hs & Hl & _).
  unfold build_submodel.
  destruct (map_result_total
              (fun col => c <- info_get (column_info_ g) col ;; get_columns c)
              k) as (blocks & Hb & Hlen).
  { intros col Hcol.
    destruct (Hinfo col (subseq_incl _ _ Hs col Hcol)) as [c Hc].
    rewrite Hc; simpl; apply Htot. }
  rewrite Hb; simpl.
  destruct blocks as [|b blocks]; [simpl in Hlen; lia | eauto].
Qed.

Lemma build_submodel_of_candidate_witness :
  exists g M,
    MinMaxCandidates_init plain_categorical_from_df plain_check_categories
      plain_get_column_info (NdArray 4 3) (PyInt 1) (PyInt 2) None None None
    = Ok g
    /\ build_submodel nat plain_get_columns (column_info_ g) (Some [0; 2])
       = Ok M.
Proof.
  eexists.
  assert (H := build_submodel_of_candidate plain_get_columns
                 plain_categorical_from_df plain_check_categories
                 plain_get_column_info (NdArray 4 3) (PyInt 1) (PyInt 2)
                 None None None _ None _ [0; 2]
                 (fun c => ex_intro _ [col_idx c] eq_refl)
                 eq_refl eq_refl).
  destruct H as [M HM]; [simpl; auto 10|].
  exists M; split; [reflexivity | exact HM].
Defined.

(** X22.  After a run of [fit] that returned normally, [transform] builds
    the submodel of the first best state of the table.  When no recorded
    average is greater than -inf (every evaluation gave NaN, say), the
    best state is [None] and [transform] raises TypeError although the
    object is fitted. *)
Theorem transform_after_fit {A : Type} {G : Type} {strategy : Strategy G}
  (get_columns : Column -> result (list A))
  (info : list (feature * Column))
  (evaluate : nat -> state -> result (list score))
  (nanmean : list score -> score) (fuel : nat)
  (self self' : @FeatureSelector G) :
  fit evaluate nanmean fuel self = (Some (Ok tt), self') ->
  transform A (build_submodel A get_columns info) self'
  = build_submodel A get_columns info (fst (batch_best (results_ self')))
  /\ ((forall x, In x (results_ self') ->
                 score_gt (avg_score (snd x)) NegInf = false) ->
      transform A (build_submodel A get_columns info) self'
      = Raise TypeError).
Proof.
  intros Hfit.
  destruct (fit_Ok_fields _ _ _ _ _ Hfit) as [Hf _].
  assert (Hbest : best_state_ self' = fst (batch_best (results_ self'))).
  { unfold fit in Hfit.
    destruct (fit_init evaluate nanmean self) as [[[]|e] s1];
      [|discriminate].
    destruct (fit_try evaluate nanmean fuel s1) as [[[[]|e]|] s2];
      try discriminate.
    inversion Hfit; subst; clear Hfit.
    destruct (postprocess_fields (set_fitted s2 true)) as (-> & _).
    rewrite <- postprocess_batch_best; reflexivity. }
  assert (Ht : transform A (build_submodel A get_columns info) self'
               = build_submodel A get_columns info
                   (fst (batch_best (results_ self')))).
  { unfold transform, _check_fitted; rewrite Hf, Hbest; reflexivity. }
  split; [exact Ht|].
  intros Hall; rewrite Ht.
  apply batch_best_None in Hall; rewrite Hall; reflexivity.
Qed.

Lemma transform_after_fit_witness :
  exists self',
    fit always_nan first_score 1
      (FeatureSelector_init [0] (three_columns [] []))
    = (Some (Ok tt), self')
    /\ transform nat (build_submodel nat plain_get_columns []) self'
       = Raise TypeError.
Proof.
  eexists; split.
  - vm_compute; reflexivity.
  - refine (proj2 (transform_after_fit plain_get_columns [] always_nan
                     first_score 1
                     (FeatureSelector_init [0] (three_columns [] []))
                     _ eq_refl) _).
    simpl; intros x Hx.
    repeat (destruct Hx as [<-|Hx]; [reflexivity|]); destruct Hx.
Defined.

(** ** The loop, with the state it carries *)

Lemma search_loop_finished {G : Type} {strategy : Strategy G}
  (evaluate : nat -> state -> result (list score))
  (nanmean : list score -> score) (fuel round : nat) (st : pystate)
  (self : @FeatureSelector G) :
  finished self = true ->
  search_loop evaluate nanmean fuel round st self = (Some (Ok tt), self).
Proof. intros H; destruct fuel; simpl; rewrite H; reflexivity. Qed.

Section LoopState.

Context {G : Type} {strategy : Strategy G}.
Variable evaluate : nat -> state -> result (list score).
Variable nanmean : list score -> score.

Local Abbreviation Selector := (@FeatureSelector G).

(** [J] relates the state carried by the loop and the object, [I] is
    what [J] leaves of the object alone. *)
Variable J : pystate -> Selector -> Prop.
Variable I : Selector -> Prop.

Hypothesis J_I : forall st self, J st self -> I self.
Hypothesis J_round :
  forall round st self r self',
    J st self ->
    search_round evaluate nanmean round st self = (r, self') ->
    I self'
    /\ forall st', r = Ok st' -> finished self' = false -> J st' self'.

Lemma search_loop_state_invariant (fuel round : nat) (st : pystate)
  (self : Selector) :
  J st self -> I (snd (search_loop evaluate nanmean fuel round st self)).
Proof.
  revert round st self; induction fuel as [|fuel IH]; intros round st self HJ;
    simpl.
  - destruct (finished self); exact (J_I _ _ HJ).
  - destruct (finished self); [exact (J_I _ _ HJ)|].
    unfold loop_body.
    destruct (search_round evaluate nanmean round st self) as [r s1] eqn:Er.
    destruct (J_round _ _ _ _ _ HJ Er) as [HI Hnext].
    destruct r as [st'|e]; [|exact HI].
    destruct (_TESTING_INTERRUPT_MODE s1); [exact HI|].
    destruct (finished s1) eqn:Ef.
    + rewrite search_loop_finished by exact Ef; exact HI.
    + apply IH, Hnext; auto.
Qed.

(** A measure of the carried state that every continuing round
    lowers. *)
Variable mu : pystate -> nat.

Hypothesis J_lowers :
  forall round st self st' self',
    J st self ->
    search_round evaluate nanmean round st self = (Ok st', self') ->
    finished self' = false -> mu st' < mu st.

Lemma search_loop_terminates (fuel round : nat) (st : pystate)
  (self : Selector) :
  J st self -> mu st < fuel ->
  fst (search_loop evaluate nanmean fuel round st self) <> None.
Proof.
  revert round st self; induction fuel as [|fuel IH]; intros round st self HJ
    Hmu; [lia|].
  simpl; destruct (finished self); [discriminate|].
  unfold loop_body.
  destruct (search_round evaluate nanmean round st self) as [r s1] eqn:Er.
  destruct (J_round _ _ _ _ _ HJ Er) as [HI Hnext].
  destruct r as [st'|e]; [|discriminate].
  destruct (_TESTING_INTERRUPT_MODE s1); [discriminate|].
  destruct (finished s1) eqn:Ef.
  - rewrite search_loop_finished by exact Ef; discriminate.
  - apply IH; [apply Hnext; auto|].
    pose proof (J_lowers _ _ _ _ _ HJ Er Ef); lia.
Qed.

End LoopState.

(** ** Rounds of the stepwise search *)

Lemma set_of_length_le (l : list feature) : length (set_of l) <= length l.
Proof.
  induction l as [|x l IH]; simpl; [lia|].
  destruct (mem x l); simpl; lia.
Qed.

(** In every direction what the stepwise generator yields is a forward
    candidate below [max_features] or a backward candidate above
    [min_features], also when the chain of direction "both" ends in an
    exception. *)
Lemma StepCandidates_call_yields (g : StepCandidates) (t : state)
  (it : iterator state) (k : state) :
  StepCandidates_call g (Some t) = Ok (Some it) ->
  In k (yielded it) ->
  (length (set_of t) < max_features (base g)
   /\ In k (forward_candidates (base g) (set_of t))
   /\ String.eqb (direction g) "backward" = false)
  \/ (min_features (base g) < length (set_of t)
      /\ In k (backward_candidates (base g) (set_of t))
      /\ String.eqb (direction g) "forward" = false).
Proof.
  rewrite StepCandidates_call_unfold; cbv zeta.
  destruct (length (set_of t) <? max_features (base g)) eqn:Ef;
    destruct (min_features (base g) <? length (set_of t)) eqn:Eb;
    destruct (String.eqb (direction g) "forward") eqn:Df;
    destruct (String.eqb (direction g) "backward") eqn:Db;
    try (apply String.eqb_eq in Df; apply String.eqb_eq in Db;
         rewrite Df in Db; discriminate);
    simpl; intros H Hk; inversion H; subst; clear H;
    repeat rewrite ?iter_app_Stop, ?yielded_iter_of_list in Hk;
    try (apply yielded_iter_app in Hk as [Hk|Hk];
         rewrite ?yielded_iter_of_list in Hk);
    simpl in Hk; try contradiction;
    try apply Nat.ltb_lt in Ef; try apply Nat.ltb_lt in Eb;
    first [left; repeat split; assumption
          | right; repeat split; assumption].
Qed.

Section StepRounds.

Variable evaluate : nat -> state -> result (list score).
Variable nanmean : list score -> score.

Local Abbreviation Selector := (@FeatureSelector StepCandidates).

(** A round of the stepwise search: the generator object stays, every
    new key of the table is a candidate yielded for the state at hand,
    and when the round runs to its end the state it hands on is [None] or
    such a candidate. *)
Lemma StepCandidates_round (round : nat) (st : pystate)
  (self : Selector) (r : result pystate) (self' : Selector) :
  search_round evaluate nanmean round st self = (r, self') ->
  state_generator self' = state_generator self
  /\ (forall k, In k (dict_keys (results_ self')) ->
        In k (dict_keys (results_ self))
        \/ exists t it, st = Some t
             /\ StepCandidates_call (state_generator self) (Some t)
                = Ok (Some it)
             /\ In k (yielded it))
  /\ (forall st', r = Ok st' -> finished self' = false ->
        exists t, st = Some t
          /\ (st' = None
              \/ exists k it, st' = Some k
                   /\ StepCandidates_call (state_generator self) (Some t)
                      = Ok (Some it)
                   /\ In k (yielded it))).
Proof.
  unfold search_round; intros H.
  destruct (_batch evaluate nanmean round st self) as [rb s1] eqn:Eb.
  apply _batch_spec in Eb
    as [(e & Hp & -> & ->) | (c & g & Hp & -> & Hc)].
  { inversion H; subst; split; [reflexivity|]; split; [auto | discriminate]. }
  simpl in Hp.
  destruct (StepCandidates_call (state_generator self) st) as [c'|e] eqn:Ec;
    simpl in Hp; [|discriminate].
  inversion Hp; subst c' g; clear Hp.
  assert (Hst : forall it, c = Some it ->
            exists t, st = Some t
              /\ StepCandidates_call (state_generator self) (Some t)
                 = Ok (Some it)).
  { intros it ->; destruct st as [t|]; [eauto | discriminate]. }
  destruct Hc as [[-> ->] | [(it & e & -> & _ & ->) | (it & w & -> & Hw & ->)]].
  - (* no generator: empty batch *)
    simpl in H; inversion H; subst; simpl.
    split; [reflexivity|]; split; [auto | discriminate].
  - inversion H; subst; simpl.
    split; [reflexivity|]; split; [auto | discriminate].
  - destruct (Hst it eq_refl) as (t & -> & Hcall).
    assert (Hbk : forall k, In k (dict_keys (batch_of nanmean w)) ->
                            In k (yielded it)).
    { intros k Hk; apply In_dict_keys in Hk as [e He].
      apply batch_of_entries in He as (cv & Hin & _).
      exact (proj1 (score_candidates_work _ _ _ _ Hw _ _ Hin)). }
    destruct (update_results_check (batch_of nanmean w) _) as [ru s2] eqn:Eu
      in H.
    pose proof (update_results_check_results _ _ _ _ Eu) as Hres.
    simpl in Hres.
    assert (Hkeys : forall k, In k (dict_keys (results_ s2)) ->
              In k (dict_keys (results_ self))
              \/ exists t0 it0, Some t = Some t0
                   /\ StepCandidates_call (state_generator self) (Some t0)
                      = Ok (Some it0)
                   /\ In k (yielded it0)).
    { intros k Hk; rewrite Hres in Hk.
      apply dict_update_keys in Hk as [Hk|Hk]; [left; exact Hk|].
      right; exists t, it; auto. }
    apply update_results_check_spec in Eu
      as [(Hbn & -> & ->) | (Hne & [(e & _ & -> & ->)
                                   | (cs & sc & fin & Hchk & -> & ->)])].
    + inversion H; subst; simpl.
      split; [reflexivity|]; split; [exact Hkeys | discriminate].
    + inversion H; subst; simpl.
      split; [reflexivity|]; split; [exact Hkeys | discriminate].
    + inversion H; subst; clear H.
      split; [destruct (score_gt sc _); reflexivity|].
      split.
      { intros k Hk; apply Hkeys.
        destruct (score_gt sc _); exact Hk. }
      intros st' Est _; inversion Est; subst st'; clear Est.
      exists t; split; [reflexivity|].
      simpl in Hchk; unfold StepCandidates_check_finished in Hchk.
      destruct (best_state_ _) as [b|]; [|discriminate].
      destruct (dict_get _ b); [|discriminate].
      inversion Hchk as [[Hcs Hsc Hfin]].
      destruct (batch_best_spec (batch_of nanmean w))
        as (_ & _ & [Hr | (k & e & Hin & Hr)]); rewrite Hr; simpl;
        [left; reflexivity|].
      right; exists k, it; split; [reflexivity|]; split; [exact Hcall|].
      apply Hbk, In_dict_keys; eauto.
Qed.

End StepRounds.

(** ** The stepwise search ends, and stays within its bounds *)

Lemma StronglySorted_lt_NoDup (l : list feature) :
  StronglySorted lt l -> NoDup l.
Proof.
  induction 1 as [|x l S IH F]; constructor; [|exact IH].
  intros Hx; rewrite Forall_forall in F; specialize (F x Hx); lia.
Qed.

Section StepSearch.

Variable evaluate : nat -> state -> result (list score).
Variable nanmean : list score -> score.

Local Abbreviation Selector := (@FeatureSelector StepCandidates).

(** The start of [fit] leaves at most the initial state in the table. *)
Lemma fit_init_keys {G : Type} {strategy : Strategy G}
  (self self' : @FeatureSelector G) (r : result unit) :
  fit_init evaluate nanmean self = (r, self') ->
  state_generator self' = state_generator self
  /\ initial_state self' = initial_state self
  /\ forall k, In k (dict_keys (results_ self')) -> k = initial_state self.
Proof.
  unfold fit_init; simpl.
  destruct (evaluate 0 (initial_state self)) as [cv|e].
  - destruct (update_results_check _ _) as [ru s2] eqn:Eu.
    pose proof (update_results_check_results _ _ _ _ Eu) as Hres.
    simpl in Hres.
    assert (Hk : forall k, In k (dict_keys (results_ s2)) ->
                           k = initial_state self).
    { rewrite Hres; intros k [<-|[]]; reflexivity. }
    clear Hres.
    apply update_results_check_spec in Eu
      as [(Hbn & -> & ->) | (Hne & [(e & _ & -> & ->)
                                   | (cs & sc & fin & _ & -> & ->)])];
      intros H; inversion H; subst; clear H; simpl in *;
      try (destruct (score_gt sc _); simpl in *);
      (split; [reflexivity|]; split; [reflexivity|]); exact Hk.
  - intros H; inversion H; subst; simpl.
    split; [reflexivity|]; split; [reflexivity|]; intros k [].
Qed.

(** [fit] changes the table of its loop no further. *)
Lemma fit_results {G : Type} {strategy : Strategy G} (P : dict -> Prop)
  (fuel : nat) (self : @FeatureSelector G) :
  (forall r self', fit_init evaluate nanmean self = (r, self') ->
                   P (results_ self')) ->
  (forall self1, fit_init evaluate nanmean self = (Ok tt, self1) ->
     P (results_ (snd (search_loop evaluate nanmean fuel 1
                         (Some (initial_state self1)) self1)))) ->
  P (results_ (snd (fit evaluate nanmean fuel self))).
Proof.
  intros H0 H1; unfold fit.
  destruct (fit_init evaluate nanmean self) as [[[]|e] s1] eqn:Ei;
    [|exact (H0 _ _ eq_refl)].
  specialize (H1 s1 eq_refl); unfold fit_try.
  destruct (search_loop evaluate nanmean fuel 1 (Some (initial_state s1)) s1)
    as [[[[]|e]|] s2]; simpl in *.
  - rewrite (proj1 (postprocess_fields _)); exact H1.
  - destruct e; simpl; try exact H1;
      rewrite (proj1 (postprocess_fields _)); exact H1.
  - exact H1.
Qed.

(** The loop of a search in one direction runs out of rounds. *)
Lemma stepwise_search_ends (fuel : nat) (self : Selector)
  (forward : bool) :
  direction (state_generator self)
  = (if forward then "forward" else "backward")%string ->
  rounds_left forward (max_features (base (state_generator self)))
    (Some (initial_state self)) < fuel ->
  fst (fit evaluate nanmean fuel self) <> None.
Proof.
  intros Hdir Hfuel; unfold fit.
  destruct (fit_init evaluate nanmean self) as [[[]|e] s1] eqn:Ei;
    [|discriminate].
  destruct (fit_init_keys _ _ _ Ei) as (Hg & Hi & _).
  assert (Hloop : fst (search_loop evaluate nanmean fuel 1
                         (Some (initial_state s1)) s1) <> None).
  { apply (search_loop_terminates evaluate nanmean
             (fun _ s => state_generator s = state_generator self)
             (fun s => state_generator s = state_generator self)) with
      (mu := rounds_left forward (max_features (base (state_generator self)))).
    - intros round st s r s' HJ Hr.
      destruct (StepCandidates_round _ _ _ _ _ _ _ Hr) as (Hg' & _ & _).
      split; [congruence | intros; congruence].
    - intros round st s st' s' HJ Hr Hf.
      destruct (StepCandidates_round _ _ _ _ _ _ _ Hr) as (_ & _ & Hn).
      destruct (Hn st' eq_refl Hf) as (t & -> & [-> | (k & it & -> & Hc & Hk)]);
        [simpl; lia|].
      rewrite HJ in Hc.
      destruct (StepCandidates_call_yields _ _ _ _ Hc Hk)
        as [(Hlt & Hin & Hd) | (Hlt & Hin & Hd)]; rewrite Hdir in Hd;
        destruct forward; try discriminate.
      + apply forward_candidate_shape in Hin as (Hlen & Hs & _).
        simpl; rewrite (set_of_NoDup_id k (StronglySorted_lt_NoDup _ Hs)).
        lia.
      + apply backward_candidate_shape in Hin as (Hlen & Hs & _).
        simpl; rewrite (set_of_NoDup_id k (StronglySorted_lt_NoDup _ Hs)).
        lia.
    - exact Hg.
    - rewrite Hi; exact Hfuel. }
  unfold fit_try.
  destruct (search_loop evaluate nanmean fuel 1 (Some (initial_state s1)) s1)
    as [[[[]|e]|] s2]; simpl in *; try discriminate.
  - destruct e; discriminate.
  - contradiction.
Qed.

(** The keys of the table of a stepwise search. *)
Lemma stepwise_keys_within_bounds (fuel : nat) (self : Selector)
  (k : state) :
  NoDup (initial_state self) ->
  within_bounds (base (state_generator self)) (length (initial_state self)) ->
  In k (dict_keys (results_ (snd (fit evaluate nanmean fuel self)))) ->
  within_bounds (base (state_generator self)) (length k)
  /\ (k = initial_state self \/ StronglySorted lt k).
Proof.
  intros Hnd Hb; revert k.
  set (g := state_generator self).
  set (good := fun k : state =>
                 within_bounds (base g) (length k)
                 /\ (k = initial_state self \/ StronglySorted lt k)).
  assert (Hinit : good (initial_state self)) by (split; auto).
  apply (fit_results (fun d => forall k, In k (dict_keys d) -> good k)).
  - intros r s' Hr k Hk.
    destruct (fit_init_keys _ _ _ Hr) as (_ & _ & Hkeys).
    rewrite (Hkeys k Hk); exact Hinit.
  - intros s1 Hs1.
    destruct (fit_init_keys _ _ _ Hs1) as (Hg & Hi & Hkeys).
    apply (search_loop_state_invariant evaluate nanmean
             (fun st s =>
                (state_generator s = g
                 /\ forall k, In k (dict_keys (results_ s)) -> good k)
                /\ forall t, st = Some t ->
                     within_bounds (base g) (length (set_of t)))
             (fun s =>
                state_generator s = g
                /\ forall k, In k (dict_keys (results_ s)) -> good k)
             (fun _ _ H => proj1 H)).
    + intros round st s r s' [[HG HK] HT] Hr.
      destruct (StepCandidates_round _ _ _ _ _ _ _ Hr) as (Hg' & Hk' & Hn).
      rewrite HG in *.
      assert (Hcand : forall t it c,
                st = Some t ->
                StepCandidates_call g (Some t) = Ok (Some it) ->
                In c (yielded it) ->
                within_bounds (base g) (length c) /\ StronglySorted lt c).
      { intros t it c Est Hc Hin.
        specialize (HT t Est); unfold within_bounds in *.
        destruct (StepCandidates_call_yields _ _ _ _ Hc Hin)
          as [(Hlt & Hin' & _) | (Hlt & Hin' & _)].
        - apply forward_candidate_shape in Hin' as (Hlen & Hs & _).
          split; [lia | exact Hs].
        - apply backward_candidate_shape in Hin' as (Hlen & Hs & _).
          split; [lia | exact Hs]. }
      split; [split; [exact Hg'|]|].
      * intros c Hc; destruct (Hk' c Hc) as [Hold | (t & it & Est & Hcall & Hy)];
          [exact (HK c Hold)|].
        destruct (Hcand t it c Est Hcall Hy); split; auto.
      * intros st' Est Hf.
        destruct (Hn st' Est Hf)
          as (t & Et & [-> | (c & it & -> & Hcall & Hy)]).
        { split; [split; [exact Hg'|]|discriminate].
          intros c Hc;
            destruct (Hk' c Hc) as [Hold | (t0 & it & Est0 & Hcall & Hy)];
            [exact (HK c Hold)|].
          destruct (Hcand t0 it c Est0 Hcall Hy); split; auto. }
        split; [split; [exact Hg'|]|].
        { intros c' Hc;
            destruct (Hk' c' Hc) as [Hold | (t0 & it0 & Est0 & Hcall0 & Hy0)];
            [exact (HK c' Hold)|].
          destruct (Hcand t0 it0 c' Est0 Hcall0 Hy0); split; auto. }
        intros t' Et'; inversion Et'; subst t'.
        destruct (Hcand t it c Et Hcall Hy) as [Hwb Hs].
        rewrite (set_of_NoDup_id c (StronglySorted_lt_NoDup _ Hs)); exact Hwb.
    + split; [split; [exact Hg|]|].
      * intros k Hk; rewrite (Hkeys k Hk); exact Hinit.
      * intros t Et; inversion Et; subst t.
        rewrite Hi, (set_of_NoDup_id _ Hnd); exact Hb.
Qed.

(** X23.  A stepwise search in one direction ends, whatever the
    evaluator and the scores: with n distinct features in the initial
    state, [fit] returns or raises within [max_features - n + 2] rounds
    of its loop going forward, and within [n + 2] rounds going
    backward. *)
Theorem stepwise_fit_terminates (fuel : nat) (self : Selector)
  (forward : bool) :
  direction (state_generator self)
  = (if forward then "forward" else "backward")%string ->
  rounds_left forward (max_features (base (state_generator self)))
    (Some (initial_state self)) < fuel ->
  fst (fit evaluate nanmean fuel self) <> None.
Proof. exact (stepwise_search_ends fuel self forward). Qed.

(** X24.  In every direction the stepwise search keeps to its bounds:
    when the initial state has no repeated feature and a size between
    [min_features] and [max_features], every key of the table [fit]
    leaves has a size between the two, and every key other than the
    initial state is a strictly increasing tuple.  This holds however
    [fit] ends, also when it raises or is interrupted. *)
Theorem stepwise_table_within_bounds (fuel : nat) (self : Selector)
  (k : state) :
  NoDup (initial_state self) ->
  within_bounds (base (state_generator self)) (length (initial_state self)) ->
  In k (dict_keys (results_ (snd (fit evaluate nanmean fuel self)))) ->
  within_bounds (base (state_generator self)) (length k)
  /\ (k = initial_state self \/ StronglySorted lt k).
Proof. exact (stepwise_keys_within_bounds fuel self k). Qed.

End StepSearch.

Lemma stepwise_fit_terminates_witness :
  rounds_left true 3 (Some [0]) < 4
  /\ fst (fit score_by_size first_score 4
            (FeatureSelector_init [0] forward_three)) <> None.
Proof.
  assert (H : rounds_left true 3 (Some [0]) < 4) by (simpl; lia).
  split; [exact H|].
  exact (stepwise_fit_terminates score_by_size first_score 4
           (FeatureSelector_init [0] forward_three) true eq_refl H).
Defined.

Lemma stepwise_table_within_bounds_witness :
  within_bounds (base forward_three) (length [0; 1])
  /\ ([0; 1] = [0] \/ StronglySorted lt [0; 1]).
Proof.
  apply (stepwise_table_within_bounds score_by_size first_score 4
           (FeatureSelector_init [0] forward_three) [0; 1]).
  - simpl; constructor; [intros []|constructor].
  - unfold within_bounds; simpl; lia.
  - vm_compute; auto.
Defined.

(** ** A forward search as [step_candidates] sets it up *)

Lemma StronglySorted_lt_seq (a n : nat) : StronglySorted lt (seq a n).
Proof.
  revert a; induction n as [|n IH]; intros a; simpl; constructor; [apply IH|].
  apply Forall_forall; intros x Hx; apply in_seq in Hx; lia.
Qed.

Lemma StepCandidates_init_Ok cfd cc gci X dir mn mx fixed custom cat g :
  StepCandidates_init cfd cc gci X dir mn mx fixed custom cat = Ok g ->
  direction g = dir
  /\ MinMaxCandidates_init cfd cc gci X mn mx fixed custom cat = Ok (base g).
Proof.
  unfold StepCandidates_init; intros H.
  destruct (MinMaxCandidates_init cfd cc gci X mn mx fixed custom cat)
    as [b|e]; simpl in H; [|discriminate].
  inversion H; subst; simpl; auto.
Qed.

(** The initial state of a forward search is a strictly increasing
    tuple, whatever [initial_features] is given. *)
Lemma step_candidates_forward_initial cfd cc gci rng X mn mx rs fixed initial
  custom cat init g :
  step_candidates cfd cc gci rng X "forward" mn mx rs fixed initial custom cat
  = Ok (init, g) ->
  StronglySorted lt init.
Proof.
  intros H.
  destruct (step_candidates_Ok _ _ _ _ _ _ _ _ _ _ _ _ _ _ _ H) as (Hi & _).
  destruct (StepCandidates_init_Ok _ _ _ _ _ _ _ _ _ _ _ Hi) as (_ & Hm).
  destruct (MinMaxCandidates_init_Ok_parts _ _ _ _ _ _ _ _ _ _ Hm)
    as (Hnd & _).
  unfold step_candidates in H; rewrite Hi in H; simpl in H.
  unfold resolve_initial_features in H; simpl in H.
  destruct (fixed_features (base g)) as [|f fs] eqn:Ef.
  - simpl in H.
    destruct (max_features (base g) <? _); [discriminate|].
    destruct (_ <? min_features (base g)); [discriminate|].
    inversion H; subst; apply StronglySorted_lt_seq.
  - simpl in H.
    destruct (max_features (base g) <? _); [discriminate|].
    destruct (_ <? min_features (base g)); [discriminate|].
    destruct (negb _); [discriminate|].
    inversion H; subst.
    apply Sorted_NoDup_lt;
      [exact (sorted_Sorted (f :: fs)) | exact (sorted_NoDup (f :: fs) Hnd)].
Qed.

(** X25.  A forward search that [step_candidates] sets up and [fit]
    runs: [fit] returns or raises within [max_features - min_features + 2]
    rounds of its loop, and every key of the table it leaves, at any
    point, is a strictly increasing tuple of between [min_features] and
    [max_features] features. *)
Theorem forward_search_from_step_candidates cfd cc gci rng
  (evaluate : nat -> state -> result (list score))
  (nanmean : list score -> score)
  (X : dataset) (mn mx : pyobj) (rs : nat)
  (fixed : option (list Z)) (initial : option (list feature))
  (custom : option (list string)) (cat : option (list Z))
  (init : state) (g : StepCandidates) :
  step_candidates cfd cc gci rng X "forward" mn mx rs fixed initial custom cat
  = Ok (init, g) ->
  fst (fit evaluate nanmean
         (max_features (base g) - min_features (base g) + 2)
         (FeatureSelector_init init g)) <> None
  /\ forall fuel k,
       In k (dict_keys (results_ (snd (fit evaluate nanmean fuel
                                         (FeatureSelector_init init g))))) ->
       within_bounds (base g) (length k) /\ StronglySorted lt k.
Proof.
  intros H.
  pose proof (step_candidates_forward_initial _ _ _ _ _ _ _ _ _ _ _ _ _ _ H)
    as Hs.
  destruct (step_candidates_Ok _ _ _ _ _ _ _ _ _ _ _ _ _ _ _ H)
    as (Hi & Hsub & Hb).
  destruct (StepCandidates_init_Ok _ _ _ _ _ _ _ _ _ _ _ Hi) as (Hd & _).
  pose proof (StronglySorted_lt_NoDup _ Hs) as Hnd.
  split.
  - apply (stepwise_search_ends evaluate nanmean _ _ true); simpl.
    + exact Hd.
    + rewrite (set_of_NoDup_id _ Hnd); lia.
  - intros fuel k Hk.
    destruct (stepwise_keys_within_bounds evaluate nanmean fuel
                (FeatureSelector_init init g) k Hnd Hb Hk) as (Hw & Hk').
    split; [exact Hw|].
    destruct Hk' as [->|Hk']; [exact Hs | exact Hk'].
Qed.

Lemma forward_search_from_step_candidates_witness :
  exists init g,
    step_candidates plain_categorical_from_df plain_check_categories
      plain_get_column_info first_choice (NdArray 4 3) "forward"
      (PyInt 1) (PyInt 2) 0 (Some [0%Z]) None None None
    = Ok (init, g)
    /\ fst (fit score_by_size first_score
              (max_features (base g) - min_features (base g) + 2)
              (FeatureSelector_init init g)) <> None
    /\ forall fuel k,
         In k (dict_keys (results_ (snd (fit score_by_size first_score fuel
                                           (FeatureSelector_init init g))))) ->
         within_bounds (base g) (length k) /\ StronglySorted lt k.
Proof.
  eexists; eexists; split; [vm_compute; reflexivity|].
  apply (forward_search_from_step_candidates plain_categorical_from_df
           plain_check_categories plain_get_column_info first_choice
           score_by_size first_score (NdArray 4 3) (PyInt 1) (PyInt 2) 0
           (Some [0%Z]) None None None).
  vm_compute; reflexivity.
Defined.

(** ** The table holds what the evaluator scored *)

Section Scored.

Context {G : Type} {strategy : Strategy G}.
Variable evaluate : nat -> state -> result (list score).
Variable nanmean : list score -> score.

Local Abbreviation Selector := (@FeatureSelector G).
Local Abbreviation scored d :=
  (forall k, In k (dict_keys d) -> exists round cv, evaluate round k = Ok cv).

Lemma fit_init_scored (self self' : Selector) (r : result unit) :
  fit_init evaluate nanmean self = (r, self') -> scored (results_ self').
Proof.
  intros H k Hk.
  destruct (fit_init_keys _ _ _ _ _ H) as (_ & _ & Hkeys).
  rewrite (Hkeys k Hk).
  destruct (evaluate 0 (initial_state self)) as [cv|e] eqn:E; [eauto|].
  unfold fit_init in H; simpl in H; rewrite E in H.
  inversion H; subst; destruct Hk.
Qed.

Lemma _batch_scored (round : nat) (st : pystate) (self : Selector)
  (r : result dict) (self' : Selector) :
  scored (results_ self) ->
  _batch evaluate nanmean round st self = (r, self') ->
  scored (results_ self') /\ forall b, r = Ok b -> scored b.
Proof.
  intros HI H.
  apply _batch_spec in H as [(e & _ & -> & ->) | (c & g & _ & -> & Hc)].
  - split; [exact HI | discriminate].
  - split; [exact HI|].
    intros b Hb.
    destruct Hc as [[-> ->] | [(it & e & -> & _ & ->) | (it & w & -> & Hw & ->)]].
    + inversion Hb; subst; intros k [].
    + discriminate.
    + inversion Hb; subst; clear Hb.
      intros k Hk; apply In_dict_keys in Hk as [e He].
      apply batch_of_entries in He as (cv & Hin & _).
      exists round, cv.
      exact (proj2 (score_candidates_work _ _ _ _ Hw _ _ Hin)).
Qed.

Lemma update_results_check_scored (b : dict) (self : Selector)
  (r : result (pystate * option score * bool)) (self' : Selector) :
  scored (results_ self) -> scored b ->
  update_results_check b self = (r, self') -> scored (results_ self').
Proof.
  intros HI HB H k Hk.
  rewrite (update_results_check_results _ _ _ _ H) in Hk.
  apply dict_update_keys in Hk as [Hk|Hk]; auto.
Qed.

(** Every key of the table was scored without an exception in some
    round. *)
Lemma fit_keys_scored (fuel : nat) (self : Selector) :
  scored (results_ (snd (fit evaluate nanmean fuel self))).
Proof.
  apply (fit_results evaluate nanmean (fun d => scored d)).
  - intros r s' Hr; exact (fit_init_scored _ _ _ Hr).
  - intros s1 Hs1.
    apply (search_loop_invariant evaluate nanmean
             (fun s : Selector => scored (results_ s)) (fun b => scored b)
             _batch_scored update_results_check_scored
             (fun s b H => H)).
    exact (fit_init_scored _ _ _ Hs1).
Qed.

(** X26.  [fit] records no state it did not score: every key of the
    table it leaves, however it ends, is a state on which the evaluator
    returned scores in some round. *)
Theorem fit_table_scored (fuel : nat) (self : Selector) (k : state) :
  In k (dict_keys (results_ (snd (fit evaluate nanmean fuel self)))) ->
  exists round cv, evaluate round k = Ok cv.
Proof. exact (fit_keys_scored fuel self k). Qed.

End Scored.

(** X27.  [fit_transform] on a run of [fit] that returns: the
    fitted-check of [transform] always passes, so the result is the
    submodel of the best state; and when there is a best state, building
    its submodel does not raise, since [fit] built it before to score
    it. *)
Theorem fit_transform_builds_best {A : Type} {G : Type}
  {strategy : Strategy G}
  (cross_val_score : nat -> list A -> result (list score))
  (fit_and_score : nat -> list A -> result score)
  (build : pystate -> result (list A)) (cv : bool)
  (nanmean : list score -> score) (fuel : nat)
  (self self' : @FeatureSelector G) :
  fit (_calc_score A cross_val_score fit_and_score build cv) nanmean fuel self
  = (Some (Ok tt), self') ->
  fit_transform A cross_val_score fit_and_score build cv nanmean fuel self
  = (Some (build (best_state_ self')), self')
  /\ forall k, best_state_ self' = Some k -> exists x, build (Some k) = Ok x.
Proof.
  intros Hfit.
  destruct (fit_Ok_fields _ _ _ _ _ Hfit) as [Hf _].
  split.
  - unfold fit_transform; rewrite Hfit.
    unfold transform, _check_fitted; rewrite Hf; reflexivity.
  - intros k Hk.
    assert (Hin : In k (dict_keys (results_ self'))).
    { unfold fit in Hfit.
      destruct (fit_init _ nanmean self) as [[[]|e] s1]; [|discriminate].
      destruct (fit_try _ nanmean fuel s1) as [[[[]|e]|] s2];
        try discriminate.
      inversion Hfit; subst; clear Hfit.
      pose proof (postprocess_batch_best (set_fitted s2 true)) as Hb.
      rewrite Hk in Hb.
      destruct (postprocess_fields (set_fitted s2 true)) as (-> & _).
      destruct (batch_best_spec (results_ (set_fitted s2 true)))
        as (_ & _ & [Hr | (k' & e & Hin & Hr)]); rewrite Hr in Hb.
      - discriminate.
      - inversion Hb; subst. apply In_dict_keys; eauto. }
    pose proof (fit_keys_scored
                  (_calc_score A cross_val_score fit_and_score build cv)
                  nanmean fuel self k) as Hs.
    rewrite Hfit in Hs; destruct (Hs Hin) as (round & cvs & Hc).
    unfold _calc_score in Hc.
    destruct (build (Some k)) as [x|e]; [eauto | discriminate].
Qed.

Lemma fit_table_scored_witness :
  exists round cv, score_by_size round [0; 1] = Ok cv.
Proof.
  apply (fit_table_scored score_by_size first_score 4
           (FeatureSelector_init [0] forward_three) [0; 1]).
  vm_compute; auto.
Defined.

Lemma fit_transform_builds_best_witness :
  exists self',
    fit (_calc_score nat width_scores width_score
           (build_submodel nat plain_get_columns three_info) false)
      first_score 1 (FeatureSelector_init [0] (three_columns three_info []))
    = (Some (Ok tt), self')
    /\ fit_transform nat width_scores width_score
         (build_submodel nat plain_get_columns three_info) false
         first_score 1 (FeatureSelector_init [0] (three_columns three_info []))
       = (Some (build_submodel nat plain_get_columns three_info
                  (best_state_ self')), self')
    /\ forall k, best_state_ self' = Some k ->
         exists x, build_submodel nat plain_get_columns three_info (Some k)
                   = Ok x.
Proof.
  eexists; split; [vm_compute; reflexivity|].
  apply (fit_transform_builds_best width_scores width_score
           (build_submodel nat plain_get_columns three_info) false
           first_score 1
           (FeatureSelector_init [0] (three_columns three_info []))).
  vm_compute; reflexivity.
Defined.
